(** * Session lifecycle and response normalisation of the AgentCore clients

    A shallow embedding of three TypeScript classes,

    - [CodeInterpreter]    (src/tools/code-interpreter/client.ts),
    - [Browser]            (src/tools/browser, the client after the types),
    - [PlaywrightBrowser]  (src/tools/browser/integrations/playwright/client.ts),

    followed by the properties of their session slot, of the tier-1
    operations, of the response normaliser and of the Playwright helpers.

    Conventions of the embedding.

    - A value of TypeScript type [any] is a [JSValue]: the JSON data model
      extended with [undefined].  Numbers are the integers a JSON payload
      can carry exactly; fractional numbers are outside the model.
    - An [async] method is a function from the state of the machine to a
      completion (returned value or thrown value) and the next state.  An
      [await] runs its operand to completion: the single-threaded schedule
      in which the caller awaits every call.
    - Every interaction with the outside (an SDK [send], a Playwright call)
      is a [Call]; its outcome is chosen by an environment that sees the
      calls issued so far.  The machine appends every call to its trace,
      whether the call resolves or rejects.

    Plan of the file: JavaScript values; the normaliser; calls, traces and
    [async] methods; the three classes; the vocabulary of the properties
    and concrete worlds; then the proofs, ending with the claims of the
    specification, C1 to C10. *)

From Stdlib Require Import String Ascii List ZArith Lia Bool DecimalString.
Import ListNotations.
Local Open Scope list_scope.
Local Open Scope string_scope.

Set Implicit Arguments.

(* ================================================================== *)
(** * JavaScript values *)
(* ================================================================== *)

Module JS.

#[local] Unset Elimination Schemes.

(** The values a response of type [any] is made of.  An object is the
    list of its fields in the order of its own property keys, the order
    in which [JSON.stringify] prints them; the keys of one object are
    pairwise distinct. *)
Inductive JSValue : Type :=
| JUndefined
| JNull
| JBool (b : bool)
| JNum (n : Z)
| JStr (s : string)
| JArr (items : list JSValue)
| JObj (fields : list (string * JSValue)).

#[local] Set Elimination Schemes.

(** What a [throw] carries: an instance of [Error] (with the [name] of
    its class and its [message]) or any other value. *)
Inductive Thrown : Type :=
| ErrorObject (name message : string)
| ThrownValue (v : JSValue).

(** A completion of an evaluation: a value, or an exception. *)
Inductive Completion (A : Type) : Type :=
| Returns (a : A)
| Throws (e : Thrown).

Arguments Returns {A} a.
Arguments Throws {A} e.

Definition bind {A B : Type} (m : Completion A) (k : A -> Completion B)
  : Completion B :=
  match m with
  | Returns a => k a
  | Throws e => Throws e
  end.

Definition TypeError (message : string) : Thrown :=
  ErrorObject "TypeError" message.

(** The line feed and the double quote, built from their codes. *)
Definition LF : string := String (ascii_of_nat 10) EmptyString.
Definition DQUOTE : string := String (ascii_of_nat 34) EmptyString.

(** [ToBoolean]. *)
Definition truthy (v : JSValue) : bool :=
  match v with
  | JUndefined | JNull => false
  | JBool b => b
  | JNum n => negb (Z.eqb n 0)
  | JStr s => negb (String.eqb s EmptyString)
  | JArr _ | JObj _ => true
  end.

Definition nullish (v : JSValue) : bool :=
  match v with
  | JUndefined | JNull => true
  | _ => false
  end.

(** [typeof v === 'string']. *)
Definition is_string (v : JSValue) : bool :=
  match v with JStr _ => true | _ => false end.

(** [v === 'lit'] for a string literal. *)
Definition strict_eq_str (v : JSValue) (lit : string) : bool :=
  match v with
  | JStr s => String.eqb s lit
  | _ => false
  end.

(** The own data property [key] of an object, [undefined] when there is
    none. *)
Fixpoint lookup (key : string) (fields : list (string * JSValue)) : JSValue :=
  match fields with
  | [] => JUndefined
  | (k, v) :: rest => if String.eqb k key then v else lookup key rest
  end.

Definition has_own (key : string) (fields : list (string * JSValue)) : bool :=
  existsb (fun kv => String.eqb (fst kv) key) fields.

Definition describe (v : JSValue) : string :=
  match v with
  | JNull => "null"
  | _ => "undefined"
  end.

(** The member access [v.key].  Reading a property of [undefined] or
    [null] throws a [TypeError]; a primitive or an array has none of the
    keys the clients read (no prototype property is modelled), so the
    access yields [undefined]. *)
Definition get (v : JSValue) (key : string) : Completion JSValue :=
  match v with
  | JUndefined | JNull =>
      Throws (TypeError ("Cannot read properties of " ++ describe v
                           ++ " (reading '" ++ key ++ "')"))
  | JObj fields => Returns (lookup key fields)
  | _ => Returns JUndefined
  end.

(** The optional chain [v?.key]. *)
Definition get_opt (v : JSValue) (key : string) : JSValue :=
  match v with
  | JObj fields => lookup key fields
  | _ => JUndefined
  end.

(** [a ?? b]. *)
Definition coalesce (a b : JSValue) : JSValue :=
  if nullish a then b else a.

(** [a || b]. *)
Definition or_else (a b : JSValue) : JSValue :=
  if truthy a then a else b.

(** The digits of a number.  The numbers of the embedding are the
    integers; every digit is written, which is how JavaScript prints an
    integer below 2^53 in magnitude.  Beyond that JavaScript prints the
    shortest digits of the double, and exponent notation from 1e21:
    such numbers, fractions, [NaN] and the infinities are outside the
    embedding. *)
Definition Z_to_string (n : Z) : string :=
  NilZero.string_of_int (Z.to_int n).

Definition join_strings (sep : string) (parts : list string) : string :=
  String.concat sep parts.

(** [ToString], as a template literal and [Array.prototype.join] apply
    it.  An array prints as its elements joined by commas, [undefined]
    and [null] elements printing as nothing.  A plain object prints as
    [[object Object]]; when it shadows [toString] with a (necessarily
    non-callable) data property the conversion to a primitive fails. *)
Fixpoint ToString (v : JSValue) : Completion string :=
  match v with
  | JUndefined => Returns "undefined"
  | JNull => Returns "null"
  | JBool b => Returns (if b then "true" else "false")
  | JNum n => Returns (Z_to_string n)
  | JStr s => Returns s
  | JArr items =>
      bind
        ((fix elements (l : list JSValue) : Completion (list string) :=
            match l with
            | [] => Returns []
            | x :: rest =>
                bind (if nullish x then Returns EmptyString else ToString x)
                  (fun s => bind (elements rest)
                              (fun ss => Returns (s :: ss)))
            end) items)
        (fun parts => Returns (join_strings "," parts))
  | JObj fields =>
      if has_own "toString" fields
      then Throws (TypeError "Cannot convert object to primitive value")
      else Returns "[object Object]"
  end.

(** [parts.join(sep)]. *)
Fixpoint join_elements (parts : list JSValue) : Completion (list string) :=
  match parts with
  | [] => Returns []
  | x :: rest =>
      bind (if nullish x then Returns EmptyString else ToString x)
        (fun s => bind (join_elements rest) (fun ss => Returns (s :: ss)))
  end.

Definition Array_join (parts : list JSValue) (sep : string)
  : Completion string :=
  bind (join_elements parts) (fun ss => Returns (join_strings sep ss)).

(** [parts.filter(Boolean)]. *)
Definition filter_Boolean (parts : list JSValue) : list JSValue :=
  filter truthy parts.

(** The escapes of [JSON.stringify] inside a string literal. *)
Definition hex_digit (n : nat) : string :=
  String (nth n (list_ascii_of_string "0123456789abcdef") "0"%char)
         EmptyString.

Definition escape_char (c : ascii) : string :=
  let n := nat_of_ascii c in
  if Nat.eqb n 34 then "\" ++ DQUOTE
  else if Nat.eqb n 92 then "\\"
  else if Nat.eqb n 8 then "\b"
  else if Nat.eqb n 9 then "\t"
  else if Nat.eqb n 10 then "\n"
  else if Nat.eqb n 12 then "\f"
  else if Nat.eqb n 13 then "\r"
  else if Nat.ltb n 32
       then "\u00" ++ hex_digit (Nat.div n 16) ++ hex_digit (Nat.modulo n 16)
  else String c EmptyString.

Fixpoint escape (s : string) : string :=
  match s with
  | EmptyString => EmptyString
  | String c rest => escape_char c ++ escape rest
  end.

Definition JSON_quote (s : string) : string := DQUOTE ++ escape s ++ DQUOTE.

(** [JSON.stringify(v)]: [None] stands for the result [undefined].  An
    [undefined] element of an array prints as [null], an [undefined]
    field of an object is left out. *)
Fixpoint JSON_stringify (v : JSValue) : option string :=
  match v with
  | JUndefined => None
  | JNull => Some "null"
  | JBool b => Some (if b then "true" else "false")
  | JNum n => Some (Z_to_string n)
  | JStr s => Some (JSON_quote s)
  | JArr items =>
      Some ("[" ++ join_strings ","
                     (map (fun x => match JSON_stringify x with
                                    | Some s => s
                                    | None => "null"
                                    end) items)
                ++ "]")
  | JObj fields =>
      Some ("{" ++ join_strings ","
                     (flat_map
                        (fun kv => match JSON_stringify (snd kv) with
                                   | Some s => [JSON_quote (fst kv) ++ ":" ++ s]
                                   | None => []
                                   end) fields)
                ++ "}")
  end.

(** The result of [JSON.stringify] as a value. *)
Definition stringify (v : JSValue) : JSValue :=
  match JSON_stringify v with
  | Some s => JStr s
  | None => JUndefined
  end.

End JS.

Export JS.

Declare Scope completion_scope.
Delimit Scope completion_scope with completion.
Notation "x <- m ;; k" :=
  (JS.bind m (fun x => k))
    (at level 61, m at next level, right associativity) : completion_scope.

(* ================================================================== *)
(** * The response normaliser of the code interpreter *)
(* ================================================================== *)

Module Normalizer.

Local Open Scope completion_scope.

(** The object a [send] resolves to.  [fields] are its plain fields;
    [stream], when the output has one, is the async iterable of an
    [InvokeCodeInterpreterCommand] output: it yields [events] and then
    either ends or throws.  The test [if (response.stream)] is the test
    that the stream is there. *)
Record AsyncIterable : Type := {
  events : list JSValue;
  failure : option Thrown
}.

Record SdkOutput : Type := {
  fields : list (string * JSValue);
  stream : option AsyncIterable
}.

(** One round of the loop of [_extractFromContentArray]: the value the
    round pushes onto [parts]. *)
Definition extract_item (item : JSValue) : Completion JSValue :=
  type <- get item "type" ;;
  if strict_eq_str type "text" then
    get item "text"
  else
    (* [item.type === 'resource' && item.resource] *)
    resource <- (if strict_eq_str type "resource" then get item "resource"
                 else Returns (JBool false)) ;;
    if truthy resource then
      text <- get resource "text" ;;
      if truthy text then Returns text
      else Returns (stringify resource)
    else if strict_eq_str type "resource_link" then
      name <- get item "name" ;;
      description <- get item "description" ;;
      mimeType <- get item "mimeType" ;;
      uri <- get item "uri" ;;
      meta <- Array_join (filter_Boolean [name; description; mimeType]) " - " ;;
      uri_text <- ToString uri ;;
      Returns (JStr (meta ++ " (" ++ uri_text ++ ")"))
    else
      Returns (stringify item).

Fixpoint extract_items (content : list JSValue)
  : Completion (list JSValue) :=
  match content with
  | [] => Returns []
  | item :: rest =>
      part <- extract_item item ;;
      parts <- extract_items rest ;;
      Returns (part :: parts)
  end.

(** [_extractFromContentArray(content)]. *)
Definition _extractFromContentArray (content : list JSValue)
  : Completion string :=
  parts <- extract_items content ;;
  Array_join parts LF.

(** The three-way branch on [content], written twice in
    [_parseInvokeResponse]. *)
Definition content_to_string (content : JSValue) : Completion JSValue :=
  match content with
  | JArr items =>
      s <- _extractFromContentArray items ;;
      Returns (JStr s)
  | JStr _ => Returns content
  | _ => Returns (stringify content)
  end.

(** The body of the [for await] loop: the next value of [contentStr]. *)
Definition stream_step (contentStr : JSValue) (event : JSValue)
  : Completion JSValue :=
  result <- get event "result" ;;
  let content := get_opt result "content" in
  contentStr <- (if truthy content then content_to_string content
                 else Returns contentStr) ;;
  error <- get event "error" ;;
  if truthy error then
    message <- get error "message" ;;
    Returns (or_else message (JStr "Unknown error"))
  else Returns contentStr.

Fixpoint stream_loop (contentStr : JSValue) (evs : list JSValue)
  : Completion JSValue :=
  match evs with
  | [] => Returns contentStr
  | event :: rest =>
      contentStr <- stream_step contentStr event ;;
      stream_loop contentStr rest
  end.

(** [_parseInvokeResponse(response)]. *)
Definition _parseInvokeResponse (response : SdkOutput)
  : Completion JSValue :=
  let contentStr := JStr EmptyString in
  match stream response with
  | Some s =>
      contentStr <- stream_loop contentStr (events s) ;;
      match failure s with
      | Some e => Throws e
      | None => Returns contentStr
      end
  | None =>
      let content := get_opt (lookup "result" (fields response)) "content" in
      if truthy content then content_to_string content
      else Returns contentStr
  end.

End Normalizer.

Export Normalizer.

(* ================================================================== *)
(** * Remote calls and asynchronous methods *)
(* ================================================================== *)

Module Runtime.

(** The commands the clients hand to [BedrockAgentCoreClient.send]. *)
Inductive Command : Type :=
| StartCodeInterpreterSessionCommand
    (codeInterpreterIdentifier name : string) (sessionTimeoutSeconds : Z)
| StopCodeInterpreterSessionCommand
    (codeInterpreterIdentifier : string) (sessionId : JSValue)
| InvokeCodeInterpreterCommand
    (codeInterpreterIdentifier : string) (sessionId : JSValue)
    (name : string) (arguments : JSValue)
| StartBrowserSessionCommand
    (browserIdentifier name : string) (sessionTimeoutSeconds : Z)
    (viewPort : option (Z * Z))
| StopBrowserSessionCommand
    (browserIdentifier : string) (sessionId : JSValue)
| GetBrowserSessionCommand
    (browserIdentifier : string) (sessionId : JSValue)
| UpdateBrowserStreamCommand
    (browserIdentifier : string) (sessionId : JSValue)
    (streamStatus : string).

(** Handles of the Playwright objects the browser client keeps. *)
Definition PageHandle : Type := nat.
Definition ElementHandle : Type := nat.

Record ContextHandle : Type := {
  context_id : nat;
  pages : list PageHandle
}.

Record BrowserHandle : Type := {
  browser_id : nat;
  contexts : list ContextHandle
}.

(** The request [generateWebSocketUrl] signs. *)
Record HttpRequest : Type := {
  protocol : string;
  hostname : string;
  path : string;
  method : string;
  headers : list (string * JSValue)
}.

(** Every awaited interaction with an external collaborator, indexed by
    the type of the value it resolves to. *)
Inductive Call : Type -> Type :=
| Send (command : Command) : Call SdkOutput
| ImportPlaywright : Call unit
| ResolveCredentials (provider : option string) : Call JSValue
| Sign (request : HttpRequest) (region : string) (credentials : JSValue)
  : Call HttpRequest
| ConnectOverCDP (endpointURL : string) (hdrs : list (string * string))
  : Call BrowserHandle
| NewPage (context : ContextHandle) : Call PageHandle
| BrowserClose (browser : BrowserHandle) : Call unit
| PageGoto (page : PageHandle) (url waitUntil : string) (timeout : option Z)
  : Call unit
| PageQuery (page : PageHandle) (selector : string)
  : Call (option ElementHandle)
| ElementIsVisible (element : ElementHandle) : Call bool
| ElementTextContent (element : ElementHandle) : Call (option string)
| PageTextContent (page : PageHandle) (selector : string)
  : Call (option string)
| PageGoBack (page : PageHandle) (waitUntil : string) (timeout : Z)
  : Call unit
| PageGoForward (page : PageHandle) (waitUntil : string) (timeout : Z)
  : Call unit
| PageEvaluate (page : PageHandle) (script : string) : Call JSValue.

(** A call as the trace records it. *)
Inductive Event : Type :=
| Ev (R : Type) (call : Call R).

Arguments Ev {R} call.

(** The outside world: how a call settles, given the calls issued before
    it (oldest first). *)
Definition Env : Type := forall R : Type, list Event -> Call R -> Completion R.

(** The commands sent to the service among the calls of a trace. *)
Definition sent_command (e : Event) : list Command :=
  match e with
  | Ev call =>
      match call with
      | Send command => [command]
      | _ => []
      end
  end.

Definition sends (trace : list Event) : list Command :=
  flat_map sent_command trace.

(** The object [this] of the running method and the calls issued so
    far. *)
Record Machine (C : Type) : Type := {
  self : C;
  trace : list Event
}.

(** An [async] method of a class with state [C]. *)
Definition Async (C A : Type) : Type := Machine C -> Completion A * Machine C.

Section Async.

Context {C : Type}.

Definition resolve {A : Type} (a : A) : Async C A :=
  fun m => (Returns a, m).

Definition throw {A : Type} (e : Thrown) : Async C A :=
  fun m => (Throws e, m).

Definition await {A B : Type} (p : Async C A) (k : A -> Async C B)
  : Async C B :=
  fun m =>
    match p m with
    | (Returns a, m') => k a m'
    | (Throws e, m') => (Throws e, m')
    end.

(** [try { body } catch (error) { handler }]. *)
Definition try_catch {A : Type} (body : Async C A)
  (handler : Thrown -> Async C A) : Async C A :=
  fun m =>
    match body m with
    | (Returns a, m') => (Returns a, m')
    | (Throws e, m') => handler e m'
    end.

(** A synchronous evaluation inside an [async] method. *)
Definition eval {A : Type} (c : Completion A) : Async C A :=
  fun m => (c, m).

(** Reading and assigning the fields of [this]. *)
Definition this {A : Type} (field : C -> A) : Async C A :=
  fun m => (Returns (field (self m)), m).

Definition assign (update : C -> C) : Async C unit :=
  fun m => (Returns tt, {| self := update (self m); trace := trace m |}).

(** Issuing a call and awaiting it. *)
Definition perform (env : Env) {R : Type} (call : Call R) : Async C R :=
  fun m =>
    (env R (trace m) call,
     {| self := self m; trace := (trace m ++ [Ev call])%list |}).

(** The machine once one more call has been issued, and the machine
    with another value of [this]. *)
Definition after (m : Machine C) {R : Type} (call : Call R) : Machine C :=
  {| self := self m; trace := (trace m ++ [Ev call])%list |}.

Definition with_self (m : Machine C) (c : C) : Machine C :=
  {| self := c; trace := trace m |}.

(** [n] calls of a method in a row, each awaited. *)
Fixpoint repeatedly (n : nat) (p : Async C unit) : Async C unit :=
  match n with
  | O => resolve tt
  | S n' => await p (fun _ => repeatedly n' p)
  end.

(** A method is silent when it sends no command to the service, whatever
    else it calls. *)
Definition silent {A : Type} (p : Async C A) : Prop :=
  forall m, exists rest,
    trace (snd (p m)) = (trace m ++ rest)%list /\ sends rest = [].

(** A method is read-only when it assigns no field of [this]. *)
Definition readonly {A : Type} (p : Async C A) : Prop :=
  forall m, self (snd (p m)) = self m.

End Async.

End Runtime.

Export Runtime.

Declare Scope async_scope.
Delimit Scope async_scope with async.
Notation "x <- m ;; k" :=
  (Runtime.await m (fun x => k))
    (at level 61, m at next level, right associativity) : async_scope.
Notation "m ;;; k" :=
  (Runtime.await m (fun _ => k))
    (at level 61, right associativity) : async_scope.

(** [error instanceof Error ? error.message : fallback]. *)
Definition message_or (error : Thrown) (fallback : string) : string :=
  match error with
  | ErrorObject _ message => message
  | ThrownValue _ => fallback
  end.

(** The session record both client families store. *)
Record SessionInfo : Type := {
  sessionName : string;
  sessionId : JSValue;
  createdAt : JSValue;
  description : option string
}.

Definition already_active : Thrown :=
  ErrorObject "Error" "Session already active. Call stopSession() first.".

(** [o ?? d] and [params?.field] on optional typed values. *)
Definition default {A : Type} (o : option A) (d : A) : A :=
  match o with
  | Some a => a
  | None => d
  end.

Definition field_of {P A : Type} (params : option P) (field : P -> option A)
  : option A :=
  match params with
  | Some p => field p
  | None => None
  end.

(* ================================================================== *)
(** * class CodeInterpreter *)
(* ================================================================== *)

Module CodeInterpreter.

Module StartSessionParams.
Record t : Type := {
  sessionName : option string;
  description : option string;
  timeout : option Z
}.
End StartSessionParams.

Module ExecuteCodeParams.
Record t : Type := {
  code : string;
  language : option string;
  clearContext : option bool
}.
End ExecuteCodeParams.

Module ExecuteCommandParams.
Record t : Type := { command : string }.
End ExecuteCommandParams.

Module ReadFilesParams.
Record t : Type := { paths : list string }.
End ReadFilesParams.

Module FileEntry.
Record t : Type := { path : string; content : string }.
End FileEntry.

Module WriteFilesParams.
Record t : Type := { files : list FileEntry.t }.
End WriteFilesParams.

Module ListFilesParams.
Record t : Type := { path : option string }.
End ListFilesParams.

Module RemoveFilesParams.
Record t : Type := { paths : list string }.
End RemoveFilesParams.

(** The fields of an instance. *)
Record t : Type := {
  region : string;
  identifier : string;
  _session : option SessionInfo
}.

Definition set_session (s : option SessionInfo) (c : t) : t :=
  {| region := region c; identifier := identifier c; _session := s |}.

(** The default identifier and session name are the ones the test suite
    of the client pins down. *)
Definition DEFAULT_IDENTIFIER : string := "aws.codeinterpreter.v1".
Definition DEFAULT_SESSION_NAME : string := "default".

Section Methods.

(** The outside world, and the two defaults of [./types.js] whose values
    the client does not show. *)
Variable env : Env.
Variable DEFAULT_TIMEOUT : Z.
Variable DEFAULT_REGION : string.

Local Open Scope async_scope.

(** [new CodeInterpreter(config)], with [AWS_REGION] the value of the
    environment variable. *)
Definition constructor (config_region config_identifier AWS_REGION
                          : option string) : t :=
  {| region := default config_region (default AWS_REGION DEFAULT_REGION);
     identifier := default config_identifier DEFAULT_IDENTIFIER;
     _session := None |}.

Definition startSession (params : option StartSessionParams.t)
  : Async t SessionInfo :=
  session <- this _session ;;
  match session with
  | Some _ => throw already_active
  | None =>
      let sessionName :=
        default (field_of params StartSessionParams.sessionName)
                DEFAULT_SESSION_NAME in
      identifier <- this identifier ;;
      let command :=
        StartCodeInterpreterSessionCommand identifier sessionName
          (default (field_of params StartSessionParams.timeout)
                   DEFAULT_TIMEOUT) in
      response <- perform env (Send command) ;;
      let sessionInfo :=
        {| sessionName := sessionName;
           sessionId := lookup "sessionId" (fields response);
           createdAt := lookup "createdAt" (fields response);
           description := field_of params StartSessionParams.description |} in
      assign (set_session (Some sessionInfo)) ;;;
      resolve sessionInfo
  end.

Definition stopSession : Async t unit :=
  session <- this _session ;;
  match session with
  | None => resolve tt
  | Some session =>
      identifier <- this identifier ;;
      let command :=
        StopCodeInterpreterSessionCommand identifier (sessionId session) in
      perform env (Send command) ;;;
      assign (set_session None)
  end.

(** [if (!this._session) { await this.startSession() }]. *)
Definition ensure_session : Async t unit :=
  session <- this _session ;;
  match session with
  | None => startSession None ;;; resolve tt
  | Some _ => resolve tt
  end.

(** [this._session!.sessionId]: the assertion is erased at run time, so
    an empty slot makes the read throw. *)
Definition session_id : Async t JSValue :=
  session <- this _session ;;
  match session with
  | Some session => resolve (sessionId session)
  | None =>
      throw (TypeError "Cannot read properties of null (reading 'sessionId')")
  end.

(** [Error: ${error instanceof Error ? error.message : fallback}]. *)
Definition error_string (error : Thrown) (fallback : string) : JSValue :=
  JStr ("Error: " ++ message_or error fallback).

Definition executeCode (params : ExecuteCodeParams.t) : Async t JSValue :=
  ensure_session ;;;
  try_catch
    (identifier <- this identifier ;;
     sessionId <- session_id ;;
     let command :=
       InvokeCodeInterpreterCommand identifier sessionId "executeCode"
         (JObj ([("code", JStr (ExecuteCodeParams.code params));
                 ("language",
                  JStr (default (ExecuteCodeParams.language params) "python"))]
                ++ match ExecuteCodeParams.clearContext params with
                   | Some flag => [("clearContext", JBool flag)]
                   | None => []
                   end)%list) in
     response <- perform env (Send command) ;;
     eval (_parseInvokeResponse response))
    (fun error => resolve (error_string error "Unknown execution error")).

Definition executeCommand (params : ExecuteCommandParams.t)
  : Async t JSValue :=
  ensure_session ;;;
  try_catch
    (identifier <- this identifier ;;
     sessionId <- session_id ;;
     let command :=
       InvokeCodeInterpreterCommand identifier sessionId "executeCommand"
         (JObj [("command", JStr (ExecuteCommandParams.command params))]) in
     response <- perform env (Send command) ;;
     eval (_parseInvokeResponse response))
    (fun error => resolve (error_string error "Command execution failed")).

Definition readFiles (params : ReadFilesParams.t) : Async t JSValue :=
  ensure_session ;;;
  try_catch
    (identifier <- this identifier ;;
     sessionId <- session_id ;;
     let command :=
       InvokeCodeInterpreterCommand identifier sessionId "readFiles"
         (JObj [("paths", JArr (map JStr (ReadFilesParams.paths params)))]) in
     response <- perform env (Send command) ;;
     eval (_parseInvokeResponse response))
    (fun error => resolve (error_string error "Read failed")).

Definition writeFiles (params : WriteFilesParams.t) : Async t JSValue :=
  ensure_session ;;;
  try_catch
    (identifier <- this identifier ;;
     sessionId <- session_id ;;
     let command :=
       InvokeCodeInterpreterCommand identifier sessionId "writeFiles"
         (JObj [("content",
                 JArr (map (fun f => JObj [("path", JStr (FileEntry.path f));
                                           ("text", JStr (FileEntry.content f))])
                           (WriteFilesParams.files params)))]) in
     response <- perform env (Send command) ;;
     eval (_parseInvokeResponse response))
    (fun error => resolve (error_string error "Write failed")).

Definition listFiles (params : option ListFilesParams.t) : Async t JSValue :=
  ensure_session ;;;
  try_catch
    (identifier <- this identifier ;;
     sessionId <- session_id ;;
     let command :=
       InvokeCodeInterpreterCommand identifier sessionId "listFiles"
         (JObj [("path",
                 JStr (default (field_of params ListFilesParams.path) "."))]) in
     response <- perform env (Send command) ;;
     eval (_parseInvokeResponse response))
    (fun error => resolve (error_string error "List failed")).

Definition removeFiles (params : RemoveFilesParams.t) : Async t JSValue :=
  ensure_session ;;;
  try_catch
    (identifier <- this identifier ;;
     sessionId <- session_id ;;
     let command :=
       InvokeCodeInterpreterCommand identifier sessionId "removeFiles"
         (JObj [("paths", JArr (map JStr (RemoveFilesParams.paths params)))]) in
     response <- perform env (Send command) ;;
     eval (_parseInvokeResponse response))
    (fun error => resolve (error_string error "Remove failed")).

End Methods.

(** ** The tier-1 operations as requests *)

Inductive Operation : Type :=
| ExecuteCode (params : ExecuteCodeParams.t)
| ExecuteCommand (params : ExecuteCommandParams.t)
| ReadFiles (params : ReadFilesParams.t)
| WriteFiles (params : WriteFilesParams.t)
| ListFiles (params : option ListFilesParams.t)
| RemoveFiles (params : RemoveFilesParams.t).

Definition call (env : Env) (DEFAULT_TIMEOUT : Z) (op : Operation)
  : Async t JSValue :=
  match op with
  | ExecuteCode params => executeCode env DEFAULT_TIMEOUT params
  | ExecuteCommand params => executeCommand env DEFAULT_TIMEOUT params
  | ReadFiles params => readFiles env DEFAULT_TIMEOUT params
  | WriteFiles params => writeFiles env DEFAULT_TIMEOUT params
  | ListFiles params => listFiles env DEFAULT_TIMEOUT params
  | RemoveFiles params => removeFiles env DEFAULT_TIMEOUT params
  end.

(** The name, the arguments and the fallback text of each operation, as
    its method writes them. *)
Definition operation_name (op : Operation) : string :=
  match op with
  | ExecuteCode _ => "executeCode"
  | ExecuteCommand _ => "executeCommand"
  | ReadFiles _ => "readFiles"
  | WriteFiles _ => "writeFiles"
  | ListFiles _ => "listFiles"
  | RemoveFiles _ => "removeFiles"
  end.

Definition operation_arguments (op : Operation) : JSValue :=
  match op with
  | ExecuteCode params =>
      JObj ([("code", JStr (ExecuteCodeParams.code params));
             ("language",
              JStr (default (ExecuteCodeParams.language params) "python"))]
            ++ match ExecuteCodeParams.clearContext params with
               | Some flag => [("clearContext", JBool flag)]
               | None => []
               end)%list
  | ExecuteCommand params =>
      JObj [("command", JStr (ExecuteCommandParams.command params))]
  | ReadFiles params =>
      JObj [("paths", JArr (map JStr (ReadFilesParams.paths params)))]
  | WriteFiles params =>
      JObj [("content",
             JArr (map (fun f => JObj [("path", JStr (FileEntry.path f));
                                       ("text", JStr (FileEntry.content f))])
                       (WriteFilesParams.files params)))]
  | ListFiles params =>
      JObj [("path",
             JStr (default (field_of params ListFilesParams.path) "."))]
  | RemoveFiles params =>
      JObj [("paths", JArr (map JStr (RemoveFilesParams.paths params)))]
  end.

Definition operation_fallback (op : Operation) : string :=
  match op with
  | ExecuteCode _ => "Unknown execution error"
  | ExecuteCommand _ => "Command execution failed"
  | ReadFiles _ => "Read failed"
  | WriteFiles _ => "Write failed"
  | ListFiles _ => "List failed"
  | RemoveFiles _ => "Remove failed"
  end.

(** The commands of the three kinds of call an instance [c] issues. *)
Definition start_command (DEFAULT_TIMEOUT : Z) (c : t)
  (params : option StartSessionParams.t) : Command :=
  StartCodeInterpreterSessionCommand (identifier c)
    (default (field_of params StartSessionParams.sessionName)
             DEFAULT_SESSION_NAME)
    (default (field_of params StartSessionParams.timeout) DEFAULT_TIMEOUT).

Definition stop_command (c : t) (session : SessionInfo) : Command :=
  StopCodeInterpreterSessionCommand (identifier c) (sessionId session).

Definition invoke_command (c : t) (session : SessionInfo) (op : Operation)
  : Command :=
  InvokeCodeInterpreterCommand (identifier c) (sessionId session)
    (operation_name op) (operation_arguments op).

(** The record [startSession(params)] stores for a response. *)
Definition started (params : option StartSessionParams.t)
  (response : SdkOutput) : SessionInfo :=
  {| sessionName := default (field_of params StartSessionParams.sessionName)
                            DEFAULT_SESSION_NAME;
     sessionId := lookup "sessionId" (fields response);
     createdAt := lookup "createdAt" (fields response);
     description := field_of params StartSessionParams.description |}.

(** What an operation resolves to once its [send] has settled. *)
Definition settled (op : Operation) (outcome : Completion SdkOutput)
  : JSValue :=
  match outcome with
  | Returns response =>
      match _parseInvokeResponse response with
      | Returns contentStr => contentStr
      | Throws error => error_string error (operation_fallback op)
      end
  | Throws error => error_string error (operation_fallback op)
  end.

End CodeInterpreter.

(* ================================================================== *)
(** * class Browser *)
(* ================================================================== *)

Module Browser.

Module ViewportConfig.
Record t : Type := { width : Z; height : Z }.
End ViewportConfig.

Module StartSessionParams.
Record t : Type := {
  sessionName : option string;
  timeout : option Z;
  viewport : option ViewportConfig.t
}.
End StartSessionParams.

(** [GetSessionParams] and [UpdateStreamParams], with the fields the
    client reads from them. *)
Module GetSessionParams.
Record t : Type := {
  browserId : option string;
  sessionId : option string
}.
End GetSessionParams.

Module UpdateStreamParams.
Record t : Type := {
  browserId : option string;
  sessionId : option string;
  streamStatus : string
}.
End UpdateStreamParams.

Module WebSocketConnection.
Record t : Type := {
  url : string;
  headers : list (string * string)
}.
End WebSocketConnection.

(** The fields of an instance; a credentials provider is known by its
    name. *)
Record t : Type := {
  region : string;
  identifier : string;
  _session : option SessionInfo;
  _credentialsProvider : option string
}.

Definition set_session (s : option SessionInfo) (c : t) : t :=
  {| region := region c; identifier := identifier c; _session := s;
     _credentialsProvider := _credentialsProvider c |}.

Definition DEFAULT_IDENTIFIER : string := "aws.browser.v1".
Definition DEFAULT_SESSION_NAME : string := "default".
Definition DEFAULT_TIMEOUT : Z := 3600.
Definition DEFAULT_REGION : string := "us-west-2".

Definition missing_ids : Thrown :=
  ErrorObject "Error"
    ("Browser ID and Session ID must be provided or available "
       ++ "from current session. "
       ++ "Start a session first or provide explicit IDs.").

(** [this._session?.sessionId]. *)
Definition session_id_opt (session : option SessionInfo) : JSValue :=
  match session with
  | Some session => sessionId session
  | None => JUndefined
  end.

(** [params?.sessionId ?? this._session?.sessionId]. *)
Definition target_session (explicit : option string)
  (session : option SessionInfo) : JSValue :=
  match explicit with
  | Some id => JStr id
  | None => session_id_opt session
  end.

(** The entries of [signedRequest.headers] whose value is a string. *)
Fixpoint string_headers (entries : list (string * JSValue))
  : list (string * string) :=
  match entries with
  | [] => []
  | (key, JStr value) :: rest => (key, value) :: string_headers rest
  | _ :: rest => string_headers rest
  end.

(** An object literal built field by field: a field is set only when
    its guard holds. *)
Definition field_if (guard : bool) (key : string) (value : JSValue)
  : list (string * JSValue) :=
  if guard then [(key, value)] else [].

Section Methods.

(** The outside world and the value of [new Date()]. *)
Variable env : Env.
Variable now : JSValue.

Local Open Scope async_scope.

Definition constructor (config_region config_identifier AWS_REGION
                          config_credentialsProvider : option string) : t :=
  {| region := default config_region (default AWS_REGION DEFAULT_REGION);
     identifier := default config_identifier DEFAULT_IDENTIFIER;
     _session := None;
     _credentialsProvider := config_credentialsProvider |}.

Definition startSession (params : option StartSessionParams.t)
  : Async t SessionInfo :=
  session <- this _session ;;
  match session with
  | Some _ => throw already_active
  | None =>
      let sessionName :=
        default (field_of params StartSessionParams.sessionName)
                DEFAULT_SESSION_NAME in
      let sessionTimeoutSeconds :=
        default (field_of params StartSessionParams.timeout)
                DEFAULT_TIMEOUT in
      identifier <- this identifier ;;
      let command :=
        StartBrowserSessionCommand identifier sessionName
          sessionTimeoutSeconds
          (match field_of params StartSessionParams.viewport with
           | Some v => Some (ViewportConfig.width v, ViewportConfig.height v)
           | None => None
           end) in
      response <- perform env (Send command) ;;
      let sessionInfo :=
        {| sessionName := sessionName;
           sessionId := lookup "sessionId" (fields response);
           createdAt := coalesce (lookup "createdAt" (fields response)) now;
           description := None |} in
      assign (set_session (Some sessionInfo)) ;;;
      resolve sessionInfo
  end.

Definition stopSession : Async t unit :=
  session <- this _session ;;
  match session with
  | None => resolve tt
  | Some session =>
      identifier <- this identifier ;;
      let command :=
        StopBrowserSessionCommand identifier (sessionId session) in
      perform env (Send command) ;;;
      assign (set_session None)
  end.

Definition getSession (params : option GetSessionParams.t)
  : Async t JSValue :=
  identifier <- this identifier ;;
  session <- this _session ;;
  let browserId :=
    default (field_of params GetSessionParams.browserId) identifier in
  let sessionId :=
    target_session (field_of params GetSessionParams.sessionId) session in
  if negb (truthy (JStr browserId)) || negb (truthy sessionId) then
    throw missing_ids
  else
    response <-
      perform env (Send (GetBrowserSessionCommand browserId sessionId)) ;;
    let r := fields response in
    let responseData :=
      [("sessionId", lookup "sessionId" r);
       ("browserIdentifier", lookup "browserIdentifier" r);
       ("name", lookup "name" r);
       ("status", coalesce (lookup "status" r) (JStr "UNKNOWN"));
       ("createdAt", lookup "createdAt" r);
       ("lastUpdatedAt",
        coalesce (lookup "lastUpdatedAt" r) (lookup "createdAt" r));
       ("sessionTimeoutSeconds", lookup "sessionTimeoutSeconds" r)] in
    let streams := lookup "streams" r in
    if truthy streams then
      let autoStream := get_opt streams "automationStream" in
      let liveStream := get_opt streams "liveViewStream" in
      let automation :=
        field_if (truthy (get_opt autoStream "streamEndpoint"))
          "automationStream"
          (JObj ([("streamEndpoint", get_opt autoStream "streamEndpoint")]
                 ++ field_if (truthy (get_opt autoStream "streamStatus"))
                      "streamStatus" (get_opt autoStream "streamStatus"))%list) in
      let live :=
        field_if (truthy (get_opt liveStream "streamEndpoint"))
          "liveViewStream"
          (JObj [("streamEndpoint", get_opt liveStream "streamEndpoint")]) in
      resolve (JObj (responseData
                       ++ [("streams", JObj (automation ++ live)%list)])%list)
    else resolve (JObj responseData).

Definition updateBrowserStream (params : UpdateStreamParams.t)
  : Async t JSValue :=
  identifier <- this identifier ;;
  session <- this _session ;;
  let browserId := default (UpdateStreamParams.browserId params) identifier in
  let sessionId :=
    target_session (UpdateStreamParams.sessionId params) session in
  if negb (truthy (JStr browserId)) || negb (truthy sessionId) then
    throw missing_ids
  else
    response <-
      perform env
        (Send (UpdateBrowserStreamCommand browserId sessionId
                 (UpdateStreamParams.streamStatus params))) ;;
    let automationStream :=
      get_opt (lookup "streams" (fields response)) "automationStream" in
    resolve
      (JObj (field_if (truthy (get_opt automationStream "streamEndpoint"))
               "streamEndpoint" (get_opt automationStream "streamEndpoint")
             ++ field_if (truthy (get_opt automationStream "streamStatus"))
                  "streamStatus"
                  (get_opt automationStream "streamStatus"))%list).

Definition generateWebSocketUrl : Async t WebSocketConnection.t :=
  session <- this _session ;;
  match session with
  | None =>
      throw (ErrorObject "Error"
               "No active session. Call startSession() first.")
  | Some session =>
      region <- this region ;;
      identifier <- this identifier ;;
      let host := "bedrock-agentcore." ++ region ++ ".amazonaws.com" in
      id <- eval (ToString (sessionId session)) ;;
      let path :=
        "/browser-streams/" ++ identifier ++ "/sessions/" ++ id
          ++ "/automation" in
      let wsUrl := "wss://" ++ host ++ path in
      provider <- this _credentialsProvider ;;
      credentials <- perform env (ResolveCredentials provider) ;;
      let request :=
        {| protocol := "wss:"; hostname := host; path := path;
           method := "GET"; headers := [("host", JStr host)] |} in
      signedRequest <- perform env (Sign request region credentials) ;;
      resolve {| WebSocketConnection.url := wsUrl;
                 WebSocketConnection.headers :=
                   string_headers (headers signedRequest) |}
  end.

End Methods.

(** The commands of the session calls an instance [c] issues, and the
    record [startSession(params)] stores for a response. *)
Definition start_command (c : t) (params : option StartSessionParams.t)
  : Command :=
  StartBrowserSessionCommand (identifier c)
    (default (field_of params StartSessionParams.sessionName)
             DEFAULT_SESSION_NAME)
    (default (field_of params StartSessionParams.timeout) DEFAULT_TIMEOUT)
    (match field_of params StartSessionParams.viewport with
     | Some v => Some (ViewportConfig.width v, ViewportConfig.height v)
     | None => None
     end).

Definition stop_command (c : t) (session : SessionInfo) : Command :=
  StopBrowserSessionCommand (identifier c) (sessionId session).

Definition started (now : JSValue) (params : option StartSessionParams.t)
  (response : SdkOutput) : SessionInfo :=
  {| sessionName := default (field_of params StartSessionParams.sessionName)
                            DEFAULT_SESSION_NAME;
     sessionId := lookup "sessionId" (fields response);
     createdAt := coalesce (lookup "createdAt" (fields response)) now;
     description := None |}.

End Browser.

(* ================================================================== *)
(** * class PlaywrightBrowser extends Browser *)
(* ================================================================== *)

Module PlaywrightBrowser.

Module NavigateParams.
Record t : Type := {
  url : string;
  waitUntil : option string;
  timeout : option Z
}.
End NavigateParams.

Module GetTextParams.
Record t : Type := { selector : option string }.
End GetTextParams.

Module IsVisibleParams.
Record t : Type := { selector : string }.
End IsVisibleParams.

(** The fields of an instance: those of [Browser] and the two cached
    Playwright objects. *)
Record t : Type := {
  base : Browser.t;
  _playwrightBrowser : option BrowserHandle;
  _playwrightPage : option PageHandle
}.

Definition set_base (b : Browser.t) (c : t) : t :=
  {| base := b; _playwrightBrowser := _playwrightBrowser c;
     _playwrightPage := _playwrightPage c |}.

Definition set_playwrightBrowser (b : option BrowserHandle) (c : t) : t :=
  {| base := base c; _playwrightBrowser := b;
     _playwrightPage := _playwrightPage c |}.

Definition set_playwrightPage (p : option PageHandle) (c : t) : t :=
  {| base := base c; _playwrightBrowser := _playwrightBrowser c;
     _playwrightPage := p |}.

Definition _session (c : t) : option SessionInfo := Browser._session (base c).

(** A method of [Browser] run on the [Browser] part of [this]. *)
Definition inherited {A : Type} (method : Async Browser.t A) : Async t A :=
  fun m =>
    let (r, m') := method {| self := base (self m); trace := trace m |} in
    (r, {| self := set_base (self m') (self m); trace := trace m' |}).

Section Methods.

Variable env : Env.
Variable now : JSValue.

Local Open Scope async_scope.

Definition constructor (config_region config_identifier AWS_REGION
                          config_credentialsProvider : option string) : t :=
  {| base := Browser.constructor config_region config_identifier AWS_REGION
               config_credentialsProvider;
     _playwrightBrowser := None;
     _playwrightPage := None |}.

Definition startSession (params : option Browser.StartSessionParams.t)
  : Async t SessionInfo :=
  inherited (Browser.startSession env now params).

(** The override: the Playwright connection is closed first; an error of
    that step is logged and dropped. *)
Definition stopSession : Async t unit :=
  try_catch
    (browser <- this _playwrightBrowser ;;
     match browser with
     | Some browser =>
         perform env (BrowserClose browser) ;;;
         assign (set_playwrightBrowser None) ;;;
         assign (set_playwrightPage None)
     | None => resolve tt
     end)
    (fun error => resolve tt) ;;;
  inherited (Browser.stopSession env).

Definition _connectPlaywright : Async t unit :=
  session <- this _session ;;
  match session with
  | None => throw (ErrorObject "Error" "No active session")
  | Some _ =>
      perform env ImportPlaywright ;;;
      wsConnection <- inherited (Browser.generateWebSocketUrl env) ;;
      browser <-
        perform env
          (ConnectOverCDP (Browser.WebSocketConnection.url wsConnection)
             (Browser.WebSocketConnection.headers wsConnection)) ;;
      assign (set_playwrightBrowser (Some browser)) ;;;
      match contexts browser with
      | [] => throw (ErrorObject "Error" "No browser contexts available")
      | context :: _ =>
          match pages context with
          | [] =>
              page <- perform env (NewPage context) ;;
              assign (set_playwrightPage (Some page))
          | page :: _ => assign (set_playwrightPage (Some page))
          end
      end
  end.

Definition _ensureConnected : Async t unit :=
  session <- this _session ;;
  match session with
  | None => startSession None ;;; resolve tt
  | Some _ => resolve tt
  end ;;;
  browser <- this _playwrightBrowser ;;
  page <- this _playwrightPage ;;
  match browser, page with
  | Some _, Some _ => resolve tt
  | _, _ => _connectPlaywright
  end.

(** [this._playwrightPage!]: the page whose method [name] is about to be
    called. *)
Definition playwrightPage (name : string) : Async t PageHandle :=
  page <- this _playwrightPage ;;
  match page with
  | Some page => resolve page
  | None =>
      throw (TypeError ("Cannot read properties of null (reading '"
                          ++ name ++ "')"))
  end.

Definition navigate (params : NavigateParams.t) : Async t unit :=
  _ensureConnected ;;;
  page <- playwrightPage "goto" ;;
  perform env
    (PageGoto page (NavigateParams.url params)
       (default (NavigateParams.waitUntil params) "domcontentloaded")
       (NavigateParams.timeout params)).

Definition getText (params : GetTextParams.t) : Async t string :=
  _ensureConnected ;;;
  match GetTextParams.selector params with
  | Some selector =>
      if truthy (JStr selector) then
        page <- playwrightPage "$" ;;
        element <- perform env (PageQuery page selector) ;;
        match element with
        | None =>
            throw (ErrorObject "Error" ("Element not found: " ++ selector))
        | Some element =>
            text <- perform env (ElementTextContent element) ;;
            resolve (default text EmptyString)
        end
      else
        page <- playwrightPage "textContent" ;;
        text <- perform env (PageTextContent page "body") ;;
        resolve (default text EmptyString)
  | None =>
      page <- playwrightPage "textContent" ;;
      text <- perform env (PageTextContent page "body") ;;
      resolve (default text EmptyString)
  end.

Definition back : Async t unit :=
  _ensureConnected ;;;
  try_catch
    (page <- playwrightPage "goBack" ;;
     perform env (PageGoBack page "networkidle" 30000))
    (fun _ =>
       try_catch
         (page <- playwrightPage "goBack" ;;
          perform env (PageGoBack page "load" 30000))
         (fun _ =>
            page <- playwrightPage "evaluate" ;;
            perform env (PageEvaluate page "window.history.back()") ;;;
            resolve tt)).

Definition forward : Async t unit :=
  _ensureConnected ;;;
  try_catch
    (page <- playwrightPage "goForward" ;;
     perform env (PageGoForward page "networkidle" 30000))
    (fun _ =>
       try_catch
         (page <- playwrightPage "goForward" ;;
          perform env (PageGoForward page "load" 30000))
         (fun _ =>
            page <- playwrightPage "evaluate" ;;
            perform env (PageEvaluate page "window.history.forward()") ;;;
            resolve tt)).

Definition isVisible (params : IsVisibleParams.t) : Async t bool :=
  _ensureConnected ;;;
  try_catch
    (page <- playwrightPage "$" ;;
     element <-
       perform env (PageQuery page (IsVisibleParams.selector params)) ;;
     match element with
     | None => resolve false
     | Some element => perform env (ElementIsVisible element)
     end)
    (fun _ => resolve false).

End Methods.

End PlaywrightBrowser.

(* ================================================================== *)
(** * Vocabulary of the properties *)
(* ================================================================== *)

(** ** Shapes of responses *)

Module Shapes.

(** A value [ToString] prints without calling into an object. *)
Definition primitive (v : JSValue) : bool :=
  match v with
  | JArr _ | JObj _ => false
  | _ => true
  end.

(** A string, or a value [||] replaces by its right operand. *)
Definition text_or_falsy (v : JSValue) : bool :=
  is_string v || negb (truthy v).

(** An item of a content array that is neither [null] nor [undefined]
    and whose printed fields are primitive. The kind of the item and
    its other fields are unconstrained. *)
Definition item_ok (item : JSValue) : bool :=
  negb (nullish item)
  && primitive (get_opt item "text")
  && primitive (get_opt (get_opt item "resource") "text")
  && primitive (get_opt item "name")
  && primitive (get_opt item "description")
  && primitive (get_opt item "mimeType")
  && primitive (get_opt item "uri").

(** Any content; the items of an array are [item_ok]. *)
Definition content_ok (content : JSValue) : bool :=
  match content with
  | JArr items => forallb item_ok items
  | _ => true
  end.

(** An error object whose message, when it has one, is text. *)
Definition error_ok (error : JSValue) : bool :=
  negb (truthy error) || text_or_falsy (get_opt error "message").

(** An event of a stream that is neither [null] nor [undefined]. *)
Definition event_ok (event : JSValue) : bool :=
  negb (nullish event)
  && content_ok (get_opt (get_opt event "result") "content")
  && error_ok (get_opt event "error").

Definition response_ok (response : SdkOutput) : bool :=
  match stream response with
  | Some s =>
      forallb event_ok (events s)
      && match failure s with Some _ => false | None => true end
  | None =>
      content_ok (get_opt (lookup "result" (fields response)) "content")
  end.

(** The events of the stream of a response carry textual error
    messages. *)
Definition errors_textual (response : SdkOutput) : bool :=
  match stream response with
  | Some s => forallb (fun event => error_ok (get_opt event "error")) (events s)
  | None => true
  end.

(** An envelope that carries the text [t], as a plain string or as a
    content array of one text item. *)
Definition text_envelope (as_array : bool) (t : string) : JSValue :=
  JObj [("result",
         JObj [("content",
                if as_array
                then JArr [JObj [("type", JStr "text"); ("text", JStr t)]]
                else JStr t)])].

(** An envelope that carries an error object with the given fields. *)
Definition error_envelope (error_fields : list (string * JSValue)) : JSValue :=
  JObj [("error", JObj error_fields)].

(** A response delivered as a stream that ends normally. *)
Definition streamed (evs : list JSValue) : SdkOutput :=
  {| fields := []; stream := Some {| events := evs; failure := None |} |}.

(** A response delivered as one envelope. *)
Definition single (content : JSValue) : SdkOutput :=
  {| fields := [("result", JObj [("content", content)])]; stream := None |}.

(** A thrown error is timeout-class when it is an instance of
    Playwright's [TimeoutError]. *)
Definition timeout_class (e : Thrown) : bool :=
  match e with
  | ErrorObject name _ => String.eqb name "TimeoutError"
  | ThrownValue _ => false
  end.

End Shapes.

Export Shapes.

(** ** Concrete worlds and instances *)

Module Scenarios.

(** A world in which every call succeeds: the service answers a start
    with a session id, an invocation with a line of output, and the
    remote browser has one context with one page, on which every
    selector finds a visible element. *)
Definition reliable : Env :=
  fun R history call =>
    match call in Call R return Completion R with
    | Send command =>
        Returns
          match command with
          | StartCodeInterpreterSessionCommand _ _ _
          | StartBrowserSessionCommand _ _ _ _ =>
              {| fields := [("sessionId", JStr "session-1");
                            ("createdAt", JNum 1700000000)];
                 stream := None |}
          | InvokeCodeInterpreterCommand _ _ _ _ =>
              streamed [text_envelope true "Output: 1"]
          | _ => {| fields := []; stream := None |}
          end
    | ImportPlaywright => Returns tt
    | ResolveCredentials _ => Returns (JObj [("accessKeyId", JStr "AKIA")])
    | Sign request _ _ =>
        Returns {| protocol := protocol request;
                   hostname := hostname request;
                   path := path request;
                   method := method request;
                   headers := (headers request
                                 ++ [("authorization", JStr "AWS4-HMAC-SHA256");
                                     ("x-amz-date", JStr "20260101T000000Z")])%list |}
    | ConnectOverCDP _ _ =>
        Returns {| browser_id := 1;
                   contexts := [{| context_id := 1; pages := [1] |}] |}
    | NewPage _ => Returns 2
    | BrowserClose _ => Returns tt
    | PageGoto _ _ _ _ => Returns tt
    | PageQuery _ _ => Returns (Some 1)
    | ElementIsVisible _ => Returns true
    | ElementTextContent _ => Returns (Some "Hello World")
    | PageTextContent _ _ => Returns (Some "Page content")
    | PageGoBack _ _ _ => Returns tt
    | PageGoForward _ _ _ => Returns tt
    | PageEvaluate _ _ => Returns JUndefined
    end.

(** The reliable world, except that the calls picked out by [broken]
    are rejected with [error]. *)
Definition failing (broken : list Event -> Event -> bool) (error : Thrown)
  : Env :=
  fun R history call =>
    if broken history (Ev call) then Throws error
    else @reliable R history call.

Definition is_start (e : Event) : bool :=
  match sent_command e with
  | [StartCodeInterpreterSessionCommand _ _ _]
  | [StartBrowserSessionCommand _ _ _ _] => true
  | _ => false
  end.

Definition is_stop (e : Event) : bool :=
  match sent_command e with
  | [StopCodeInterpreterSessionCommand _ _]
  | [StopBrowserSessionCommand _ _] => true
  | _ => false
  end.

Definition is_invoke (e : Event) : bool :=
  match sent_command e with
  | [InvokeCodeInterpreterCommand _ _ _ _] => true
  | _ => false
  end.

Definition is_query (e : Event) : bool :=
  match e with
  | Ev call =>
      match call with
      | PageQuery _ _ => true
      | _ => false
      end
  end.

Definition is_history_wait (e : Event) : bool :=
  match e with
  | Ev call =>
      match call with
      | PageGoBack _ _ _ | PageGoForward _ _ _ => true
      | _ => false
      end
  end.

Definition network_down : Thrown :=
  ErrorObject "Error" "connect ECONNREFUSED".

Definition throttled : Thrown :=
  ErrorObject "ThrottlingException" "Rate exceeded".

Definition page_closed : Thrown :=
  ErrorObject "Error" "Target page, context or browser has been closed".

Definition timed_out : Thrown :=
  ErrorObject "TimeoutError" "Timeout 30000ms exceeded.".

(** The service is unreachable for the first command it is sent and
    reliable afterwards. *)
Definition first_send_fails : Env :=
  failing (fun history e => is_start e && Nat.eqb (length (sends history)) 0)
          network_down.

Definition stop_fails : Env :=
  failing (fun _ e => is_stop e) network_down.

Definition invoke_fails : Env :=
  failing (fun _ e => is_invoke e) throttled.

Definition lookup_fails : Env :=
  failing (fun _ e => is_query e) page_closed.

(** Waiting on a history navigation fails, not by a timeout. *)
Definition history_wait_crashes : Env :=
  failing (fun _ e => is_history_wait e) page_closed.

Definition history_wait_times_out : Env :=
  failing (fun _ e => is_history_wait e) timed_out.

(** The service answers every invocation with [response]. *)
Definition answering (response : SdkOutput) : Env :=
  fun R history call =>
    match call in Call R return Completion R with
    | Send (InvokeCodeInterpreterCommand _ _ _ _) => Returns response
    | other => @reliable _ history other
    end.

(** No selector finds an element. *)
Definition nothing_found : Env :=
  fun R history call =>
    match call in Call R return Completion R with
    | PageQuery _ _ => Returns None
    | other => @reliable _ history other
    end.

(** Instances as their constructors leave them. *)
Definition interpreter : Machine CodeInterpreter.t :=
  {| self := CodeInterpreter.constructor "us-west-2" (Some "us-east-1")
               None None;
     trace := [] |}.

Definition browser : Machine Browser.t :=
  {| self := Browser.constructor (Some "us-east-1") None None None;
     trace := [] |}.

Definition playwright : Machine PlaywrightBrowser.t :=
  {| self := PlaywrightBrowser.constructor (Some "us-east-1") None None None;
     trace := [] |}.

(** The session the reliable service hands out, and instances that hold
    it. *)
Definition session_1 : SessionInfo :=
  {| sessionName := "default";
     sessionId := JStr "session-1";
     createdAt := JNum 1700000000;
     description := None |}.

Definition active_interpreter : Machine CodeInterpreter.t :=
  {| self := CodeInterpreter.set_session (Some session_1) (self interpreter);
     trace := [Ev (Send (StartCodeInterpreterSessionCommand
                           "aws.codeinterpreter.v1" "default" 900))] |}.

Definition active_browser : Machine Browser.t :=
  {| self := Browser.set_session (Some session_1) (self browser);
     trace := [Ev (Send (StartBrowserSessionCommand
                           "aws.browser.v1" "default" 3600 None))] |}.

(** The timeout an idle code interpreter asks for, and the clock. *)
Definition timeout : Z := 900.
Definition clock : JSValue := JNum 1700000001.

(** A Playwright client with a session and a connection, as
    [_ensureConnected] leaves a fresh one in the reliable world. *)
Definition connected_playwright : Machine PlaywrightBrowser.t :=
  snd (PlaywrightBrowser._ensureConnected reliable clock playwright).

Definition missing_button : PlaywrightBrowser.IsVisibleParams.t :=
  {| PlaywrightBrowser.IsVisibleParams.selector := "#nope" |}.

Definition heading : PlaywrightBrowser.GetTextParams.t :=
  {| PlaywrightBrowser.GetTextParams.selector := Some "h1" |}.

Definition example_page : PlaywrightBrowser.NavigateParams.t :=
  {| PlaywrightBrowser.NavigateParams.url := "https://example.com";
     PlaywrightBrowser.NavigateParams.waitUntil := None;
     PlaywrightBrowser.NavigateParams.timeout := None |}.

Definition print_one : CodeInterpreter.Operation :=
  CodeInterpreter.ExecuteCode
    {| CodeInterpreter.ExecuteCodeParams.code := "print(1)";
       CodeInterpreter.ExecuteCodeParams.language := None;
       CodeInterpreter.ExecuteCodeParams.clearContext := None |}.

End Scenarios.

(* ================================================================== *)
(** * Browser.listSessions *)
(* ================================================================== *)

Module Listing.

(** [ListSessionsParams], with the fields the client reads from it. *)
Module ListSessionsParams.
Record t : Type := {
  browserId : option string;
  status : option string;
  maxResults : option Z;
  nextToken : option string
}.
End ListSessionsParams.

(** The input of a [ListBrowserSessionsCommand]: a key is there only
    when the spread of the client put it there. *)
Record ListBrowserSessionsInput : Type := {
  browserIdentifier : string;
  status : option string;
  maxResults : option Z;
  nextToken : option string
}.

(** [...(value && { key: value })] for a string and for a number. *)
Definition truthy_string (value : option string) : option string :=
  match value with
  | Some s => if truthy (JStr s) then Some s else None
  | None => None
  end.

Definition truthy_number (value : option Z) : option Z :=
  match value with
  | Some n => if truthy (JNum n) then Some n else None
  | None => None
  end.

Definition missing_browser_id : Thrown :=
  ErrorObject "Error"
    "Browser ID must be provided or available from configuration".

Local Open Scope completion_scope.

(** The callback of [response.items?.map]. *)
Definition summary (item : JSValue) : Completion JSValue :=
  sessionId <- get item "sessionId" ;;
  name <- get item "name" ;;
  status <- get item "status" ;;
  createdAt <- get item "createdAt" ;;
  lastUpdatedAt <- get item "lastUpdatedAt" ;;
  Returns (JObj [("sessionId", sessionId);
                 ("name", name);
                 ("status", coalesce status (JStr "UNKNOWN"));
                 ("createdAt", createdAt);
                 ("lastUpdatedAt", lastUpdatedAt)]).

Fixpoint summaries (items : list JSValue) : Completion (list JSValue) :=
  match items with
  | [] => Returns []
  | item :: rest =>
      first <- summary item ;;
      others <- summaries rest ;;
      Returns (first :: others)
  end.

(** [response.items?.map(...) ?? []]. *)
Definition session_summaries (items : JSValue) : Completion (list JSValue) :=
  match items with
  | JUndefined | JNull => Returns []
  | JArr items => summaries items
  | _ => Throws (TypeError "response.items?.map is not a function")
  end.

Local Close Scope completion_scope.

Section Methods.

(** The command of [listSessions] is sent through the same client; its
    outcome is the parameter [send], a function of the input of the
    command. *)
Variable send : ListBrowserSessionsInput -> Completion SdkOutput.

Local Open Scope async_scope.

Definition listSessions (params : option ListSessionsParams.t)
  : Async Browser.t JSValue :=
  identifier <- this Browser.identifier ;;
  let browserId :=
    default (field_of params ListSessionsParams.browserId) identifier in
  if negb (truthy (JStr browserId)) then throw missing_browser_id
  else
    let command :=
      {| browserIdentifier := browserId;
         status := truthy_string (field_of params ListSessionsParams.status);
         maxResults :=
           truthy_number (field_of params ListSessionsParams.maxResults);
         nextToken :=
           truthy_string (field_of params ListSessionsParams.nextToken) |} in
    response <- eval (send command) ;;
    items <- eval (session_summaries (lookup "items" (fields response))) ;;
    let nextToken := lookup "nextToken" (fields response) in
    resolve (JObj ([("items", JArr items)]
                   ++ Browser.field_if (truthy nextToken) "nextToken"
                        nextToken)%list).

End Methods.

End Listing.

(* ================================================================== *)
(** * Further vocabulary *)
(* ================================================================== *)

Module MoreShapes.

(** A content item of kind [text]. *)
Definition text_item (t : string) : JSValue :=
  JObj [("type", JStr "text"); ("text", JStr t)].

(** A field that is there only when it has a value. *)
Definition optional_field (key : string) (value : option string)
  : list (string * JSValue) :=
  match value with
  | Some s => [(key, JStr s)]
  | None => []
  end.

(** A content item of kind [resource_link] with the given metadata. *)
Definition resource_link_item (name description mimeType uri : option string)
  : JSValue :=
  JObj ([("type", JStr "resource_link")]
        ++ optional_field "name" name
        ++ optional_field "description" description
        ++ optional_field "mimeType" mimeType
        ++ optional_field "uri" uri)%list.

(** The text of a metadata field, when it is there and not empty. *)
Definition shown (value : option string) : list string :=
  match value with
  | Some s => if String.eqb s EmptyString then [] else [s]
  | None => []
  end.

(** A content item of kind [resource] around a resource object. *)
Definition resource_item (resource : list (string * JSValue)) : JSValue :=
  JObj [("type", JStr "resource"); ("resource", JObj resource)].

(** An envelope, as an event of a stream, around a [result]. *)
Definition envelope (result : JSValue) : JSValue :=
  JObj [("result", result)].

(** An event of a stream that carries neither content nor error. *)
Definition neutral (event : JSValue) : bool :=
  negb (nullish event)
  && negb (truthy (get_opt (get_opt event "result") "content"))
  && negb (truthy (get_opt event "error")).

(** Tier-1 operations called one after the other, each awaited. *)
Fixpoint call_all (env : Env) (DEFAULT_TIMEOUT : Z)
  (ops : list CodeInterpreter.Operation)
  : Async CodeInterpreter.t (list JSValue) :=
  match ops with
  | [] => resolve []
  | op :: rest =>
      await (CodeInterpreter.call env DEFAULT_TIMEOUT op)
        (fun v => await (call_all env DEFAULT_TIMEOUT rest)
                    (fun vs => resolve (v :: vs)))
  end.

(** The service describes every browser session, and answers every
    update of a stream, with [response]. *)
Definition describing (response : SdkOutput) : Env :=
  fun R history call =>
    match call in Call R return Completion R with
    | Send (GetBrowserSessionCommand _ _)
    | Send (UpdateBrowserStreamCommand _ _ _) => Returns response
    | other => @Scenarios.reliable _ history other
    end.

(** A session that is ready, with an automation stream and a live view
    that has no endpoint yet. *)
Definition ready_session : SdkOutput :=
  {| fields :=
       [("sessionId", JStr "session-1");
        ("status", JStr "READY");
        ("createdAt", JNum 1700000000);
        ("streams",
         JObj [("automationStream",
                JObj [("streamEndpoint", JStr "wss://stream.example/a");
                      ("streamStatus", JStr "ENABLED")]);
               ("liveViewStream", JObj [])])];
     stream := None |}.


(** An input of [ListBrowserSessionsCommand] with a browser id, and
    with no filter that is empty or zero. *)
Definition well_formed (input : Listing.ListBrowserSessionsInput) : bool :=
  truthy (JStr (Listing.browserIdentifier input))
  && match Listing.status input with
     | Some status => truthy (JStr status)
     | None => true
     end
  && match Listing.maxResults input with
     | Some n => truthy (JNum n)
     | None => true
     end
  && match Listing.nextToken input with
     | Some token => truthy (JStr token)
     | None => true
     end.

(** A transport that is never reached with an input that is not well
    formed: it rejects such an input with [error]. *)
Definition guarded (send : Listing.ListBrowserSessionsInput
                           -> Completion SdkOutput)
  (error : Thrown) : Listing.ListBrowserSessionsInput -> Completion SdkOutput :=
  fun input => if well_formed input then send input else Throws error.


(** The URL of the automation stream of the session whose id prints as
    [id], and the request the instance [c] has signed for it. *)
Definition websocket_host (c : Browser.t) : string :=
  "bedrock-agentcore." ++ Browser.region c ++ ".amazonaws.com".

Definition websocket_path (c : Browser.t) (id : string) : string :=
  "/browser-streams/" ++ Browser.identifier c ++ "/sessions/" ++ id
    ++ "/automation".

Definition websocket_url (c : Browser.t) (id : string) : string :=
  "wss://" ++ websocket_host c ++ websocket_path c id.

Definition websocket_request (c : Browser.t) (id : string) : HttpRequest :=
  {| protocol := "wss:";
     hostname := websocket_host c;
     path := websocket_path c id;
     method := "GET";
     headers := [("host", JStr (websocket_host c))] |}.

(** The page a connection opens in the remote [browser]: one in its
    first context, when that context has none. *)
Definition opening (browser : BrowserHandle) : list Event :=
  match contexts browser with
  | context :: _ =>
      match pages context with
      | [] => [Ev (NewPage context)]
      | _ :: _ => []
      end
  | [] => []
  end.

(** The calls of a connection of Playwright, for the instance [c], the
    printed session id, and the credentials, the signed request and the
    browser that the calls resolved to. *)
Definition connecting (c : Browser.t) (id : string) (credentials : JSValue)
  (signed : HttpRequest) (browser : BrowserHandle) : list Event :=
  ([Ev ImportPlaywright;
    Ev (ResolveCredentials (Browser._credentialsProvider c));
    Ev (Sign (websocket_request c id) (Browser.region c) credentials);
    Ev (ConnectOverCDP (websocket_url c id)
          (Browser.string_headers (headers signed)))]
   ++ opening browser)%list.

(** The service answers every start of a session with [response]. *)
Definition starting (response : SdkOutput) : Env :=
  fun R history call =>
    match call in Call R return Completion R with
    | Send (StartCodeInterpreterSessionCommand _ _ _)
    | Send (StartBrowserSessionCommand _ _ _ _) => Returns response
    | other => @Scenarios.reliable _ history other
    end.

(** A start response without creation time, and the description of a
    session without status. *)
Definition undated_start : SdkOutput :=
  {| fields := [("sessionId", JStr "session-1")]; stream := None |}.


(** A fresh Playwright client once the reliable service has started
    its session. *)
Definition started_playwright : Machine PlaywrightBrowser.t :=
  snd (PlaywrightBrowser.startSession Scenarios.reliable Scenarios.clock None
         Scenarios.playwright).


(** The remote browser has a context and no page yet. *)
Definition no_page_yet : Env :=
  fun R history call =>
    match call in Call R return Completion R with
    | ConnectOverCDP _ _ =>
        Returns {| browser_id := 1;
                   contexts := [{| context_id := 1; pages := [] |}] |}
    | other => @Scenarios.reliable _ history other
    end.

(** The remote browser has no context. *)
Definition no_context : Env :=
  fun R history call =>
    match call in Call R return Completion R with
    | ConnectOverCDP _ _ => Returns {| browser_id := 1; contexts := [] |}
    | other => @Scenarios.reliable _ history other
    end.

End MoreShapes.

Export MoreShapes.

(* ================================================================== *)
(** * createScreenshotTool *)
(* ================================================================== *)

Module ScreenshotTool.

(** The input of the tool once its schema has accepted it. *)
Record Input : Type := {
  path : option string;
  fullPage : option bool;
  type : option string;
  encoding : option string
}.

(** The object handed to [client.screenshot]: a field is copied only
    when it is not [undefined]. *)
Definition params_of (input : Input) : list (string * JSValue) :=
  (optional_field "path" (path input)
   ++ match fullPage input with
      | Some flag => [("fullPage", JBool flag)]
      | None => []
      end
   ++ optional_field "type" (type input)
   ++ optional_field "encoding" (encoding input))%list.

Section Tool.

(** The outcome of [client.screenshot(params)], once awaited. *)
Variable screenshot : list (string * JSValue) -> Completion JSValue.

(** The [execute] function of the tool. *)
Definition execute (input : Input) : Completion JSValue :=
  match screenshot (params_of input) with
  | Returns shot =>
      let isBase64 :=
        match encoding input with
        | Some e => String.eqb e "base64"
        | None => false
        end in
      Returns
        (JObj [("success", JBool true);
               ("message",
                JStr match path input with
                     | Some p =>
                         if truthy (JStr p) then "Screenshot saved to " ++ p
                         else "Screenshot captured"
                     | None => "Screenshot captured"
                     end);
               ("screenshot", if isBase64 then shot else JUndefined)])
  | Throws error =>
      Returns (JObj [("success", JBool false);
                     ("error", JStr (message_or error "Unknown error"))])
  end.

End Tool.

End ScreenshotTool.

(* ================================================================== *)
(** * Proof automation *)
(* ================================================================== *)

(** Unfolds the plumbing of [async] methods down to the calls. *)
Ltac run :=
  unfold await, try_catch, this, throw, resolve, eval, assign, perform;
  cbn [self trace fst snd].

Ltac run_in H :=
  unfold await, try_catch, this, throw, resolve, eval, assign, perform in H;
  cbn [self trace fst snd] in H.

(** Runs on with what is known of a field of [this]. *)
Ltac known H := repeat first [rewrite H | progress cbn [self trace fst snd]].

(** Splits the cases of the scrutinees of [H] until it settles. *)
Ltac cases_in H :=
  repeat match type of H with
         | context [match ?x with _ => _ end] =>
             destruct x eqn:?;
             cbn [self trace fst snd
                  PlaywrightBrowser.base PlaywrightBrowser.set_base
                  PlaywrightBrowser._playwrightBrowser
                  PlaywrightBrowser._playwrightPage
                  PlaywrightBrowser.set_playwrightBrowser
                  PlaywrightBrowser.set_playwrightPage] in H
         end.

Unset Implicit Arguments.

(* ================================================================== *)
(** * Properties of the response normaliser *)
(* ================================================================== *)

Module NormalizerFacts.

Local Open Scope completion_scope.

Lemma ToString_primitive (v : JSValue) :
  primitive v = true -> exists s, ToString v = Returns s.
Proof.
  destruct v; simpl; intros H; try discriminate; eauto.
Qed.

Lemma stringify_defined (v : JSValue) :
  v <> JUndefined -> exists s, stringify v = JStr s.
Proof.
  unfold stringify. destruct v; simpl; intros H; eauto. congruence.
Qed.

Lemma stringify_truthy (v : JSValue) :
  truthy v = true -> exists s, stringify v = JStr s.
Proof.
  intros H. apply stringify_defined. intros ->. discriminate.
Qed.

Lemma join_elements_primitive (parts : list JSValue) :
  forallb primitive parts = true ->
  exists ss, join_elements parts = Returns ss.
Proof.
  induction parts as [|x rest IH]; simpl; intros H.
  - eauto.
  - apply andb_prop in H as [Hx Hrest].
    destruct (IH Hrest) as [ss Hss]. rewrite Hss.
    destruct (nullish x); simpl; eauto.
    destruct (ToString_primitive x Hx) as [s Hs]. rewrite Hs. simpl. eauto.
Qed.

Lemma Array_join_primitive (parts : list JSValue) (sep : string) :
  forallb primitive parts = true ->
  exists s, Array_join parts sep = Returns s.
Proof.
  intros H. unfold Array_join.
  destruct (join_elements_primitive parts H) as [ss Hss].
  rewrite Hss. simpl. eauto.
Qed.

Lemma filter_Boolean_primitive (parts : list JSValue) :
  forallb primitive parts = true ->
  forallb primitive (filter_Boolean parts) = true.
Proof.
  unfold filter_Boolean.
  induction parts as [|x rest IH]; simpl; intros H; auto.
  apply andb_prop in H as [Hx Hrest].
  destruct (truthy x); simpl; auto. rewrite Hx. auto.
Qed.

Lemma get_not_nullish (v : JSValue) (key : string) :
  nullish v = false -> get v key = Returns (get_opt v key).
Proof.
  destruct v; simpl; intros H; try discriminate; reflexivity.
Qed.

(** An admissible item yields a primitive part. *)
Lemma extract_item_ok (item : JSValue) :
  item_ok item = true ->
  exists part, extract_item item = Returns part /\ primitive part = true.
Proof.
  unfold item_ok. intros H.
  repeat (apply andb_prop in H as [H ?]).
  apply negb_true_iff in H.
  unfold extract_item.
  rewrite !(get_not_nullish _ _ H). cbn [bind].
  destruct (strict_eq_str (get_opt item "type") "text"); [eauto|].
  destruct (strict_eq_str (get_opt item "type") "resource") eqn:Hres;
    cbn [bind].
  - destruct (truthy (get_opt item "resource")) eqn:Ht.
    + rewrite get_not_nullish
        by (destruct (get_opt item "resource"); simpl in *; congruence).
      cbn [bind].
      destruct (truthy (get_opt (get_opt item "resource") "text")); eauto.
      destruct (stringify_truthy _ Ht) as [s ->]. eauto.
    + destruct (strict_eq_str (get_opt item "type") "resource_link") eqn:Hl.
      { destruct (get_opt item "type"); simpl in *; try discriminate.
        apply String.eqb_eq in Hres, Hl. congruence. }
      destruct (stringify_defined item) as [s ->]; eauto.
      intros ->. discriminate.
  - replace (truthy (JBool false)) with false by reflexivity.
    destruct (strict_eq_str (get_opt item "type") "resource_link").
    + match goal with
      | |- context [Array_join ?l ?sep] =>
          destruct (Array_join_primitive l sep) as [meta ->]
      end.
      { apply filter_Boolean_primitive. simpl.
        repeat (apply andb_true_intro; split); auto. }
      cbn [bind].
      match goal with
      | Hu : primitive (get_opt item "uri") = true |- _ =>
          destruct (ToString_primitive _ Hu) as [u ->]
      end.
      cbn [bind]. eauto.
    + destruct (stringify_defined item) as [s ->]; eauto.
      intros ->. discriminate.
Qed.

Lemma extract_items_ok (content : list JSValue) :
  forallb item_ok content = true ->
  exists parts, extract_items content = Returns parts
                /\ forallb primitive parts = true.
Proof.
  induction content as [|item rest IH]; simpl; intros H.
  - eauto.
  - apply andb_prop in H as [Hitem Hrest].
    destruct (extract_item_ok item Hitem) as [part [-> Hpart]].
    destruct (IH Hrest) as [parts [-> Hparts]].
    simpl. eexists. split; [reflexivity|]. simpl. rewrite Hpart. auto.
Qed.

Lemma _extractFromContentArray_ok (content : list JSValue) :
  forallb item_ok content = true ->
  exists s, _extractFromContentArray content = Returns s.
Proof.
  intros H. unfold _extractFromContentArray.
  destruct (extract_items_ok content H) as [parts [-> Hparts]]. simpl.
  apply Array_join_primitive. exact Hparts.
Qed.

Lemma content_to_string_ok (content : JSValue) :
  content_ok content = true -> truthy content = true ->
  exists s, content_to_string content = Returns (JStr s).
Proof.
  intros Hok Ht.
  destruct content as [ | | b | n | s | items | fs ];
    try discriminate; cbn [content_to_string]; eauto;
    try (destruct (stringify_truthy _ Ht) as [r ->]; eauto).
  destruct (_extractFromContentArray_ok items Hok) as [s ->]. simpl. eauto.
Qed.

(** Whenever the branch on [content] returns, it returns a string. *)
Lemma content_to_string_is_string (content v : JSValue) :
  truthy content = true -> content_to_string content = Returns v ->
  is_string v = true.
Proof.
  intros Ht.
  destruct content as [ | | b | n | s | items | fs ];
    try discriminate; cbn [content_to_string]; intros H;
    try (destruct (stringify_truthy _ Ht) as [r Hr]; rewrite Hr in H);
    try (inversion H; subst; reflexivity).
  destruct (_extractFromContentArray items); simpl in H; inversion H.
  reflexivity.
Qed.

Lemma stream_step_ok (acc event : JSValue) :
  is_string acc = true -> event_ok event = true ->
  exists s, stream_step acc event = Returns (JStr s).
Proof.
  unfold event_ok. intros Hacc H.
  apply andb_prop in H as [H Herr]. apply andb_prop in H as [Hn Hc].
  apply negb_true_iff in Hn.
  unfold stream_step. rewrite !(get_not_nullish _ _ Hn). cbn [bind].
  assert (Hstep : exists s,
             (if truthy (get_opt (get_opt event "result") "content")
              then content_to_string
                     (get_opt (get_opt event "result") "content")
              else Returns acc) = Returns (JStr s)).
  { destruct (truthy (get_opt (get_opt event "result") "content")) eqn:Ht.
    - apply content_to_string_ok; assumption.
    - destruct acc; try discriminate. eauto. }
  destruct Hstep as [s ->]. cbn [bind].
  unfold error_ok in Herr.
  destruct (truthy (get_opt event "error")) eqn:Hte; [|eauto].
  rewrite get_not_nullish
    by (destruct (get_opt event "error"); simpl in *; congruence).
  cbn [bind]. simpl in Herr. unfold text_or_falsy in Herr. unfold or_else.
  destruct (truthy (get_opt (get_opt event "error") "message")) eqn:Hm;
    [|eauto].
  rewrite orb_false_r in Herr.
  destruct (get_opt (get_opt event "error") "message");
    try discriminate. eauto.
Qed.

Lemma stream_loop_ok (evs : list JSValue) (acc : JSValue) :
  is_string acc = true -> forallb event_ok evs = true ->
  exists s, stream_loop acc evs = Returns (JStr s).
Proof.
  revert acc. induction evs as [|event rest IH]; simpl; intros acc Hacc H.
  - destruct acc; try discriminate. eauto.
  - apply andb_prop in H as [He Hrest].
    destruct (stream_step_ok acc event Hacc He) as [s ->]. cbn [bind].
    apply IH; auto.
Qed.

(** With textual error messages, what a round returns is a string. *)
Lemma stream_step_is_string (acc event v : JSValue) :
  is_string acc = true -> error_ok (get_opt event "error") = true ->
  stream_step acc event = Returns v -> is_string v = true.
Proof.
  unfold stream_step, error_ok. intros Hacc Herr.
  destruct (get event "result") as [result|e] eqn:Hget; cbn [bind];
    [|discriminate].
  assert (Hn : nullish event = false)
    by (destruct event; simpl in *; congruence).
  rewrite !(get_not_nullish _ _ Hn).
  destruct (truthy (get_opt result "content")) eqn:Ht.
  - destruct (content_to_string (get_opt result "content")) as [c|e] eqn:Hc;
      cbn [bind]; [|discriminate].
    pose proof (content_to_string_is_string _ _ Ht Hc) as Hs.
    destruct (truthy (get_opt event "error")) eqn:Hte.
    + rewrite get_not_nullish
        by (destruct (get_opt event "error"); simpl in *; congruence).
      cbn [bind]. simpl in Herr. unfold text_or_falsy in Herr. unfold or_else.
      destruct (truthy (get_opt (get_opt event "error") "message")) eqn:Hm;
        intros H; inversion H; subst; auto.
      rewrite orb_false_r in Herr. exact Herr.
    + intros H; inversion H; subst; auto.
  - cbn [bind].
    destruct (truthy (get_opt event "error")) eqn:Hte.
    + rewrite get_not_nullish
        by (destruct (get_opt event "error"); simpl in *; congruence).
      cbn [bind]. simpl in Herr. unfold text_or_falsy in Herr. unfold or_else.
      destruct (truthy (get_opt (get_opt event "error") "message")) eqn:Hm;
        intros H; inversion H; subst; auto.
      rewrite orb_false_r in Herr. exact Herr.
    + intros H; inversion H; subst; auto.
Qed.

Lemma stream_loop_is_string (evs : list JSValue) (acc v : JSValue) :
  is_string acc = true ->
  forallb (fun event => error_ok (get_opt event "error")) evs = true ->
  stream_loop acc evs = Returns v -> is_string v = true.
Proof.
  revert acc. induction evs as [|event rest IH]; simpl; intros acc Hacc H.
  - intros E; inversion E; subst; auto.
  - apply andb_prop in H as [He Hrest].
    destruct (stream_step acc event) as [a|e] eqn:Hs; cbn [bind];
      [|discriminate].
    apply IH; auto. eapply stream_step_is_string; eauto.
Qed.

(** Whatever [_parseInvokeResponse] returns on a response with textual
    error messages is a string. *)
Lemma _parseInvokeResponse_is_string (response : SdkOutput) (v : JSValue) :
  errors_textual response = true ->
  _parseInvokeResponse response = Returns v -> is_string v = true.
Proof.
  unfold errors_textual, _parseInvokeResponse.
  destruct (stream response) as [s|].
  - intros Hok.
    destruct (stream_loop (JStr EmptyString) (events s)) as [a|e] eqn:Hl;
      cbn [bind]; [|discriminate].
    destruct (failure s); [discriminate|].
    intros E; inversion E; subst.
    exact (stream_loop_is_string (events s) (JStr EmptyString) v
             eq_refl Hok Hl).
  - intros _.
    destruct (truthy (get_opt (lookup "result" (fields response)) "content"))
      eqn:Ht.
    + apply content_to_string_is_string; auto.
    + intros E; inversion E; subst; auto.
Qed.

Lemma stream_loop_app (l1 l2 : list JSValue) (acc : JSValue) :
  stream_loop acc (l1 ++ l2)
  = (a <- stream_loop acc l1 ;; stream_loop a l2).
Proof.
  revert acc. induction l1 as [|event rest IH]; simpl; intros acc; auto.
  destruct (stream_step acc event); cbn [bind]; auto.
Qed.

(** The last envelope of a stream that ends normally decides alone,
    through one round of the loop, what the normaliser returns. *)
Lemma parse_streamed_last (prefix : list JSValue) (acc event : JSValue) :
  stream_loop (JStr EmptyString) prefix = Returns acc ->
  _parseInvokeResponse (streamed (prefix ++ [event]))
  = stream_step acc event.
Proof.
  intros H. unfold _parseInvokeResponse, streamed. cbn [stream events failure].
  rewrite stream_loop_app, H. cbn [bind stream_loop].
  destruct (stream_step acc event); reflexivity.
Qed.

End NormalizerFacts.

Module NormalizerClaims.

Import NormalizerFacts.
Local Open Scope completion_scope.

(** C2 does not hold as stated.  The normaliser is not total on
    arbitrary shapes: a [null] item in a content array makes it throw a
    [TypeError]; so does a text field that is an object shadowing
    [toString], and a stream that fails while it is read; and an error
    object whose message is the number 42 makes it return that number,
    not a string. *)
Lemma normalizer_not_total :
  _parseInvokeResponse (single (JArr [JNull]))
  = Throws (TypeError "Cannot read properties of null (reading 'type')")
  /\ _parseInvokeResponse
       (single (JArr [JObj [("type", JStr "text");
                            ("text", JObj [("toString", JNum 1)])]]))
     = Throws (TypeError "Cannot convert object to primitive value")
  /\ _parseInvokeResponse
       {| fields := [];
          stream := Some {| events := [text_envelope false "partial"];
                            failure := Some (ErrorObject "Error" "socket hang up") |} |}
     = Throws (ErrorObject "Error" "socket hang up")
  /\ _parseInvokeResponse
       (streamed [error_envelope [("message", JNum 42)]])
     = Returns (JNum 42).
Proof.
  repeat split; reflexivity.
Qed.

(** C2, as the code guarantees it.  On every response in which no stream
    event and no item of a content array is [null] or [undefined], the
    printed fields of the items are primitive, the error messages are
    text or absent and the stream ends normally, the normaliser returns
    a string and does not throw, whatever the kinds of the items and
    whatever the shape of the content: a plain string, an array of known
    and unknown kinds, an error object, a nested object or any other
    value. *)
Theorem normalizer_total_on_admissible_shapes (response : SdkOutput) :
  response_ok response = true ->
  exists s, _parseInvokeResponse response = Returns (JStr s).
Proof.
  unfold response_ok, _parseInvokeResponse.
  destruct (stream response) as [s|].
  - intros H. apply andb_prop in H as [Hev Hf].
    destruct (stream_loop_ok (events s) (JStr EmptyString) eq_refl Hev)
      as [r ->].
    cbn [bind]. destruct (failure s); [discriminate|]. eauto.
  - intros H.
    destruct (truthy (get_opt (lookup "result" (fields response)) "content"))
      eqn:Ht; [|eauto].
    apply content_to_string_ok; assumption.
Qed.

(** A response with a plain string, with an array mixing the three known
    kinds, an item of unknown kind, a bare number and a nested object,
    and a stream ending in an error object are all admissible. *)
Lemma normalizer_total_witness :
  (exists s,
      _parseInvokeResponse (single (JStr "Output: 1")) = Returns (JStr s))
  /\ (exists s,
         _parseInvokeResponse
           (single
              (JArr [JObj [("type", JStr "text"); ("text", JStr "hello")];
                     JObj [("type", JStr "resource");
                           ("resource", JObj [("uri", JStr "file:///a");
                                              ("text", JStr "body")])];
                     JObj [("type", JStr "resource_link");
                           ("name", JStr "a.txt");
                           ("mimeType", JStr "text/plain");
                           ("uri", JStr "file:///a.txt")];
                     JObj [("type", JStr "image"); ("data", JArr [JNum 1])];
                     JNum 7;
                     JObj [("nested", JObj [("deep", JNull)])]]))
         = Returns (JStr s))
  /\ (exists s,
         _parseInvokeResponse
           (streamed [text_envelope true "a";
                      JObj [("result", JObj [("content", JObj [("k", JBool true)])])];
                      error_envelope [("message", JStr "boom")]])
         = Returns (JStr s)).
Proof.
  repeat split;
    apply normalizer_total_on_admissible_shapes; reflexivity.
Defined.

(** C3.  In a stream every envelope that carries content overwrites the
    value accumulated so far, an envelope without content or error
    leaves it, and an envelope with an error object makes the message of
    the error, or [Unknown error] when the message is absent or empty,
    the whole result, whatever was accumulated before.  For three
    envelopes, two with text and then one with an error object, the
    result is the message of the error. *)
Theorem stream_last_write_wins :
  (forall prefix acc event rendered,
      stream_loop (JStr EmptyString) prefix = Returns acc ->
      truthy (get_opt (get_opt event "result") "content") = true ->
      truthy (get_opt event "error") = false ->
      content_to_string (get_opt (get_opt event "result") "content")
      = Returns rendered ->
      _parseInvokeResponse (streamed (prefix ++ [event])) = Returns rendered)
  /\ (forall prefix acc event,
         stream_loop (JStr EmptyString) prefix = Returns acc ->
         nullish event = false ->
         truthy (get_opt (get_opt event "result") "content") = false ->
         truthy (get_opt event "error") = false ->
         _parseInvokeResponse (streamed (prefix ++ [event])) = Returns acc)
  /\ (forall prefix acc event,
         stream_loop (JStr EmptyString) prefix = Returns acc ->
         truthy (get_opt event "error") = true ->
         (truthy (get_opt (get_opt event "result") "content") = false
          \/ exists rendered,
               content_to_string (get_opt (get_opt event "result") "content")
               = Returns rendered) ->
         _parseInvokeResponse (streamed (prefix ++ [event]))
         = Returns (or_else (get_opt (get_opt event "error") "message")
                            (JStr "Unknown error")))
  /\ (forall prefix acc m,
         stream_loop (JStr EmptyString) prefix = Returns acc ->
         _parseInvokeResponse
           (streamed (prefix ++ [error_envelope [("message", JStr m)]]))
         = Returns (JStr (if String.eqb m EmptyString
                          then "Unknown error" else m)))
  /\ (forall prefix acc,
         stream_loop (JStr EmptyString) prefix = Returns acc ->
         _parseInvokeResponse (streamed (prefix ++ [error_envelope []]))
         = Returns (JStr "Unknown error"))
  /\ (forall a1 a2 t1 t2 m,
         t1 <> t2 -> m <> EmptyString ->
         _parseInvokeResponse
           (streamed [text_envelope a1 t1; text_envelope a2 t2;
                      error_envelope [("message", JStr m)]])
         = Returns (JStr m)).
Proof.
  assert (Hnn : forall event key,
             truthy (get_opt event key) = true -> nullish event = false).
  { intros event key. destruct event; simpl; congruence. }
  assert (Herr : forall prefix acc event,
         stream_loop (JStr EmptyString) prefix = Returns acc ->
         truthy (get_opt event "error") = true ->
         (truthy (get_opt (get_opt event "result") "content") = false
          \/ exists rendered,
               content_to_string (get_opt (get_opt event "result") "content")
               = Returns rendered) ->
         _parseInvokeResponse (streamed (prefix ++ [event]))
         = Returns (or_else (get_opt (get_opt event "error") "message")
                            (JStr "Unknown error"))).
  { intros prefix acc event Hacc He Hc.
    rewrite (parse_streamed_last _ _ _ Hacc). unfold stream_step.
    rewrite !(get_not_nullish _ _ (Hnn _ _ He)). cbn [bind].
    rewrite He.
    rewrite (get_not_nullish (get_opt event "error"))
      by (destruct (get_opt event "error"); simpl in *; congruence).
    destruct Hc as [Hc | [rendered Hc]].
    - rewrite Hc. reflexivity.
    - rewrite Hc.
      destruct (truthy (get_opt (get_opt event "result") "content"));
        reflexivity. }
  split; [|split; [|split; [exact Herr|split; [|split]]]].
  - intros prefix acc event rendered Hacc Hc He Hr.
    rewrite (parse_streamed_last _ _ _ Hacc). unfold stream_step.
    assert (Hn : nullish event = false).
    { destruct event; simpl in *; try discriminate; reflexivity. }
    rewrite !(get_not_nullish _ _ Hn). cbn [bind].
    rewrite Hc, Hr. cbn [bind]. rewrite He. reflexivity.
  - intros prefix acc event Hacc Hn Hc He.
    rewrite (parse_streamed_last _ _ _ Hacc). unfold stream_step.
    rewrite !(get_not_nullish _ _ Hn). cbn [bind].
    rewrite Hc. cbn [bind]. rewrite He. reflexivity.
  - intros prefix acc m Hacc.
    rewrite (Herr prefix acc _ Hacc); [|reflexivity|left; reflexivity].
    unfold or_else. simpl. destruct (String.eqb m EmptyString); reflexivity.
  - intros prefix acc Hacc.
    rewrite (Herr prefix acc _ Hacc); [|reflexivity|left; reflexivity].
    reflexivity.
  - intros a1 a2 t1 t2 m _ Hm.
    assert (Hpre : exists acc,
               stream_loop (JStr EmptyString)
                 [text_envelope a1 t1; text_envelope a2 t2] = Returns acc).
    { destruct (stream_loop_ok [text_envelope a1 t1; text_envelope a2 t2]
                  (JStr EmptyString) eq_refl) as [s Hs]; [|eauto].
      destruct a1, a2; reflexivity. }
    destruct Hpre as [acc Hacc].
    change [text_envelope a1 t1; text_envelope a2 t2;
            error_envelope [("message", JStr m)]]
      with ([text_envelope a1 t1; text_envelope a2 t2]
              ++ [error_envelope [("message", JStr m)]])%list.
    rewrite (Herr _ acc _ Hacc); [|reflexivity|left; reflexivity].
    unfold or_else. simpl.
    destruct (String.eqb_spec m EmptyString); [contradiction|reflexivity].
Qed.

(** The three-envelope scenario at concrete texts. *)
Lemma stream_last_write_wins_witness :
  _parseInvokeResponse
    (streamed [text_envelope false "first"; text_envelope true "second";
               error_envelope [("message", JStr "quota exceeded")]])
  = Returns (JStr "quota exceeded").
Proof.
  destruct stream_last_write_wins as (_ & _ & _ & _ & _ & H).
  apply H; discriminate.
Defined.

End NormalizerClaims.


(* ================================================================== *)
(** * Properties of the code-interpreter client *)
(* ================================================================== *)

Module CodeInterpreterFacts.

Import CodeInterpreter.

Section Facts.

Variable env : Env.
Variable DEFAULT_TIMEOUT : Z.

Lemma interpreter_startSession_active (m : Machine t) params s :
  _session (self m) = Some s ->
  startSession env DEFAULT_TIMEOUT params m = (Throws already_active, m).
Proof.
  intros H. unfold startSession. run. rewrite H. reflexivity.
Qed.

Lemma interpreter_startSession_idle (m : Machine t) params :
  _session (self m) = None ->
  startSession env DEFAULT_TIMEOUT params m
  = let command := Send (start_command DEFAULT_TIMEOUT (self m) params) in
    match env _ (trace m) command with
    | Returns response =>
        (Returns (started params response),
         with_self (after m command)
           (set_session (Some (started params response)) (self m)))
    | Throws e => (Throws e, after m command)
    end.
Proof.
  intros H. unfold startSession. run. rewrite H.
  fold (start_command DEFAULT_TIMEOUT (self m) params). cbv zeta.
  destruct (env _ (trace m)
              (Send (start_command DEFAULT_TIMEOUT (self m) params)));
    reflexivity.
Qed.

Lemma interpreter_stopSession_idle (m : Machine t) :
  _session (self m) = None -> stopSession env m = (Returns tt, m).
Proof.
  intros H. unfold stopSession. run. rewrite H. reflexivity.
Qed.

Lemma interpreter_stopSession_active (m : Machine t) s :
  _session (self m) = Some s ->
  stopSession env m
  = let command := Send (stop_command (self m) s) in
    match env _ (trace m) command with
    | Returns _ =>
        (Returns tt, with_self (after m command) (set_session None (self m)))
    | Throws e => (Throws e, after m command)
    end.
Proof.
  intros H. unfold stopSession. run. rewrite H.
  fold (stop_command (self m) s). cbv zeta.
  destruct (env _ (trace m) (Send (stop_command (self m) s))); reflexivity.
Qed.

(** A tier-1 operation on an instance with an active session: one
    [send], whose every outcome becomes a returned value. *)
Lemma call_active (m : Machine t) op s :
  _session (self m) = Some s ->
  call env DEFAULT_TIMEOUT op m
  = let command := Send (invoke_command (self m) s op) in
    (Returns (settled op (env _ (trace m) command)), after m command).
Proof.
  intros H.
  destruct op; unfold call, executeCode, executeCommand, readFiles,
    writeFiles, listFiles, removeFiles, ensure_session, session_id; run;
    known H; cbv zeta; unfold invoke_command, settled, after;
    cbn [operation_name operation_arguments operation_fallback];
    match goal with
    | |- context [env ?R ?h ?c] =>
        destruct (env R h c) as [response|e];
        [destruct (_parseInvokeResponse response)|]
    end; reflexivity.
Qed.

(** A tier-1 operation on an idle instance starts a session with the
    default parameters first, outside its [try]: when that fails the
    operation fails with it, when it succeeds the operation goes on as
    on an active instance. *)
Lemma call_idle (m : Machine t) op :
  _session (self m) = None ->
  call env DEFAULT_TIMEOUT op m
  = match startSession env DEFAULT_TIMEOUT None m with
    | (Returns _, m') => call env DEFAULT_TIMEOUT op m'
    | (Throws e, m') => (Throws e, m')
    end.
Proof.
  intros H.
  destruct op; unfold call, executeCode, executeCommand, readFiles,
    writeFiles, listFiles, removeFiles, ensure_session;
    unfold await at 1; unfold await at 1; unfold this at 1; cbn [self];
    rewrite H; unfold await at 1; unfold await at 1;
    rewrite (interpreter_startSession_idle m None H); cbv zeta;
    match goal with
    | |- context [env ?R ?h ?c] => destruct (env R h c) as [response|e]
    end; try reflexivity.
Qed.

End Facts.

End CodeInterpreterFacts.

(* ================================================================== *)
(** * Properties of the browser clients *)
(* ================================================================== *)

(** ** Silent and read-only methods *)

Module Effects.

Section Rules.

Context {C : Type}.

Lemma sends_app (l1 l2 : list Event) :
  sends (l1 ++ l2) = (sends l1 ++ sends l2)%list.
Proof. unfold sends. apply flat_map_app. Qed.

Lemma silent_resolve {A : Type} (a : A) : silent (C := C) (resolve a).
Proof. intros m. exists []. rewrite app_nil_r. auto. Qed.

Lemma silent_throw {A : Type} (e : Thrown) : silent (C := C) (A := A) (throw e).
Proof. intros m. exists []. rewrite app_nil_r. auto. Qed.

Lemma silent_eval {A : Type} (c : Completion A) : silent (C := C) (eval c).
Proof. intros m. exists []. rewrite app_nil_r. auto. Qed.

Lemma silent_this {A : Type} (field : C -> A) : silent (this field).
Proof. intros m. exists []. rewrite app_nil_r. auto. Qed.

Lemma silent_assign (update : C -> C) : silent (assign update).
Proof. intros m. exists []. cbn. rewrite app_nil_r. auto. Qed.

Lemma silent_perform (env : Env) {R : Type} (call : Call R) :
  sent_command (Ev call) = [] -> silent (C := C) (perform env call).
Proof.
  intros H m. exists [Ev call]. cbn [perform snd trace]. split; auto.
  unfold sends. cbn [flat_map]. rewrite H. reflexivity.
Qed.

Lemma silent_await {A B : Type} (p : Async C A) (k : A -> Async C B) :
  silent p -> (forall a, silent (k a)) -> silent (await p k).
Proof.
  intros Hp Hk m. unfold await.
  destruct (Hp m) as [r1 [H1 S1]].
  destruct (p m) as [[a|e] m1]; cbn [snd] in *.
  - destruct (Hk a m1) as [r2 [H2 S2]].
    exists (r1 ++ r2)%list. rewrite H2, H1, app_assoc, sends_app, S1, S2.
    auto.
  - exists r1. auto.
Qed.

Lemma silent_try_catch {A : Type} (body : Async C A)
  (handler : Thrown -> Async C A) :
  silent body -> (forall e, silent (handler e)) ->
  silent (try_catch body handler).
Proof.
  intros Hp Hk m. unfold try_catch.
  destruct (Hp m) as [r1 [H1 S1]].
  destruct (body m) as [[a|e] m1]; cbn [snd] in *.
  - exists r1. auto.
  - destruct (Hk e m1) as [r2 [H2 S2]].
    exists (r1 ++ r2)%list. rewrite H2, H1, app_assoc, sends_app, S1, S2.
    auto.
Qed.

Lemma readonly_resolve {A : Type} (a : A) : readonly (C := C) (resolve a).
Proof. intros m. reflexivity. Qed.

Lemma readonly_throw {A : Type} (e : Thrown) :
  readonly (C := C) (A := A) (throw e).
Proof. intros m. reflexivity. Qed.

Lemma readonly_eval {A : Type} (c : Completion A) :
  readonly (C := C) (eval c).
Proof. intros m. reflexivity. Qed.

Lemma readonly_this {A : Type} (field : C -> A) : readonly (this field).
Proof. intros m. reflexivity. Qed.

Lemma readonly_perform (env : Env) {R : Type} (call : Call R) :
  readonly (C := C) (perform env call).
Proof. intros m. reflexivity. Qed.

Lemma readonly_await {A B : Type} (p : Async C A) (k : A -> Async C B) :
  readonly p -> (forall a, readonly (k a)) -> readonly (await p k).
Proof.
  intros Hp Hk m. unfold await. specialize (Hp m).
  destruct (p m) as [[a|e] m1]; cbn [snd] in *; auto.
  rewrite Hk. exact Hp.
Qed.

Lemma readonly_try_catch {A : Type} (body : Async C A)
  (handler : Thrown -> Async C A) :
  readonly body -> (forall e, readonly (handler e)) ->
  readonly (try_catch body handler).
Proof.
  intros Hp Hk m. unfold try_catch. specialize (Hp m).
  destruct (body m) as [[a|e] m1]; cbn [snd] in *; auto.
  rewrite Hk. exact Hp.
Qed.

End Rules.

Lemma readonly_inherited {A : Type} (method : Async Browser.t A) :
  readonly method -> readonly (PlaywrightBrowser.inherited method).
Proof.
  intros H m. unfold PlaywrightBrowser.inherited.
  specialize (H {| self := PlaywrightBrowser.base (self m);
                   trace := trace m |}).
  destruct (method _) as [r m1]. cbn [snd self] in *. rewrite H.
  destruct (self m); reflexivity.
Qed.

Lemma silent_inherited {A : Type} (method : Async Browser.t A) :
  silent method -> silent (PlaywrightBrowser.inherited method).
Proof.
  intros H m. unfold PlaywrightBrowser.inherited.
  destruct (H {| self := PlaywrightBrowser.base (self m); trace := trace m |})
    as [rest [H1 S1]].
  destruct (method _) as [r m1]. cbn [snd trace] in *.
  exists rest. auto.
Qed.

End Effects.

(** The rules as hints: [eauto with effects] proves a method silent or
    read-only by following its structure. *)
Create HintDb effects.

#[export] Hint Resolve
  Effects.silent_resolve Effects.silent_throw Effects.silent_this
  Effects.silent_assign Effects.silent_eval Effects.silent_inherited
  Effects.silent_await Effects.silent_try_catch
  Effects.readonly_resolve Effects.readonly_throw Effects.readonly_this
  Effects.readonly_eval Effects.readonly_perform Effects.readonly_inherited
  Effects.readonly_await Effects.readonly_try_catch : effects.

#[export] Hint Extern 1 (silent (perform _ _)) =>
  apply Effects.silent_perform; reflexivity : effects.

#[export] Hint Extern 1 (silent _) => progress cbv beta : effects.

#[export] Hint Extern 1 (readonly _) => progress cbv beta : effects.

#[export] Hint Extern 2 (silent (match ?x with _ => _ end)) =>
  destruct x : effects.

#[export] Hint Extern 2 (readonly (match ?x with _ => _ end)) =>
  destruct x : effects.

Module BrowserFacts.

Import Browser.

Section Facts.

Variable env : Env.
Variable now : JSValue.

Lemma browser_startSession_active (m : Machine t) params s :
  _session (self m) = Some s ->
  startSession env now params m = (Throws already_active, m).
Proof.
  intros H. unfold startSession. run. rewrite H. reflexivity.
Qed.

Lemma browser_startSession_idle (m : Machine t) params :
  _session (self m) = None ->
  startSession env now params m
  = let command := Send (start_command (self m) params) in
    match env _ (trace m) command with
    | Returns response =>
        (Returns (started now params response),
         with_self (after m command)
           (set_session (Some (started now params response)) (self m)))
    | Throws e => (Throws e, after m command)
    end.
Proof.
  intros H. unfold startSession. run. rewrite H.
  fold (start_command (self m) params). cbv zeta.
  destruct (env _ (trace m) (Send (start_command (self m) params)));
    reflexivity.
Qed.

Lemma browser_stopSession_idle (m : Machine t) :
  _session (self m) = None -> stopSession env m = (Returns tt, m).
Proof.
  intros H. unfold stopSession. run. rewrite H. reflexivity.
Qed.

Lemma browser_stopSession_active (m : Machine t) s :
  _session (self m) = Some s ->
  stopSession env m
  = let command := Send (stop_command (self m) s) in
    match env _ (trace m) command with
    | Returns _ =>
        (Returns tt, with_self (after m command) (set_session None (self m)))
    | Throws e => (Throws e, after m command)
    end.
Proof.
  intros H. unfold stopSession. run. rewrite H.
  fold (stop_command (self m) s). cbv zeta.
  destruct (env _ (trace m) (Send (stop_command (self m) s))); reflexivity.
Qed.

(** Without a session id, explicit or stored, [getSession] and
    [updateBrowserStream] throw before they send anything. *)
Lemma getSession_unresolved (m : Machine t) params :
  _session (self m) = None ->
  field_of params GetSessionParams.sessionId = None ->
  getSession env params m = (Throws missing_ids, m).
Proof.
  intros Hs Hp. unfold getSession. run. rewrite Hs, Hp.
  cbn [target_session session_id_opt truthy negb].
  rewrite orb_true_r. reflexivity.
Qed.

Lemma updateBrowserStream_unresolved (m : Machine t) params :
  _session (self m) = None ->
  UpdateStreamParams.sessionId params = None ->
  updateBrowserStream env params m = (Throws missing_ids, m).
Proof.
  intros Hs Hp. unfold updateBrowserStream. run. rewrite Hs, Hp.
  cbn [target_session session_id_opt truthy negb].
  rewrite orb_true_r. reflexivity.
Qed.

End Facts.

End BrowserFacts.

Module PlaywrightFacts.

Import PlaywrightBrowser.

Section Facts.

Variable env : Env.
Variable now : JSValue.

Lemma set_base_base (c : t) : set_base (base c) c = c.
Proof. destruct c; reflexivity. Qed.

Lemma machine_eta {C : Type} (m : Machine C) :
  {| self := self m; trace := trace m |} = m.
Proof. destruct m; reflexivity. Qed.

(** An inherited method that leaves its machine alone leaves the
    machine of the subclass alone. *)
Lemma inherited_unchanged {A : Type} (method : Async Browser.t A)
  (m : Machine t) (r : Completion A) :
  method {| self := base (self m); trace := trace m |}
  = (r, {| self := base (self m); trace := trace m |}) ->
  inherited method m = (r, m).
Proof.
  intros H. unfold inherited. rewrite H. cbn [self trace].
  rewrite set_base_base, machine_eta. reflexivity.
Qed.

Lemma playwright_startSession_active (m : Machine t) params s :
  _session (self m) = Some s ->
  startSession env now params m = (Throws already_active, m).
Proof.
  intros H. unfold startSession. apply inherited_unchanged.
  apply BrowserFacts.browser_startSession_active with (s := s). exact H.
Qed.

(** The command an instance sends to start a session, and the instance
    once the session is stored. *)
Lemma playwright_startSession_idle (m : Machine t) params :
  _session (self m) = None ->
  startSession env now params m
  = let command := Send (Browser.start_command (base (self m)) params) in
    match env _ (trace m) command with
    | Returns response =>
        (Returns (Browser.started now params response),
         with_self (after m command)
           (set_base
              (Browser.set_session
                 (Some (Browser.started now params response))
                 (base (self m)))
              (self m)))
    | Throws e => (Throws e, after m command)
    end.
Proof.
  intros H. unfold startSession, inherited.
  rewrite BrowserFacts.browser_startSession_idle by exact H. cbv zeta.
  cbn [self trace].
  destruct (env _ (trace m)
              (Send (Browser.start_command (base (self m)) params)));
    cbn [self trace]; unfold after, with_self; cbn [self trace].
  - reflexivity.
  - rewrite set_base_base. reflexivity.
Qed.

Lemma generateWebSocketUrl_silent : silent (Browser.generateWebSocketUrl env).
Proof.
  unfold Browser.generateWebSocketUrl. eauto 30 with nocore effects.
Qed.

Lemma _connectPlaywright_silent : silent (_connectPlaywright env).
Proof.
  unfold _connectPlaywright. pose proof generateWebSocketUrl_silent.
  eauto 30 with nocore effects.
Qed.

Lemma generateWebSocketUrl_readonly :
  readonly (inherited (Browser.generateWebSocketUrl env)).
Proof.
  unfold Browser.generateWebSocketUrl. eauto 30 with nocore effects.
Qed.

(** A connection that succeeds leaves both Playwright objects cached and
    the [Browser] part of the instance as it was. *)
Lemma _connectPlaywright_connected (m m1 : Machine t) :
  _connectPlaywright env m = (Returns tt, m1) ->
  base (self m1) = base (self m)
  /\ exists browser page,
       _playwrightBrowser (self m1) = Some browser
       /\ _playwrightPage (self m1) = Some page.
Proof.
  intros H. unfold _connectPlaywright in H. run_in H.
  cases_in H; try discriminate; inversion H; subst; cbn;
    match goal with
    | E : inherited _ ?m0 = (_, ?m1) |- _ =>
        pose proof (generateWebSocketUrl_readonly m0) as Hself;
        rewrite E in Hself; cbn [snd self] in Hself; rewrite Hself
    end; eauto.
Qed.

Lemma _ensureConnected_active (m : Machine t) s :
  _session (self m) = Some s ->
  _ensureConnected env now m
  = match _playwrightBrowser (self m), _playwrightPage (self m) with
    | Some _, Some _ => (Returns tt, m)
    | _, _ => _connectPlaywright env m
    end.
Proof.
  intros H. unfold _ensureConnected. run. rewrite H.
  destruct (_playwrightBrowser (self m)), (_playwrightPage (self m));
    reflexivity.
Qed.

Lemma _ensureConnected_idle (m : Machine t) :
  _session (self m) = None ->
  _ensureConnected env now m
  = match startSession env now None m with
    | (Returns _, m1) =>
        match _playwrightBrowser (self m1), _playwrightPage (self m1) with
        | Some _, Some _ => (Returns tt, m1)
        | _, _ => _connectPlaywright env m1
        end
    | (Throws e, m1) => (Throws e, m1)
    end.
Proof.
  intros H. unfold _ensureConnected.
  unfold await at 1. unfold await at 1. unfold this at 1. cbn [self].
  rewrite H. unfold await at 1.
  destruct (startSession env now None m) as [[info|e] m1]; [|reflexivity].
  run.
  destruct (_playwrightBrowser (self m1)), (_playwrightPage (self m1));
    reflexivity.
Qed.

(** Once [_ensureConnected] has returned, the instance has a session,
    a browser and a page. *)
Lemma _ensureConnected_connected (m m1 : Machine t) :
  _ensureConnected env now m = (Returns tt, m1) ->
  exists session browser page,
    _session (self m1) = Some session
    /\ _playwrightBrowser (self m1) = Some browser
    /\ _playwrightPage (self m1) = Some page.
Proof.
  assert (Hre : forall m0 s,
             _session (self m0) = Some s ->
             match _playwrightBrowser (self m0), _playwrightPage (self m0) with
             | Some _, Some _ => (Returns tt, m0)
             | _, _ => _connectPlaywright env m0
             end = (Returns tt, m1) ->
             exists session browser page,
               _session (self m1) = Some session
               /\ _playwrightBrowser (self m1) = Some browser
               /\ _playwrightPage (self m1) = Some page).
  { intros m0 s Hs H.
    destruct (_playwrightBrowser (self m0)) as [b|] eqn:Hb;
      [destruct (_playwrightPage (self m0)) as [p|] eqn:Hp|].
    - inversion H; subst. exists s, b, p. auto.
    - apply _connectPlaywright_connected in H as [Hbase [b' [p' [? ?]]]].
      exists s, b', p'. unfold _session. rewrite Hbase. auto.
    - apply _connectPlaywright_connected in H as [Hbase [b' [p' [? ?]]]].
      exists s, b', p'. unfold _session. rewrite Hbase. auto. }
  destruct (_session (self m)) as [s|] eqn:Hs.
  - rewrite (_ensureConnected_active m s Hs). apply Hre with (s := s); auto.
  - rewrite (_ensureConnected_idle m Hs),
      (playwright_startSession_idle m None Hs).
    cbv zeta.
    destruct (env _ (trace m)
                (Send (Browser.start_command (base (self m)) None)))
      as [response|e]; [|discriminate].
    apply Hre with (s := Browser.started now None response). reflexivity.
Qed.

(** The commands [_ensureConnected] sends: none on an instance with a
    session; on an idle instance the command that starts a session with
    the default parameters, first and alone. *)
Lemma _ensureConnected_sends_active (m : Machine t) s :
  _session (self m) = Some s ->
  exists rest,
    trace (snd (_ensureConnected env now m)) = (trace m ++ rest)%list
    /\ sends rest = [].
Proof.
  intros H. rewrite (_ensureConnected_active m s H).
  destruct (_playwrightBrowser (self m)); [destruct (_playwrightPage (self m))|];
    try apply _connectPlaywright_silent.
  exists []. rewrite app_nil_r. auto.
Qed.

Lemma _ensureConnected_sends_idle (m : Machine t) :
  _session (self m) = None ->
  exists rest,
    trace (snd (_ensureConnected env now m))
    = (trace m
         ++ Ev (Send (Browser.start_command (base (self m)) None)) :: rest)%list
    /\ sends rest = [].
Proof.
  intros H.
  rewrite (_ensureConnected_idle m H), (playwright_startSession_idle m None H).
  cbv zeta.
  destruct (env _ (trace m)
              (Send (Browser.start_command (base (self m)) None)))
    as [response|e].
  - match goal with
    | |- context [_connectPlaywright env ?m1] =>
        destruct (_connectPlaywright_silent m1) as [rest [Hrest Hs]];
        cbn [trace after with_self] in Hrest
    end.
    cbn [self with_self after set_base _playwrightBrowser _playwrightPage].
    destruct (_playwrightBrowser (self m));
      [destruct (_playwrightPage (self m))|].
    + exists []. cbn. auto.
    + exists rest. rewrite Hrest, <- app_assoc. auto.
    + exists rest. rewrite Hrest, <- app_assoc. auto.
  - exists []. cbn. auto.
Qed.

(** The calls of a connection that succeeds, and what they resolved
    to. *)
Lemma _connectPlaywright_calls (m m1 : Machine t) :
  _connectPlaywright env m = (Returns tt, m1) ->
  exists session id credentials signed browser,
    _session (self m) = Some session
    /\ ToString (sessionId session) = Returns id
    /\ env _ (trace m ++ [Ev ImportPlaywright])%list
         (ResolveCredentials (Browser._credentialsProvider (base (self m))))
       = Returns credentials
    /\ env _ (trace m ++ firstn 2 (connecting (base (self m)) id credentials
                                      signed browser))%list
         (Sign (websocket_request (base (self m)) id)
            (Browser.region (base (self m))) credentials)
       = Returns signed
    /\ env _ (trace m ++ firstn 3 (connecting (base (self m)) id credentials
                                      signed browser))%list
         (ConnectOverCDP (websocket_url (base (self m)) id)
            (Browser.string_headers (headers signed)))
       = Returns browser
    /\ _playwrightBrowser (self m1) = Some browser
    /\ trace m1
       = (trace m
            ++ connecting (base (self m)) id credentials signed browser)%list.
Proof.
  intros H.
  unfold _connectPlaywright, inherited, Browser.generateWebSocketUrl in H.
  run_in H. unfold _session in *.
  destruct (Browser._session (base (self m))) as [session|] eqn:Hs;
    [|discriminate].
  destruct (env _ (trace m) ImportPlaywright) as [[]|e0]; [|discriminate].
  cbn [self trace base] in H. rewrite Hs in H.
  destruct (ToString (sessionId session)) as [id|e1] eqn:Hid;
    [|discriminate].
  destruct (env _ _ (ResolveCredentials _)) as [credentials|e2] eqn:Hc;
    [|discriminate].
  destruct (env _ _ (Sign _ _ _)) as [signed|e3] eqn:Hsign; [|discriminate].
  cbn [self trace set_base base Browser.WebSocketConnection.url
       Browser.WebSocketConnection.headers] in H.
  destruct (env _ _ (ConnectOverCDP _ _)) as [browser|e4] eqn:Hconnect;
    [|discriminate].
  exists session, id, credentials, signed, browser.
  unfold connecting, opening. cbn [firstn app].
  cbn [self trace] in Hc, Hsign.
  rewrite <- !app_assoc in Hsign. rewrite <- !app_assoc in Hconnect.
  cbn [app] in Hsign, Hconnect.
  split; [reflexivity|]. split; [exact Hid|]. split; [reflexivity|].
  split; [exact Hsign|]. split; [exact Hconnect|].
  cbn [self trace] in H.
  destruct (contexts browser) as [|context others]; [discriminate|].
  destruct (pages context) as [|page rest].
  - destruct (env _ _ (NewPage context)) as [page|e5]; [|discriminate].
    inversion H; subst m1. cbn [self trace _playwrightBrowser
                                set_playwrightPage set_playwrightBrowser].
    split; [reflexivity|]. rewrite <- !app_assoc. reflexivity.
  - inversion H; subst m1. cbn [self trace _playwrightBrowser
                                set_playwrightPage set_playwrightBrowser].
    split; [reflexivity|]. rewrite <- !app_assoc. reflexivity.
Qed.

(** [getText]: after the connection, the lookup and the read of the
    text, or the read of the body. *)
Lemma getText_connected (m m1 : Machine t) (page : PageHandle) params :
  _ensureConnected env now m = (Returns tt, m1) ->
  _playwrightPage (self m1) = Some page ->
  trace (snd (getText env now params m))
  = (trace m1
       ++ match GetTextParams.selector params with
          | Some selector =>
              if truthy (JStr selector) then
                Ev (PageQuery page selector)
                :: match env _ (trace m1) (PageQuery page selector) with
                   | Returns (Some element) =>
                       [Ev (ElementTextContent element)]
                   | _ => []
                   end
              else [Ev (PageTextContent page "body")]
          | None => [Ev (PageTextContent page "body")]
          end)%list.
Proof.
  intros H Hp. unfold getText. unfold await at 1. rewrite H.
  assert (Hbody :
            trace (snd ((page <- playwrightPage "textContent" ;;
                         text <- perform env (PageTextContent page "body") ;;
                         resolve (default text EmptyString))%async m1))
            = (trace m1 ++ [Ev (PageTextContent page "body")])%list).
  { unfold playwrightPage. run. rewrite Hp.
    destruct (env _ (trace m1) (PageTextContent page "body")); reflexivity. }
  destruct (GetTextParams.selector params) as [selector|]; [|exact Hbody].
  destruct (truthy (JStr selector)); [|exact Hbody].
  unfold playwrightPage. run. rewrite Hp.
  destruct (env _ (trace m1) (PageQuery page selector)) as [[element|]|e];
    cbn [self trace snd]; try reflexivity.
  destruct (env _ _ (ElementTextContent element)); cbn [trace snd];
    rewrite <- app_assoc; reflexivity.
Qed.

(** [navigate]: after the connection, one call of [page.goto]. *)
Lemma navigate_connected (m m1 : Machine t) params :
  _ensureConnected env now m = (Returns tt, m1) ->
  exists page,
    _playwrightPage (self m1) = Some page
    /\ navigate env now params m
       = let goto :=
           PageGoto page (NavigateParams.url params)
             (default (NavigateParams.waitUntil params) "domcontentloaded")
             (NavigateParams.timeout params) in
         (env _ (trace m1) goto, after m1 goto).
Proof.
  intros H.
  destruct (_ensureConnected_connected m m1 H) as (s & b & page & _ & _ & Hp).
  exists page. split; [exact Hp|].
  unfold navigate. unfold await at 1. rewrite H. unfold playwrightPage. run.
  rewrite Hp. reflexivity.
Qed.

(** [isVisible]: the connection is awaited outside the [try]; inside
    it every outcome of the lookup and of the visibility check becomes
    a boolean. *)
Lemma isVisible_connected (m m1 : Machine t) params :
  _ensureConnected env now m = (Returns tt, m1) ->
  exists page,
    _playwrightPage (self m1) = Some page
    /\ isVisible env now params m
       = let query := PageQuery page (IsVisibleParams.selector params) in
         match env _ (trace m1) query with
         | Returns None => (Returns false, after m1 query)
         | Returns (Some element) =>
             match env _ (trace (after m1 query)) (ElementIsVisible element) with
             | Returns visible =>
                 (Returns visible,
                  after (after m1 query) (ElementIsVisible element))
             | Throws _ =>
                 (Returns false,
                  after (after m1 query) (ElementIsVisible element))
             end
         | Throws _ => (Returns false, after m1 query)
         end.
Proof.
  intros H.
  destruct (_ensureConnected_connected m m1 H) as (s & b & page & _ & _ & Hp).
  exists page. split; [exact Hp|].
  unfold isVisible. unfold await at 1. rewrite H. unfold playwrightPage. run.
  rewrite Hp. cbv zeta. unfold after. cbn [self trace].
  destruct (env _ (trace m1) (PageQuery page (IsVisibleParams.selector params)))
    as [[element|]|e]; reflexivity.
Qed.

Lemma isVisible_disconnected (m m1 : Machine t) params e :
  _ensureConnected env now m = (Throws e, m1) ->
  isVisible env now params m = (Throws e, m1).
Proof.
  intros H. unfold isVisible. unfold await at 1. rewrite H. reflexivity.
Qed.

(** [back] and [forward]: three strategies in order, the next one tried
    whenever the current one throws, whatever it throws. *)
Lemma back_connected (m m1 : Machine t) :
  _ensureConnected env now m = (Returns tt, m1) ->
  exists page,
    _playwrightPage (self m1) = Some page
    /\ back env now m
       = let idle := PageGoBack page "networkidle" 30000 in
         let load := PageGoBack page "load" 30000 in
         let script := PageEvaluate page "window.history.back()" in
         match env _ (trace m1) idle with
         | Returns _ => (Returns tt, after m1 idle)
         | Throws _ =>
             match env _ (trace (after m1 idle)) load with
             | Returns _ => (Returns tt, after (after m1 idle) load)
             | Throws _ =>
                 match env _ (trace (after (after m1 idle) load)) script with
                 | Returns _ =>
                     (Returns tt, after (after (after m1 idle) load) script)
                 | Throws e =>
                     (Throws e, after (after (after m1 idle) load) script)
                 end
             end
         end.
Proof.
  intros H.
  destruct (_ensureConnected_connected m m1 H) as (s & b & page & _ & _ & Hp).
  exists page. split; [exact Hp|].
  unfold back. unfold await at 1. rewrite H. unfold playwrightPage. run.
  rewrite Hp. cbv zeta. unfold after. cbn [self trace].
  destruct (env _ (trace m1) (PageGoBack page "networkidle" 30000))
    as [[]|e1]; [reflexivity|].
  cbn [self trace]. rewrite Hp.
  destruct (env _ _ (PageGoBack page "load" 30000)) as [[]|e2];
    [reflexivity|].
  cbn [self trace]. rewrite Hp.
  destruct (env _ _ (PageEvaluate page "window.history.back()"));
    reflexivity.
Qed.

Lemma forward_connected (m m1 : Machine t) :
  _ensureConnected env now m = (Returns tt, m1) ->
  exists page,
    _playwrightPage (self m1) = Some page
    /\ forward env now m
       = let idle := PageGoForward page "networkidle" 30000 in
         let load := PageGoForward page "load" 30000 in
         let script := PageEvaluate page "window.history.forward()" in
         match env _ (trace m1) idle with
         | Returns _ => (Returns tt, after m1 idle)
         | Throws _ =>
             match env _ (trace (after m1 idle)) load with
             | Returns _ => (Returns tt, after (after m1 idle) load)
             | Throws _ =>
                 match env _ (trace (after (after m1 idle) load)) script with
                 | Returns _ =>
                     (Returns tt, after (after (after m1 idle) load) script)
                 | Throws e =>
                     (Throws e, after (after (after m1 idle) load) script)
                 end
             end
         end.
Proof.
  intros H.
  destruct (_ensureConnected_connected m m1 H) as (s & b & page & _ & _ & Hp).
  exists page. split; [exact Hp|].
  unfold forward. unfold await at 1. rewrite H. unfold playwrightPage. run.
  rewrite Hp. cbv zeta. unfold after. cbn [self trace].
  destruct (env _ (trace m1) (PageGoForward page "networkidle" 30000))
    as [[]|e1]; [reflexivity|].
  cbn [self trace]. rewrite Hp.
  destruct (env _ _ (PageGoForward page "load" 30000)) as [[]|e2];
    [reflexivity|].
  cbn [self trace]. rewrite Hp.
  destruct (env _ _ (PageEvaluate page "window.history.forward()"));
    reflexivity.
Qed.

(** Stopping an instance without a session: the cached Playwright
    browser, if any, is closed; nothing is sent to the service. *)
Lemma playwright_stopSession_idle (m : Machine t) :
  _session (self m) = None ->
  stopSession env m
  = (Returns tt,
     match _playwrightBrowser (self m) with
     | Some browser =>
         match env _ (trace m) (BrowserClose browser) with
         | Returns _ =>
             with_self (after m (BrowserClose browser))
               (set_playwrightPage None
                  (set_playwrightBrowser None (self m)))
         | Throws _ => after m (BrowserClose browser)
         end
     | None => m
     end).
Proof.
  intros H. unfold stopSession. unfold await at 1.
  assert (Hstop : forall m0 : Machine t,
             _session (self m0) = None ->
             inherited (Browser.stopSession env) m0 = (Returns tt, m0)).
  { intros m0 H0. apply inherited_unchanged.
    apply BrowserFacts.browser_stopSession_idle. exact H0. }
  run. destruct (_playwrightBrowser (self m)) as [browser|].
  - destruct (env _ (trace m) (BrowserClose browser)); cbn [self trace];
      apply Hstop; exact H.
  - apply Hstop. exact H.
Qed.

Lemma playwright_stopSession_idle_quiet (m : Machine t) :
  _session (self m) = None ->
  exists m',
    stopSession env m = (Returns tt, m')
    /\ _session (self m') = None
    /\ sends (trace m') = sends (trace m).
Proof.
  intros H. rewrite (playwright_stopSession_idle m H). eexists.
  split; [reflexivity|].
  destruct (_playwrightBrowser (self m)) as [browser|]; [|auto].
  destruct (env _ (trace m) (BrowserClose browser));
    cbn [self trace after with_self];
    rewrite Effects.sends_app; cbn; rewrite app_nil_r; auto.
Qed.

(** If [stopSession] throws, the session slot is as it was. *)
Lemma playwright_stopSession_throws (m m' : Machine t) e :
  stopSession env m = (Throws e, m') ->
  _session (self m') = _session (self m).
Proof.
  unfold stopSession, inherited, Browser.stopSession, _session. run.
  destruct (_playwrightBrowser (self m)) as [browser|];
    [destruct (env _ (trace m) (BrowserClose browser))|];
    cbn [self trace base set_playwrightBrowser set_playwrightPage];
    (destruct (Browser._session (base (self m))) as [session|] eqn:Hs;
     [|discriminate]);
    match goal with
    | |- context [env ?R ?h (Send ?c)] => destruct (env R h (Send c))
    end; try discriminate;
    intros H; inversion H; subst; cbn [self base set_base]; exact Hs.
Qed.

End Facts.

End PlaywrightFacts.

(* ================================================================== *)
(** * The cases of the test suites *)
(* ================================================================== *)

(** The embedding run on cases of [client.test.ts] of both clients, with
    the worlds of [Scenarios] in the place of the mocks. *)
Module TestSuite.

Import Scenarios.

Example auto_creates_session_when_none_exists :
  fst (CodeInterpreter.call reliable timeout print_one interpreter)
  = Returns (JStr "Output: 1").
Proof. reflexivity. Qed.

Example returns_error_result_on_execution_failure :
  _parseInvokeResponse
    {| fields := [("result", JObj [("content", JStr "Error occurred")]);
                  ("isError", JBool true)];
       stream := None |}
  = Returns (JStr "Error occurred").
Proof. reflexivity. Qed.

Example stops_active_session_and_starts_again :
  fst (CodeInterpreter.startSession reliable timeout None
         (snd (CodeInterpreter.stopSession reliable active_interpreter)))
  = Returns session_1.
Proof. reflexivity. Qed.

Example navigates_to_url_with_default_waitUntil :
  sends (trace (snd (PlaywrightBrowser.navigate reliable clock example_page
                       playwright)))
  = [StartBrowserSessionCommand "aws.browser.v1" "default" 3600 None]
  /\ last (trace (snd (PlaywrightBrowser.navigate reliable clock example_page
                         playwright)))
          (Ev ImportPlaywright)
     = Ev (PageGoto 1 "https://example.com" "domcontentloaded" None).
Proof. split; reflexivity. Qed.

Example gets_text_from_selector :
  fst (PlaywrightBrowser.getText reliable clock heading playwright)
  = Returns "Hello World".
Proof. reflexivity. Qed.

Example throws_error_when_element_not_found :
  fst (PlaywrightBrowser.getText nothing_found clock
         {| PlaywrightBrowser.GetTextParams.selector := Some ".missing" |}
         playwright)
  = Throws (ErrorObject "Error" "Element not found: .missing").
Proof. reflexivity. Qed.

Example closes_playwright_browser_on_stopSession :
  PlaywrightBrowser.stopSession reliable connected_playwright
  = (Returns tt,
     {| self := self playwright;
        trace := (trace connected_playwright
                    ++ [Ev (BrowserClose
                              {| browser_id := 1;
                                 contexts := [{| context_id := 1;
                                                 pages := [1] |}] |});
                        Ev (Send (StopBrowserSessionCommand "aws.browser.v1"
                                    (JStr "session-1")))])%list |}).
Proof. reflexivity. Qed.

End TestSuite.

(* ================================================================== *)
(** * The claims *)
(* ================================================================== *)

Module Claims.

Import Scenarios CodeInterpreterFacts BrowserFacts PlaywrightFacts.

(** ** Tier-1 operations *)

(** C1 does not hold as stated.  On an idle instance whose implicit
    session creation is rejected by the transport, [executeCode] rejects
    with the transport error: the creation is awaited before the [try].
    And when the stream carries an error object whose message is the
    number 42, the operation resolves to that number, not to a string. *)
Lemma tier1_rejects_when_session_creation_fails :
  CodeInterpreter.call first_send_fails timeout print_one interpreter
  = (Throws network_down,
     after interpreter
       (Send (StartCodeInterpreterSessionCommand
                "aws.codeinterpreter.v1" "default" 900)))
  /\ fst (CodeInterpreter.call
            (answering (streamed [error_envelope [("message", JNum 42)]]))
            timeout print_one interpreter)
     = Returns (JNum 42).
Proof.
  split; reflexivity.
Qed.

(** C1, as the code guarantees it.  For every tier-1 operation on an
    instance with a session, whatever the outcome of the one [send]: the
    call returns and never throws; when the [send] throws an instance of
    [Error] the result is [Error: ] followed by its message, and when it
    throws anything else, [Error: ] followed by the fallback text of the
    operation; a response is turned into the result of the normaliser,
    an exception of the normaliser being reported in the same way; and
    the result is a string whenever the error messages of the response
    are text. On an idle instance the operation first awaits
    [startSession()]: when that succeeds the operation goes on as above,
    and when it is rejected the operation is rejected with the same
    error. *)
Theorem tier1_resolves_once_session_available
  (env : Env) (DEFAULT_TIMEOUT : Z) (op : CodeInterpreter.Operation)
  (m : Machine CodeInterpreter.t) :
  (forall s,
      CodeInterpreter._session (self m) = Some s ->
      let command := Send (CodeInterpreter.invoke_command (self m) s op) in
      (exists v,
          CodeInterpreter.call env DEFAULT_TIMEOUT op m
          = (Returns v, after m command))
      /\ (forall name message,
             env _ (trace m) command = Throws (ErrorObject name message) ->
             fst (CodeInterpreter.call env DEFAULT_TIMEOUT op m)
             = Returns (JStr ("Error: " ++ message)))
      /\ (forall v,
             env _ (trace m) command = Throws (ThrownValue v) ->
             fst (CodeInterpreter.call env DEFAULT_TIMEOUT op m)
             = Returns (JStr ("Error: "
                                ++ CodeInterpreter.operation_fallback op)))
      /\ (forall response v,
             env _ (trace m) command = Returns response ->
             _parseInvokeResponse response = Returns v ->
             fst (CodeInterpreter.call env DEFAULT_TIMEOUT op m) = Returns v)
      /\ (forall response name message,
             env _ (trace m) command = Returns response ->
             _parseInvokeResponse response
             = Throws (ErrorObject name message) ->
             fst (CodeInterpreter.call env DEFAULT_TIMEOUT op m)
             = Returns (JStr ("Error: " ++ message)))
      /\ (forall response,
             env _ (trace m) command = Returns response ->
             errors_textual response = true ->
             exists text,
               fst (CodeInterpreter.call env DEFAULT_TIMEOUT op m)
               = Returns (JStr text)))
  /\ (forall response,
         CodeInterpreter._session (self m) = None ->
         let start :=
           Send (CodeInterpreter.start_command DEFAULT_TIMEOUT (self m) None) in
         env _ (trace m) start = Returns response ->
         CodeInterpreter.call env DEFAULT_TIMEOUT op m
         = CodeInterpreter.call env DEFAULT_TIMEOUT op
             (with_self (after m start)
                (CodeInterpreter.set_session
                   (Some (CodeInterpreter.started None response)) (self m))))
  /\ (forall e,
         CodeInterpreter._session (self m) = None ->
         let start :=
           Send (CodeInterpreter.start_command DEFAULT_TIMEOUT (self m) None) in
         env _ (trace m) start = Throws e ->
         CodeInterpreter.call env DEFAULT_TIMEOUT op m
         = (Throws e, after m start)).
Proof.
  split; [|split].
  - intros s Hs command.
    rewrite (call_active env DEFAULT_TIMEOUT m op s Hs).
    cbv zeta. fold command. cbn [fst].
    repeat split.
    + eauto.
    + intros name message ->. reflexivity.
    + intros v ->. reflexivity.
    + intros response v -> Hv. cbn. rewrite Hv. reflexivity.
    + intros response name message -> Hv. cbn. rewrite Hv. reflexivity.
    + intros response -> Hok. cbn [CodeInterpreter.settled].
      destruct (_parseInvokeResponse response) as [v|e] eqn:Hv.
      * pose proof (NormalizerFacts._parseInvokeResponse_is_string
                      response v Hok Hv) as Hstr.
        destruct v; try discriminate. eauto.
      * unfold CodeInterpreter.error_string. eauto.
  - intros response Hs start Hstart.
    rewrite (call_idle env DEFAULT_TIMEOUT m op Hs).
    rewrite (interpreter_startSession_idle env DEFAULT_TIMEOUT m None Hs).
    cbv zeta. fold start. rewrite Hstart. reflexivity.
  - intros e Hs start Hstart.
    rewrite (call_idle env DEFAULT_TIMEOUT m op Hs).
    rewrite (interpreter_startSession_idle env DEFAULT_TIMEOUT m None Hs).
    cbv zeta. fold start. rewrite Hstart. reflexivity.
Qed.

(** An active instance whose [send] is throttled, and an idle instance
    in a reliable world. *)
Lemma tier1_resolves_witness :
  fst (CodeInterpreter.call invoke_fails timeout print_one active_interpreter)
  = Returns (JStr "Error: Rate exceeded")
  /\ (exists text,
         fst (CodeInterpreter.call reliable timeout print_one
                active_interpreter)
         = Returns (JStr text))
  /\ CodeInterpreter.call first_send_fails timeout print_one interpreter
     = (Throws network_down,
        after interpreter
          (Send (CodeInterpreter.start_command timeout (self interpreter)
                   None))).
Proof.
  split; [|split].
  - destruct (tier1_resolves_once_session_available
                invoke_fails timeout print_one active_interpreter) as [H _].
    destruct (H session_1 eq_refl) as (_ & H2 & _).
    apply (H2 "ThrottlingException"). reflexivity.
  - destruct (tier1_resolves_once_session_available
                reliable timeout print_one active_interpreter) as [H _].
    destruct (H session_1 eq_refl) as (_ & _ & _ & _ & _ & H6).
    apply (H6 (streamed [text_envelope true "Output: 1"])); reflexivity.
  - destruct (tier1_resolves_once_session_available
                first_send_fails timeout print_one interpreter)
      as (_ & _ & H).
    apply H; reflexivity.
Defined.

(** ** The session slot *)

(** C4 does not hold as stated.  Two [startSession] calls in a row, no
    stop in between: the first is rejected by the transport, the slot
    stays empty, and the second succeeds. *)
Lemma second_start_succeeds_after_failed_start :
  fst (CodeInterpreter.startSession first_send_fails timeout None interpreter)
  = Throws network_down
  /\ fst (CodeInterpreter.startSession first_send_fails timeout None
            (snd (CodeInterpreter.startSession first_send_fails timeout None
                    interpreter)))
     = Returns session_1
  /\ fst (Browser.startSession first_send_fails clock None
            (snd (Browser.startSession first_send_fails clock None browser)))
     = Returns session_1.
Proof.
  repeat split; reflexivity.
Qed.

(** C4, as the code guarantees it.  In both families [startSession] on
    an instance with a session throws the already-active error and
    leaves the instance and the trace as they were: nothing is sent.
    Hence, of two [startSession] calls in a row, the second throws that
    error whenever the first one returned. *)
Theorem start_rejected_while_active (env : Env) (DEFAULT_TIMEOUT : Z)
  (now : JSValue) :
  (forall (m : Machine CodeInterpreter.t) params s,
      CodeInterpreter._session (self m) = Some s ->
      CodeInterpreter.startSession env DEFAULT_TIMEOUT params m
      = (Throws already_active, m))
  /\ (forall (m m1 : Machine CodeInterpreter.t) params1 params2 info,
         CodeInterpreter.startSession env DEFAULT_TIMEOUT params1 m
         = (Returns info, m1) ->
         CodeInterpreter.startSession env DEFAULT_TIMEOUT params2 m1
         = (Throws already_active, m1))
  /\ (forall (m : Machine Browser.t) params s,
         Browser._session (self m) = Some s ->
         Browser.startSession env now params m = (Throws already_active, m))
  /\ (forall (m m1 : Machine Browser.t) params1 params2 info,
         Browser.startSession env now params1 m = (Returns info, m1) ->
         Browser.startSession env now params2 m1
         = (Throws already_active, m1))
  /\ (forall (m : Machine PlaywrightBrowser.t) params s,
         PlaywrightBrowser._session (self m) = Some s ->
         PlaywrightBrowser.startSession env now params m
         = (Throws already_active, m))
  /\ (forall (m m1 : Machine PlaywrightBrowser.t) params1 params2 info,
         PlaywrightBrowser.startSession env now params1 m = (Returns info, m1) ->
         PlaywrightBrowser.startSession env now params2 m1
         = (Throws already_active, m1)).
Proof.
  repeat split.
  - intros m params s. apply interpreter_startSession_active.
  - intros m m1 params1 params2 info H.
    destruct (CodeInterpreter._session (self m)) as [s|] eqn:Hs.
    + rewrite (interpreter_startSession_active
                 env DEFAULT_TIMEOUT m params1 s Hs) in H.
      discriminate.
    + rewrite (interpreter_startSession_idle
                 env DEFAULT_TIMEOUT m params1 Hs) in H.
      cbv zeta in H.
      destruct (env _ (trace m) _) as [response|e]; [|discriminate].
      inversion H; subst.
      eapply interpreter_startSession_active. reflexivity.
  - intros m params s. apply browser_startSession_active.
  - intros m m1 params1 params2 info H.
    destruct (Browser._session (self m)) as [s|] eqn:Hs.
    + rewrite (browser_startSession_active env now m params1 s Hs) in H.
      discriminate.
    + rewrite (browser_startSession_idle env now m params1 Hs) in H.
      cbv zeta in H.
      destruct (env _ (trace m) _) as [response|e]; [|discriminate].
      inversion H; subst.
      eapply browser_startSession_active. reflexivity.
  - intros m params s. apply playwright_startSession_active.
  - intros m m1 params1 params2 info H.
    destruct (PlaywrightBrowser._session (self m)) as [s|] eqn:Hs.
    + rewrite (playwright_startSession_active env now m params1 s Hs) in H.
      discriminate.
    + rewrite (playwright_startSession_idle env now m params1 Hs) in H.
      cbv zeta in H.
      destruct (env _ (trace m) _) as [response|e]; [|discriminate].
      inversion H; subst.
      eapply playwright_startSession_active. reflexivity.
Qed.

(** Two starts in a row in a reliable world. *)
Lemma start_rejected_while_active_witness :
  CodeInterpreter.startSession reliable timeout None active_interpreter
  = (Throws already_active, active_interpreter)
  /\ fst (Browser.startSession reliable clock None
            (snd (Browser.startSession reliable clock None browser)))
     = Throws already_active.
Proof.
  destruct (start_rejected_while_active reliable timeout clock)
    as (H1 & _ & _ & H4 & _).
  split.
  - apply (H1 active_interpreter None session_1). reflexivity.
  - rewrite (H4 browser
               (snd (Browser.startSession reliable clock None browser))
               None None session_1); reflexivity.
Defined.

(** C5.  In both families [stopSession] on an instance without a
    session returns, sends nothing to the service and leaves the session
    slot empty, however many times it is called.  On a [CodeInterpreter]
    and on a [Browser] it leaves the instance and the trace untouched;
    on a [PlaywrightBrowser] it does so too unless a Playwright browser
    is still cached, which it closes. *)
Theorem stop_without_session_is_noop (env : Env) :
  (forall (m : Machine CodeInterpreter.t) n,
      CodeInterpreter._session (self m) = None ->
      CodeInterpreter.stopSession env m = (Returns tt, m)
      /\ repeatedly n (CodeInterpreter.stopSession env) m = (Returns tt, m))
  /\ (forall (m : Machine Browser.t) n,
         Browser._session (self m) = None ->
         Browser.stopSession env m = (Returns tt, m)
         /\ repeatedly n (Browser.stopSession env) m = (Returns tt, m))
  /\ (forall (m : Machine PlaywrightBrowser.t) n,
         PlaywrightBrowser._session (self m) = None ->
         exists m',
           repeatedly n (PlaywrightBrowser.stopSession env) m
           = (Returns tt, m')
           /\ PlaywrightBrowser._session (self m') = None
           /\ sends (trace m') = sends (trace m))
  /\ (forall (m : Machine PlaywrightBrowser.t) n,
         PlaywrightBrowser._session (self m) = None ->
         PlaywrightBrowser._playwrightBrowser (self m) = None ->
         PlaywrightBrowser.stopSession env m = (Returns tt, m)
         /\ repeatedly n (PlaywrightBrowser.stopSession env) m
            = (Returns tt, m)).
Proof.
  assert (Hrep : forall (C : Type) (p : Async C unit) (m : Machine C) n,
             p m = (Returns tt, m) -> repeatedly n p m = (Returns tt, m)).
  { intros C p m n H. induction n as [|n IH]; [reflexivity|].
    cbn [repeatedly]. unfold await. rewrite H. exact IH. }
  repeat split.
  - apply interpreter_stopSession_idle. assumption.
  - apply Hrep. apply interpreter_stopSession_idle. assumption.
  - apply browser_stopSession_idle. assumption.
  - apply Hrep. apply browser_stopSession_idle. assumption.
  - intros m n. revert m. induction n as [|n IH]; intros m H.
    + exists m. auto.
    + destruct (playwright_stopSession_idle_quiet env m H)
        as (m1 & Hstop & Hs & Ht).
      destruct (IH m1 Hs) as (m' & Hrest & Hs' & Ht').
      exists m'. cbn [repeatedly]. unfold await. rewrite Hstop.
      repeat split; auto. congruence.
  - rewrite (playwright_stopSession_idle env m) by assumption.
    match goal with H : _ = None |- _ => rewrite H end. reflexivity.
  - apply Hrep.
    rewrite (playwright_stopSession_idle env m) by assumption.
    match goal with
    | H : PlaywrightBrowser._playwrightBrowser _ = None |- _ => rewrite H
    end. reflexivity.
Qed.

(** Three stops in a row on fresh instances. *)
Lemma stop_without_session_witness :
  repeatedly 3 (CodeInterpreter.stopSession reliable) interpreter
  = (Returns tt, interpreter)
  /\ repeatedly 3 (Browser.stopSession reliable) browser
     = (Returns tt, browser)
  /\ repeatedly 3 (PlaywrightBrowser.stopSession reliable) playwright
     = (Returns tt, playwright).
Proof.
  destruct (stop_without_session_is_noop reliable) as (H1 & H2 & _ & H4).
  split; [|split].
  - apply (H1 interpreter 3). reflexivity.
  - apply (H2 browser 3). reflexivity.
  - apply (H4 playwright 3); reflexivity.
Defined.

(** ** Auto-provisioning *)

(** C6 does not hold as stated.  [executeCode] on an idle instance whose
    session creation is rejected: one creation is sent, no operation
    call follows, and the operation is rejected. And [getText] with a
    selector on a connected Playwright client issues two Playwright
    calls, the lookup and the read of the text. *)
Lemma no_operation_call_when_creation_fails :
  sends (trace (snd (CodeInterpreter.call first_send_fails timeout print_one
                       interpreter)))
  = [StartCodeInterpreterSessionCommand "aws.codeinterpreter.v1" "default" 900]
  /\ fst (CodeInterpreter.call first_send_fails timeout print_one interpreter)
     = Throws network_down
  /\ trace (snd (PlaywrightBrowser.getText reliable clock heading
                   connected_playwright))
     = (trace connected_playwright
          ++ [Ev (PageQuery 1 "h1"); Ev (ElementTextContent 1)])%list.
Proof.
  split; [|split]; reflexivity.
Qed.

(** C6, as the code guarantees it.  A tier-1 operation on an instance
    with a session issues exactly one call, its invocation, and no
    session creation. On an idle instance it first sends one creation
    with the default name and timeout; when that succeeds exactly one
    invocation follows, on the new session, and when it is rejected
    nothing follows and the operation is rejected. In the browser family
    [_ensureConnected] sends nothing to the service on an instance with
    a session, and on an idle instance sends the creation with the
    default parameters, first and alone; [navigate] then issues one
    Playwright call.  After the session, [_ensureConnected] issues no
    call at all when a browser and a page are cached, and runs
    [_connectPlaywright] otherwise, on the instance as the creation left
    it; a creation that is rejected ends it there.  A connection that
    succeeds issues the import, the resolution of the credentials, the
    signature and [connectOverCDP], then [newPage] when the first
    context has no page, and nothing else.  [getText] then issues the
    lookup and, when an element was found, the read of its text; without
    selector, or with the empty one, the read of the body alone. *)
Theorem auto_provision_calls (env : Env) (DEFAULT_TIMEOUT : Z)
  (now : JSValue) :
  (forall (m : Machine CodeInterpreter.t) op s,
      CodeInterpreter._session (self m) = Some s ->
      trace (snd (CodeInterpreter.call env DEFAULT_TIMEOUT op m))
      = (trace m
           ++ [Ev (Send (CodeInterpreter.invoke_command (self m) s op))])%list)
  /\ (forall (m : Machine CodeInterpreter.t) op response,
         CodeInterpreter._session (self m) = None ->
         let start :=
           StartCodeInterpreterSessionCommand
             (CodeInterpreter.identifier (self m))
             CodeInterpreter.DEFAULT_SESSION_NAME DEFAULT_TIMEOUT in
         env _ (trace m) (Send start) = Returns response ->
         trace (snd (CodeInterpreter.call env DEFAULT_TIMEOUT op m))
         = (trace m
              ++ [Ev (Send start);
                  Ev (Send (CodeInterpreter.invoke_command (self m)
                              (CodeInterpreter.started None response) op))])%list)
  /\ (forall (m : Machine CodeInterpreter.t) op e,
         CodeInterpreter._session (self m) = None ->
         let start :=
           StartCodeInterpreterSessionCommand
             (CodeInterpreter.identifier (self m))
             CodeInterpreter.DEFAULT_SESSION_NAME DEFAULT_TIMEOUT in
         env _ (trace m) (Send start) = Throws e ->
         CodeInterpreter.call env DEFAULT_TIMEOUT op m
         = (Throws e, after m (Send start)))
  /\ (forall (m : Machine PlaywrightBrowser.t) s,
         PlaywrightBrowser._session (self m) = Some s ->
         exists rest,
           trace (snd (PlaywrightBrowser._ensureConnected env now m))
           = (trace m ++ rest)%list
           /\ sends rest = [])
  /\ (forall (m : Machine PlaywrightBrowser.t),
         PlaywrightBrowser._session (self m) = None ->
         exists rest,
           trace (snd (PlaywrightBrowser._ensureConnected env now m))
           = (trace m
                ++ Ev (Send (StartBrowserSessionCommand
                               (Browser.identifier
                                  (PlaywrightBrowser.base (self m)))
                               Browser.DEFAULT_SESSION_NAME
                               Browser.DEFAULT_TIMEOUT None))
                :: rest)%list
           /\ sends rest = [])
  /\ (forall (m m1 : Machine PlaywrightBrowser.t) params,
         PlaywrightBrowser._ensureConnected env now m = (Returns tt, m1) ->
         exists page,
           PlaywrightBrowser._playwrightPage (self m1) = Some page
           /\ trace (snd (PlaywrightBrowser.navigate env now params m))
              = (trace m1
                   ++ [Ev (PageGoto page
                             (PlaywrightBrowser.NavigateParams.url params)
                             (default
                                (PlaywrightBrowser.NavigateParams.waitUntil
                                   params)
                                "domcontentloaded")
                             (PlaywrightBrowser.NavigateParams.timeout
                                params))])%list)
  /\ (forall (m : Machine PlaywrightBrowser.t) s browser page,
         PlaywrightBrowser._session (self m) = Some s ->
         PlaywrightBrowser._playwrightBrowser (self m) = Some browser ->
         PlaywrightBrowser._playwrightPage (self m) = Some page ->
         PlaywrightBrowser._ensureConnected env now m = (Returns tt, m))
  /\ (forall (m : Machine PlaywrightBrowser.t) s,
         PlaywrightBrowser._session (self m) = Some s ->
         PlaywrightBrowser._playwrightBrowser (self m) = None
         \/ PlaywrightBrowser._playwrightPage (self m) = None ->
         PlaywrightBrowser._ensureConnected env now m
         = PlaywrightBrowser._connectPlaywright env m)
  /\ (forall (m : Machine PlaywrightBrowser.t) response,
         PlaywrightBrowser._session (self m) = None ->
         let start :=
           Send (StartBrowserSessionCommand
                   (Browser.identifier (PlaywrightBrowser.base (self m)))
                   Browser.DEFAULT_SESSION_NAME Browser.DEFAULT_TIMEOUT None) in
         let m0 :=
           with_self (after m start)
             (PlaywrightBrowser.set_base
                (Browser.set_session
                   (Some (Browser.started now None response))
                   (PlaywrightBrowser.base (self m)))
                (self m)) in
         env _ (trace m) start = Returns response ->
         PlaywrightBrowser._ensureConnected env now m
         = match PlaywrightBrowser._playwrightBrowser (self m),
                 PlaywrightBrowser._playwrightPage (self m) with
           | Some _, Some _ => (Returns tt, m0)
           | _, _ => PlaywrightBrowser._connectPlaywright env m0
           end)
  /\ (forall (m : Machine PlaywrightBrowser.t) e,
         PlaywrightBrowser._session (self m) = None ->
         let start :=
           Send (StartBrowserSessionCommand
                   (Browser.identifier (PlaywrightBrowser.base (self m)))
                   Browser.DEFAULT_SESSION_NAME Browser.DEFAULT_TIMEOUT None) in
         env _ (trace m) start = Throws e ->
         PlaywrightBrowser._ensureConnected env now m
         = (Throws e, after m start))
  /\ (forall (m m1 : Machine PlaywrightBrowser.t),
         PlaywrightBrowser._connectPlaywright env m = (Returns tt, m1) ->
         exists session id credentials signed browser,
           let c := PlaywrightBrowser.base (self m) in
           let calls := connecting c id credentials signed browser in
           PlaywrightBrowser._session (self m) = Some session
           /\ ToString (sessionId session) = Returns id
           /\ env _ (trace m ++ firstn 1 calls)%list
                (ResolveCredentials (Browser._credentialsProvider c))
              = Returns credentials
           /\ env _ (trace m ++ firstn 2 calls)%list
                (Sign (websocket_request c id) (Browser.region c) credentials)
              = Returns signed
           /\ env _ (trace m ++ firstn 3 calls)%list
                (ConnectOverCDP (websocket_url c id)
                   (Browser.string_headers (headers signed)))
              = Returns browser
           /\ PlaywrightBrowser._playwrightBrowser (self m1) = Some browser
           /\ trace m1 = (trace m ++ calls)%list)
  /\ (forall (m m1 : Machine PlaywrightBrowser.t) page params,
         PlaywrightBrowser._ensureConnected env now m = (Returns tt, m1) ->
         PlaywrightBrowser._playwrightPage (self m1) = Some page ->
         trace (snd (PlaywrightBrowser.getText env now params m))
         = (trace m1
              ++ match PlaywrightBrowser.GetTextParams.selector params with
                 | Some selector =>
                     if truthy (JStr selector) then
                       Ev (PageQuery page selector)
                       :: match env _ (trace m1) (PageQuery page selector) with
                          | Returns (Some element) =>
                              [Ev (ElementTextContent element)]
                          | _ => []
                          end
                     else [Ev (PageTextContent page "body")]
                 | None => [Ev (PageTextContent page "body")]
                 end)%list).
Proof.
  split; [|split; [|split; [|split; [|split; [|split; [|split; [|split;
    [|split; [|split; [|split]]]]]]]]]].
  - intros m op s Hs.
    rewrite (call_active env DEFAULT_TIMEOUT m op s Hs).
    reflexivity.
  - intros m op response Hs start Hstart.
    rewrite (call_idle env DEFAULT_TIMEOUT m op Hs).
    rewrite (interpreter_startSession_idle
               env DEFAULT_TIMEOUT m None Hs).
    cbv zeta. change (CodeInterpreter.start_command DEFAULT_TIMEOUT (self m) None)
      with start.
    rewrite Hstart.
    erewrite call_active by reflexivity.
    cbn [snd trace after with_self self]. rewrite <- app_assoc. reflexivity.
  - intros m op e Hs start Hstart.
    rewrite (call_idle env DEFAULT_TIMEOUT m op Hs).
    rewrite (interpreter_startSession_idle
               env DEFAULT_TIMEOUT m None Hs).
    cbv zeta. change (CodeInterpreter.start_command DEFAULT_TIMEOUT (self m) None)
      with start.
    rewrite Hstart. reflexivity.
  - intros m s. apply _ensureConnected_sends_active.
  - intros m. apply _ensureConnected_sends_idle.
  - intros m m1 params H.
    destruct (navigate_connected env now m m1 params H)
      as (page & Hp & Hnav).
    exists page. split; [exact Hp|]. rewrite Hnav. reflexivity.
  - intros m s browser page Hs Hb Hp.
    rewrite (_ensureConnected_active env now m s Hs), Hb, Hp. reflexivity.
  - intros m s Hs Hnone.
    rewrite (_ensureConnected_active env now m s Hs).
    destruct Hnone as [Hnone|Hnone]; rewrite Hnone;
      [|destruct (PlaywrightBrowser._playwrightBrowser (self m))];
      reflexivity.
  - intros m response Hs start m0 Hstart.
    rewrite (_ensureConnected_idle env now m Hs),
      (playwright_startSession_idle env now m None Hs).
    cbv zeta.
    change (Send (Browser.start_command (PlaywrightBrowser.base (self m)) None))
      with start.
    rewrite Hstart. reflexivity.
  - intros m e Hs start Hstart.
    rewrite (_ensureConnected_idle env now m Hs),
      (playwright_startSession_idle env now m None Hs).
    cbv zeta.
    change (Send (Browser.start_command (PlaywrightBrowser.base (self m)) None))
      with start.
    rewrite Hstart. reflexivity.
  - intros m m1 H. cbv zeta. cbn [firstn].
    exact (_connectPlaywright_calls env m m1 H).
  - intros m m1 page params H Hp.
    exact (getText_connected env now m m1 page params H Hp).
Qed.

(** [executeCode] on a fresh instance and on an active one in a
    reliable world, and [_ensureConnected] on a fresh Playwright
    client. *)
Lemma auto_provision_witness :
  trace (snd (CodeInterpreter.call reliable timeout print_one interpreter))
  = [Ev (Send (StartCodeInterpreterSessionCommand
                 "aws.codeinterpreter.v1" "default" 900));
     Ev (Send (CodeInterpreter.invoke_command (self interpreter) session_1
                 print_one))]
  /\ trace (snd (CodeInterpreter.call reliable timeout print_one
                   active_interpreter))
     = (trace active_interpreter
          ++ [Ev (Send (CodeInterpreter.invoke_command (self active_interpreter)
                          session_1 print_one))])%list
  /\ (exists rest,
         trace connected_playwright
         = Ev (Send (StartBrowserSessionCommand "aws.browser.v1" "default"
                       3600 None)) :: rest
         /\ sends rest = [])
  /\ PlaywrightBrowser._ensureConnected reliable clock connected_playwright
     = (Returns tt, connected_playwright)
  /\ (exists session id credentials signed browser,
         let c := PlaywrightBrowser.base (self started_playwright) in
         let calls := connecting c id credentials signed browser in
         PlaywrightBrowser._session (self started_playwright) = Some session
         /\ ToString (sessionId session) = Returns id
         /\ @reliable _ (trace started_playwright ++ firstn 1 calls)%list
              (ResolveCredentials (Browser._credentialsProvider c))
            = Returns credentials
         /\ @reliable _ (trace started_playwright ++ firstn 2 calls)%list
              (Sign (websocket_request c id) (Browser.region c) credentials)
            = Returns signed
         /\ @reliable _ (trace started_playwright ++ firstn 3 calls)%list
              (ConnectOverCDP (websocket_url c id)
                 (Browser.string_headers (headers signed)))
            = Returns browser
         /\ PlaywrightBrowser._playwrightBrowser (self connected_playwright)
            = Some browser
         /\ trace connected_playwright
            = (trace started_playwright ++ calls)%list)
  /\ trace (snd (PlaywrightBrowser.getText reliable clock heading
                   connected_playwright))
     = (trace connected_playwright
          ++ [Ev (PageQuery 1 "h1"); Ev (ElementTextContent 1)])%list.
Proof.
  destruct (auto_provision_calls reliable timeout clock)
    as (H1 & H2 & _ & _ & H5 & _ & H7 & _ & _ & _ & H11 & H12).
  split; [|split; [|split; [|split; [|split]]]].
  - apply (H2 interpreter print_one
              {| fields := [("sessionId", JStr "session-1");
                            ("createdAt", JNum 1700000000)];
                 stream := None |}); reflexivity.
  - apply (H1 active_interpreter print_one session_1). reflexivity.
  - apply (H5 playwright). reflexivity.
  - apply (H7 connected_playwright session_1
              {| browser_id := 1;
                 contexts := [{| context_id := 1; pages := [1] |}] |}
              1%nat); reflexivity.
  - apply (H11 started_playwright connected_playwright). reflexivity.
  - apply (H12 connected_playwright connected_playwright 1%nat heading);
      reflexivity.
Defined.

(** ** Playwright helpers *)

(** C7 does not hold as stated.  On an idle client whose session
    creation is rejected by the transport, [isVisible] rejects with the
    transport error: [_ensureConnected] is awaited before the [try]. *)
Lemma isVisible_rejects_when_connection_fails :
  fst (PlaywrightBrowser.isVisible first_send_fails clock missing_button
         playwright)
  = Throws network_down.
Proof.
  reflexivity.
Qed.

(** C7, as the code guarantees it.  Once [_ensureConnected] has
    returned, [isVisible] returns and never throws: it returns [false]
    when the lookup finds no element, when the lookup throws and when
    the visibility check throws, whatever is thrown, and otherwise the
    outcome of the visibility check. An error of [_ensureConnected]
    itself is propagated. *)
Theorem isVisible_downgrades_lookup_errors (env : Env) (now : JSValue)
  (m : Machine PlaywrightBrowser.t)
  (params : PlaywrightBrowser.IsVisibleParams.t) :
  (forall m1,
      PlaywrightBrowser._ensureConnected env now m = (Returns tt, m1) ->
      exists page,
        PlaywrightBrowser._playwrightPage (self m1) = Some page
        /\ let query :=
             PageQuery page (PlaywrightBrowser.IsVisibleParams.selector params) in
           (exists visible m2,
               PlaywrightBrowser.isVisible env now params m
               = (Returns visible, m2))
           /\ (env _ (trace m1) query = Returns None ->
               fst (PlaywrightBrowser.isVisible env now params m)
               = Returns false)
           /\ (forall e,
                  env _ (trace m1) query = Throws e ->
                  fst (PlaywrightBrowser.isVisible env now params m)
                  = Returns false)
           /\ (forall element e,
                  env _ (trace m1) query = Returns (Some element) ->
                  env _ (trace (after m1 query)) (ElementIsVisible element)
                  = Throws e ->
                  fst (PlaywrightBrowser.isVisible env now params m)
                  = Returns false)
           /\ (forall element visible,
                  env _ (trace m1) query = Returns (Some element) ->
                  env _ (trace (after m1 query)) (ElementIsVisible element)
                  = Returns visible ->
                  fst (PlaywrightBrowser.isVisible env now params m)
                  = Returns visible))
  /\ (forall e m1,
         PlaywrightBrowser._ensureConnected env now m = (Throws e, m1) ->
         PlaywrightBrowser.isVisible env now params m = (Throws e, m1)).
Proof.
  split.
  - intros m1 H.
    destruct (isVisible_connected env now m m1 params H)
      as (page & Hp & Hvis).
    exists page. split; [exact Hp|]. cbv zeta in *. rewrite Hvis.
    split; [|split; [|split; [|split]]].
    + destruct (env _ (trace m1) _) as [[element|]|e]; eauto.
      destruct (env _ _ (ElementIsVisible element)); eauto.
    + intros ->. reflexivity.
    + intros e ->. reflexivity.
    + intros element e -> ->. reflexivity.
    + intros element visible -> ->. reflexivity.
  - intros e m1. apply isVisible_disconnected.
Qed.

(** A lookup that throws on a fresh client, and a client that cannot
    reach the service. *)
Lemma isVisible_witness :
  fst (PlaywrightBrowser.isVisible lookup_fails clock missing_button playwright)
  = Returns false
  /\ PlaywrightBrowser.isVisible first_send_fails clock missing_button
       playwright
     = (Throws network_down,
        after playwright
          (Send (StartBrowserSessionCommand "aws.browser.v1" "default" 3600
                   None))).
Proof.
  split.
  - destruct (isVisible_downgrades_lookup_errors
                lookup_fails clock playwright missing_button) as [H _].
    destruct (H (snd (PlaywrightBrowser._ensureConnected lookup_fails clock
                        playwright)) eq_refl)
      as (page & Hp & _ & _ & H3 & _).
    injection Hp as <-.
    apply (H3 page_closed). reflexivity.
  - destruct (isVisible_downgrades_lookup_errors
                first_send_fails clock playwright missing_button) as [_ H].
    apply H. reflexivity.
Defined.

(** C8 does not hold as stated.  The wait for network idle fails because
    the page was closed, which is not a timeout; [back] and [forward] go
    on to the wait for the load event all the same, and then to the
    script. *)
Lemma history_fallback_advances_on_any_error :
  timeout_class page_closed = false
  /\ PlaywrightBrowser.back history_wait_crashes clock connected_playwright
     = (Returns tt,
        after (after (after connected_playwright
                        (PageGoBack 1 "networkidle" 30000))
                 (PageGoBack 1 "load" 30000))
          (PageEvaluate 1 "window.history.back()"))
  /\ PlaywrightBrowser.forward history_wait_crashes clock connected_playwright
     = (Returns tt,
        after (after (after connected_playwright
                        (PageGoForward 1 "networkidle" 30000))
                 (PageGoForward 1 "load" 30000))
          (PageEvaluate 1 "window.history.forward()")).
Proof.
  split; [|split]; reflexivity.
Qed.

(** C8, as the code guarantees it.  Once connected, [back] and [forward]
    try three strategies in this order: the history navigation awaited
    until network idle, the same awaited until the load event, and the
    evaluation of the history script. The first strategy that returns
    ends the method; the next one is tried whenever the current one
    throws, whatever it throws; an error of the script is propagated. *)
Theorem history_fallback_order (env : Env) (now : JSValue)
  (m m1 : Machine PlaywrightBrowser.t) :
  PlaywrightBrowser._ensureConnected env now m = (Returns tt, m1) ->
  exists page,
    PlaywrightBrowser._playwrightPage (self m1) = Some page
    /\ PlaywrightBrowser.back env now m
       = (let idle := PageGoBack page "networkidle" 30000 in
          let load := PageGoBack page "load" 30000 in
          let script := PageEvaluate page "window.history.back()" in
          match env _ (trace m1) idle with
          | Returns _ => (Returns tt, after m1 idle)
          | Throws _ =>
              match env _ (trace (after m1 idle)) load with
              | Returns _ => (Returns tt, after (after m1 idle) load)
              | Throws _ =>
                  match env _ (trace (after (after m1 idle) load)) script with
                  | Returns _ =>
                      (Returns tt, after (after (after m1 idle) load) script)
                  | Throws e =>
                      (Throws e, after (after (after m1 idle) load) script)
                  end
              end
          end)
    /\ PlaywrightBrowser.forward env now m
       = (let idle := PageGoForward page "networkidle" 30000 in
          let load := PageGoForward page "load" 30000 in
          let script := PageEvaluate page "window.history.forward()" in
          match env _ (trace m1) idle with
          | Returns _ => (Returns tt, after m1 idle)
          | Throws _ =>
              match env _ (trace (after m1 idle)) load with
              | Returns _ => (Returns tt, after (after m1 idle) load)
              | Throws _ =>
                  match env _ (trace (after (after m1 idle) load)) script with
                  | Returns _ =>
                      (Returns tt, after (after (after m1 idle) load) script)
                  | Throws e =>
                      (Throws e, after (after (after m1 idle) load) script)
                  end
              end
          end).
Proof.
  intros H.
  destruct (back_connected env now m m1 H)
    as (page & Hp & Hback).
  destruct (forward_connected env now m m1 H)
    as (page' & Hp' & Hforward).
  assert (page' = page) by congruence. subst page'.
  exists page. auto.
Qed.

(** Both waits time out on a fresh client: the three strategies run in
    order. *)
Lemma history_fallback_witness :
  exists page,
    PlaywrightBrowser._playwrightPage (self connected_playwright) = Some page
    /\ trace (snd (PlaywrightBrowser.back history_wait_times_out clock
                     playwright))
       = (trace connected_playwright
            ++ [Ev (PageGoBack page "networkidle" 30000);
                Ev (PageGoBack page "load" 30000);
                Ev (PageEvaluate page "window.history.back()")])%list.
Proof.
  destruct (history_fallback_order history_wait_times_out clock playwright
              connected_playwright eq_refl) as (page & Hp & Hback & _).
  exists page. split; [exact Hp|].
  rewrite Hback. injection Hp as <-. reflexivity.
Defined.

(** ** Session metadata *)

(** C9.  On an instance without a session, [getSession] and
    [updateBrowserStream] called without an explicit session id throw
    the error that asks for explicit ids or a started session, and leave
    the instance and the trace as they were: nothing is sent. *)
Theorem metadata_requires_session_id (env : Env) (m : Machine Browser.t) :
  Browser._session (self m) = None ->
  (forall params,
      field_of params Browser.GetSessionParams.sessionId = None ->
      Browser.getSession env params m = (Throws Browser.missing_ids, m))
  /\ (forall params,
         Browser.UpdateStreamParams.sessionId params = None ->
         Browser.updateBrowserStream env params m
         = (Throws Browser.missing_ids, m))
  /\ Browser.missing_ids
     = ErrorObject "Error"
         ("Browser ID and Session ID must be provided or available "
            ++ "from current session. "
            ++ "Start a session first or provide explicit IDs.").
Proof.
  intros H. split; [|split].
  - intros params. apply getSession_unresolved. exact H.
  - intros params. apply updateBrowserStream_unresolved. exact H.
  - reflexivity.
Qed.

(** A fresh browser client asked for its session and for a stream
    update. *)
Lemma metadata_requires_session_id_witness :
  Browser.getSession reliable None browser
  = (Throws Browser.missing_ids, browser)
  /\ Browser.updateBrowserStream reliable
       {| Browser.UpdateStreamParams.browserId := Some "aws.browser.v1";
          Browser.UpdateStreamParams.sessionId := None;
          Browser.UpdateStreamParams.streamStatus := "ENABLED" |}
       browser
     = (Throws Browser.missing_ids, browser).
Proof.
  destruct (metadata_requires_session_id reliable browser eq_refl)
    as (H1 & H2 & _).
  split.
  - apply H1. reflexivity.
  - apply H2. reflexivity.
Defined.

(** ** Atomicity of the session slot *)

(** C10.  In both families: when the remote call of [startSession] is
    rejected the method throws that error and leaves the instance as it
    was, so the slot stays empty and a later [startSession] sends its
    command again and stores the session the service returns; when the
    remote call of [stopSession] is rejected the method throws that
    error and the stored session stays in the slot.  More generally, a
    [startSession] or a [stopSession] that throws leaves the slot as it
    was, and the slot differs after the method only if its remote call
    was sent and resolved. *)
Theorem session_slot_atomic (env : Env) (DEFAULT_TIMEOUT : Z)
  (now : JSValue) :
  ((forall (m : Machine CodeInterpreter.t) params e,
       CodeInterpreter._session (self m) = None ->
       let start :=
         Send (CodeInterpreter.start_command DEFAULT_TIMEOUT (self m) params) in
       env _ (trace m) start = Throws e ->
       CodeInterpreter.startSession env DEFAULT_TIMEOUT params m
       = (Throws e, after m start)
       /\ forall params' response,
           env _ (trace (after m start))
             (Send (CodeInterpreter.start_command DEFAULT_TIMEOUT (self m)
                      params'))
           = Returns response ->
           fst (CodeInterpreter.startSession env DEFAULT_TIMEOUT params'
                  (after m start))
           = Returns (CodeInterpreter.started params' response))
   /\ (forall (m : Machine CodeInterpreter.t) s e,
          CodeInterpreter._session (self m) = Some s ->
          let stop := Send (CodeInterpreter.stop_command (self m) s) in
          env _ (trace m) stop = Throws e ->
          CodeInterpreter.stopSession env m = (Throws e, after m stop))
   /\ (forall (m m' : Machine CodeInterpreter.t) params e,
          CodeInterpreter.startSession env DEFAULT_TIMEOUT params m
          = (Throws e, m') ->
          self m' = self m)
   /\ (forall (m m' : Machine CodeInterpreter.t) e,
          CodeInterpreter.stopSession env m = (Throws e, m') ->
          self m' = self m)
   /\ (forall (m : Machine CodeInterpreter.t) params,
          CodeInterpreter._session
            (self (snd (CodeInterpreter.startSession env DEFAULT_TIMEOUT
                          params m)))
          <> CodeInterpreter._session (self m) ->
          exists response,
            env _ (trace m)
              (Send (CodeInterpreter.start_command DEFAULT_TIMEOUT (self m)
                       params))
            = Returns response)
   /\ (forall (m : Machine CodeInterpreter.t),
          CodeInterpreter._session
            (self (snd (CodeInterpreter.stopSession env m)))
          <> CodeInterpreter._session (self m) ->
          exists s response,
            CodeInterpreter._session (self m) = Some s
            /\ env _ (trace m)
                 (Send (CodeInterpreter.stop_command (self m) s))
               = Returns response))
  /\ ((forall (m : Machine Browser.t) params e,
          Browser._session (self m) = None ->
          let start := Send (Browser.start_command (self m) params) in
          env _ (trace m) start = Throws e ->
          Browser.startSession env now params m = (Throws e, after m start)
          /\ forall params' response,
              env _ (trace (after m start))
                (Send (Browser.start_command (self m) params'))
              = Returns response ->
              fst (Browser.startSession env now params' (after m start))
              = Returns (Browser.started now params' response))
      /\ (forall (m : Machine Browser.t) s e,
             Browser._session (self m) = Some s ->
             let stop := Send (Browser.stop_command (self m) s) in
             env _ (trace m) stop = Throws e ->
             Browser.stopSession env m = (Throws e, after m stop))
      /\ (forall (m m' : Machine Browser.t) params e,
             Browser.startSession env now params m = (Throws e, m') ->
             self m' = self m)
      /\ (forall (m m' : Machine Browser.t) e,
             Browser.stopSession env m = (Throws e, m') ->
             self m' = self m)
      /\ (forall (m : Machine Browser.t) params,
             Browser._session
               (self (snd (Browser.startSession env now params m)))
             <> Browser._session (self m) ->
             exists response,
               env _ (trace m) (Send (Browser.start_command (self m) params))
               = Returns response)
      /\ (forall (m : Machine Browser.t),
             Browser._session (self (snd (Browser.stopSession env m)))
             <> Browser._session (self m) ->
             exists s response,
               Browser._session (self m) = Some s
               /\ env _ (trace m) (Send (Browser.stop_command (self m) s))
                  = Returns response))
  /\ ((forall (m m' : Machine PlaywrightBrowser.t) params e,
          PlaywrightBrowser.startSession env now params m = (Throws e, m') ->
          self m' = self m)
      /\ (forall (m m' : Machine PlaywrightBrowser.t) e,
             PlaywrightBrowser.stopSession env m = (Throws e, m') ->
             PlaywrightBrowser._session (self m')
             = PlaywrightBrowser._session (self m))).
Proof.
  split; [|split].
  - split; [|split; [|split; [|split; [|split]]]].
    + intros m params e Hs start Hstart.
      rewrite (interpreter_startSession_idle
                 env DEFAULT_TIMEOUT m params Hs).
      cbv zeta. fold start. rewrite Hstart. split; [reflexivity|].
      intros params' response Hnext.
      rewrite (interpreter_startSession_idle
                 env DEFAULT_TIMEOUT (after m start) params' Hs).
      cbv zeta. cbn [self after] in *. rewrite Hnext. reflexivity.
    + intros m s e Hs stop Hstop.
      rewrite (interpreter_stopSession_active env m s Hs).
      cbv zeta. fold stop. rewrite Hstop. reflexivity.
    + intros m m' params e H.
      destruct (CodeInterpreter._session (self m)) as [s|] eqn:Hs.
      * rewrite (interpreter_startSession_active
                   env DEFAULT_TIMEOUT m params s Hs) in H.
        inversion H; subst; reflexivity.
      * rewrite (interpreter_startSession_idle
                   env DEFAULT_TIMEOUT m params Hs) in H.
        cbv zeta in H. destruct (env _ (trace m) _); [discriminate|].
        inversion H; subst; reflexivity.
    + intros m m' e H.
      destruct (CodeInterpreter._session (self m)) as [s|] eqn:Hs.
      * rewrite (interpreter_stopSession_active env m s Hs) in H.
        cbv zeta in H. destruct (env _ (trace m) _); [discriminate|].
        inversion H; subst; reflexivity.
      * rewrite (interpreter_stopSession_idle env m Hs) in H.
        discriminate.
    + intros m params H.
      destruct (CodeInterpreter._session (self m)) as [s|] eqn:Hs.
      * rewrite (interpreter_startSession_active
                   env DEFAULT_TIMEOUT m params s Hs) in H.
        cbn [snd] in H. congruence.
      * rewrite (interpreter_startSession_idle
                   env DEFAULT_TIMEOUT m params Hs) in H.
        cbv zeta in H. destruct (env _ (trace m) _) as [response|e]; eauto.
        cbn [snd self after] in H. congruence.
    + intros m H.
      destruct (CodeInterpreter._session (self m)) as [s|] eqn:Hs.
      * rewrite (interpreter_stopSession_active env m s Hs) in H.
        cbv zeta in H.
        destruct (env _ (trace m)
                    (Send (CodeInterpreter.stop_command (self m) s)))
          as [response|e] eqn:He; [exists s, response; auto|].
        cbn [snd self after] in H. congruence.
      * rewrite (interpreter_stopSession_idle env m Hs) in H.
        cbn [snd] in H. congruence.
  - split; [|split; [|split; [|split; [|split]]]].
    + intros m params e Hs start Hstart.
      rewrite (browser_startSession_idle env now m params Hs).
      cbv zeta. fold start. rewrite Hstart. split; [reflexivity|].
      intros params' response Hnext.
      rewrite (browser_startSession_idle env now (after m start) params' Hs).
      cbv zeta. cbn [self after] in *. rewrite Hnext. reflexivity.
    + intros m s e Hs stop Hstop.
      rewrite (browser_stopSession_active env m s Hs).
      cbv zeta. fold stop. rewrite Hstop. reflexivity.
    + intros m m' params e H.
      destruct (Browser._session (self m)) as [s|] eqn:Hs.
      * rewrite (browser_startSession_active env now m params s Hs) in H.
        inversion H; subst; reflexivity.
      * rewrite (browser_startSession_idle env now m params Hs) in H.
        cbv zeta in H. destruct (env _ (trace m) _); [discriminate|].
        inversion H; subst; reflexivity.
    + intros m m' e H.
      destruct (Browser._session (self m)) as [s|] eqn:Hs.
      * rewrite (browser_stopSession_active env m s Hs) in H.
        cbv zeta in H. destruct (env _ (trace m) _); [discriminate|].
        inversion H; subst; reflexivity.
      * rewrite (browser_stopSession_idle env m Hs) in H. discriminate.
    + intros m params H.
      destruct (Browser._session (self m)) as [s|] eqn:Hs.
      * rewrite (browser_startSession_active env now m params s Hs) in H.
        cbn [snd] in H. congruence.
      * rewrite (browser_startSession_idle env now m params Hs) in H.
        cbv zeta in H. destruct (env _ (trace m) _) as [response|e]; eauto.
        cbn [snd self after] in H. congruence.
    + intros m H.
      destruct (Browser._session (self m)) as [s|] eqn:Hs.
      * rewrite (browser_stopSession_active env m s Hs) in H.
        cbv zeta in H.
        destruct (env _ (trace m) (Send (Browser.stop_command (self m) s)))
          as [response|e] eqn:He; [exists s, response; auto|].
        cbn [snd self after] in H. congruence.
      * rewrite (browser_stopSession_idle env m Hs) in H.
        cbn [snd] in H. congruence.
  - split.
    + intros m m' params e H.
      destruct (PlaywrightBrowser._session (self m)) as [s|] eqn:Hs.
      * rewrite (playwright_startSession_active env now m params s Hs) in H.
        inversion H; subst; reflexivity.
      * rewrite (playwright_startSession_idle env now m params Hs) in H.
        cbv zeta in H. destruct (env _ (trace m) _); [discriminate|].
        inversion H; subst; reflexivity.
    + intros m m' e. apply playwright_stopSession_throws.
Qed.

(** A start rejected by the transport and then retried, and a stop
    rejected by the transport. *)
Lemma session_slot_atomic_witness :
  CodeInterpreter.startSession first_send_fails timeout None interpreter
  = (Throws network_down,
     after interpreter
       (Send (CodeInterpreter.start_command timeout (self interpreter) None)))
  /\ Browser.stopSession stop_fails active_browser
     = (Throws network_down,
        after active_browser
          (Send (Browser.stop_command (self active_browser) session_1))).
Proof.
  destruct (session_slot_atomic first_send_fails timeout clock)
    as ((H1 & _) & _).
  destruct (session_slot_atomic stop_fails timeout clock)
    as (_ & (_ & H2 & _) & _).
  split.
  - apply (H1 interpreter None network_down); reflexivity.
  - apply (H2 active_browser session_1 network_down); reflexivity.
Defined.

End Claims.

(* ================================================================== *)
(** * Further properties of the clients *)
(* ================================================================== *)

Module Extras.

Import Scenarios CodeInterpreterFacts BrowserFacts PlaywrightFacts.

(** ** The content array *)

Lemma extract_text_items (texts : list string) :
  extract_items (map text_item texts) = Returns (map JStr texts).
Proof.
  induction texts as [|t rest IH]; [reflexivity|].
  cbn [map extract_items]. rewrite IH. reflexivity.
Qed.

Lemma join_text_elements (texts : list string) :
  join_elements (map JStr texts) = Returns texts.
Proof.
  induction texts as [|t rest IH]; [reflexivity|].
  cbn [map join_elements nullish ToString bind]. rewrite IH. reflexivity.
Qed.

(** X1.  The text items of one content array come out in their order,
    joined by line feeds, and an empty array gives the empty string;
    this holds for the normaliser on a response with that array. *)
Theorem text_items_joined_by_newlines (texts : list string) :
  _extractFromContentArray (map text_item texts)
  = Returns (join_strings LF texts)
  /\ _parseInvokeResponse (single (JArr (map text_item texts)))
     = Returns (JStr (join_strings LF texts)).
Proof.
  assert (H : _extractFromContentArray (map text_item texts)
              = Returns (join_strings LF texts)).
  { unfold _extractFromContentArray, Array_join.
    rewrite extract_text_items. cbn [bind].
    rewrite join_text_elements. reflexivity. }
  split; [exact H|].
  unfold _parseInvokeResponse, single.
  cbn [stream fields lookup String.eqb Ascii.eqb Bool.eqb get_opt truthy
       content_to_string].
  rewrite H. reflexivity.
Qed.

(** X2.  A resource link is printed as the name, the description and the
    MIME type that are present and not empty, joined by [ - ], then a
    space and the URI in parentheses; a link without URI prints
    [undefined] there, and a link without metadata starts with the
    space. *)
Theorem resource_link_summary (name description mimeType uri : option string) :
  _extractFromContentArray
    [resource_link_item name description mimeType uri]
  = Returns (join_strings " - "
               (shown name ++ shown description ++ shown mimeType)%list
               ++ " (" ++ default uri "undefined" ++ ")").
Proof.
  destruct name as [[|? ?]|], description as [[|? ?]|],
    mimeType as [[|? ?]|], uri as [u|];
    reflexivity.
Qed.

(** X3.  A resource item is printed as the text of its resource when
    that text is a string that is not empty, and otherwise, an empty
    text included, as the JSON dump of the resource object. *)
Theorem resource_item_text_or_dump (resource : list (string * JSValue)) :
  (forall t,
      lookup "text" resource = JStr t -> t <> EmptyString ->
      _extractFromContentArray [resource_item resource] = Returns t)
  /\ (truthy (lookup "text" resource) = false ->
      exists dump,
        JSON_stringify (JObj resource) = Some dump
        /\ _extractFromContentArray [resource_item resource] = Returns dump).
Proof.
  split.
  - intros t Ht Hne.
    unfold _extractFromContentArray, resource_item.
    cbn [extract_items extract_item get lookup String.eqb Ascii.eqb Bool.eqb
         strict_eq_str bind truthy].
    rewrite Ht. cbn [truthy].
    destruct (String.eqb_spec t EmptyString) as [->|_]; [contradiction|].
    reflexivity.
  - intros Hf.
    unfold _extractFromContentArray, resource_item.
    cbn [extract_items extract_item get lookup String.eqb Ascii.eqb Bool.eqb
         strict_eq_str bind truthy].
    rewrite Hf.
    eexists. split; [reflexivity|]. reflexivity.
Qed.

(** A resource with a text, and one with an empty text. *)
Lemma resource_item_witness :
  _extractFromContentArray
    [resource_item [("uri", JStr "file:///a.txt"); ("text", JStr "body")]]
  = Returns "body"
  /\ exists dump,
       JSON_stringify
         (JObj [("uri", JStr "file:///a.txt"); ("text", JStr EmptyString)])
       = Some dump
       /\ _extractFromContentArray
            [resource_item [("uri", JStr "file:///a.txt");
                            ("text", JStr EmptyString)]]
          = Returns dump.
Proof.
  split.
  - apply (proj1 (resource_item_text_or_dump
                    [("uri", JStr "file:///a.txt"); ("text", JStr "body")])
             "body"); [reflexivity|discriminate].
  - apply (proj2 (resource_item_text_or_dump
                    [("uri", JStr "file:///a.txt");
                     ("text", JStr EmptyString)])).
    reflexivity.
Defined.

(** X4.  An item that is not [null] or [undefined] and is of none of the
    three kinds, or is a [resource] item whose resource is missing or
    falsy, is printed as the JSON dump of the whole item. *)
Theorem other_items_dumped (item : JSValue) :
  nullish item = false ->
  strict_eq_str (get_opt item "type") "text" = false ->
  strict_eq_str (get_opt item "type") "resource_link" = false ->
  strict_eq_str (get_opt item "type") "resource" = false
  \/ truthy (get_opt item "resource") = false ->
  exists dump,
    JSON_stringify item = Some dump
    /\ _extractFromContentArray [item] = Returns dump.
Proof.
  intros Hn Ht Hl Hr.
  assert (Hd : exists dump, JSON_stringify item = Some dump).
  { destruct item; try discriminate; cbn; eauto. }
  destruct Hd as [dump Hd]. exists dump. split; [exact Hd|].
  unfold _extractFromContentArray. cbn [extract_items]. unfold extract_item.
  rewrite !(NormalizerFacts.get_not_nullish _ _ Hn). cbn [bind].
  rewrite Ht.
  assert (Hres : truthy
                   match (if strict_eq_str (get_opt item "type") "resource"
                          then Returns (get_opt item "resource")
                          else Returns (JBool false)) with
                   | Returns v => v
                   | Throws _ => JUndefined
                   end = false).
  { destruct Hr as [Hr|Hr]; [rewrite Hr; reflexivity|].
    destruct (strict_eq_str (get_opt item "type") "resource");
      [exact Hr|reflexivity]. }
  destruct (strict_eq_str (get_opt item "type") "resource");
    cbn [bind] in *; rewrite Hres, Hl; cbn [bind];
    unfold stringify; rewrite Hd; reflexivity.
Qed.

(** An image item, a bare number and a resource item without
    resource. *)
Lemma other_items_witness :
  (exists dump,
      JSON_stringify (JObj [("type", JStr "image"); ("data", JStr "AAAA")])
      = Some dump
      /\ _extractFromContentArray
           [JObj [("type", JStr "image"); ("data", JStr "AAAA")]]
         = Returns dump)
  /\ (exists dump,
         JSON_stringify (JObj [("type", JStr "resource")]) = Some dump
         /\ _extractFromContentArray [JObj [("type", JStr "resource")]]
            = Returns dump).
Proof.
  split.
  - apply other_items_dumped; try reflexivity. left. reflexivity.
  - apply other_items_dumped; try reflexivity. right. reflexivity.
Defined.

(** ** One envelope and a stream of one *)

(** X5.  A response delivered as one envelope is normalised exactly as
    a stream whose only event carries the same result: the two branches
    of the normaliser agree, on values and on exceptions. *)
Theorem single_envelope_agrees_with_stream (result : JSValue) :
  _parseInvokeResponse {| fields := [("result", result)]; stream := None |}
  = _parseInvokeResponse (streamed [envelope result]).
Proof.
  unfold _parseInvokeResponse, streamed, envelope.
  cbn [stream fields events failure stream_loop stream_step get lookup
       String.eqb Ascii.eqb Bool.eqb bind truthy].
  destruct (truthy (get_opt result "content")).
  - destruct (content_to_string (get_opt result "content")); reflexivity.
  - reflexivity.
Qed.

(** ** Streams *)

Lemma neutral_step (acc event : JSValue) :
  neutral event = true -> stream_step acc event = Returns acc.
Proof.
  unfold neutral. intros H.
  apply andb_prop in H as [H He]. apply andb_prop in H as [Hn Hc].
  apply negb_true_iff in Hn, Hc, He.
  unfold stream_step.
  rewrite !(NormalizerFacts.get_not_nullish _ _ Hn). cbn [bind].
  rewrite Hc. cbn [bind]. rewrite He. reflexivity.
Qed.

(** X6.  An event that carries neither content nor error (a progress or
    keep-alive event, an empty content, an empty result) has no effect
    on what the normaliser returns, wherever it stands in the stream. *)
Theorem neutral_events_are_skipped (before after : list JSValue)
  (event : JSValue) :
  neutral event = true ->
  _parseInvokeResponse (streamed (before ++ event :: after))
  = _parseInvokeResponse (streamed (before ++ after)).
Proof.
  intros H. unfold _parseInvokeResponse, streamed.
  cbn [stream events failure].
  rewrite !NormalizerFacts.stream_loop_app.
  destruct (stream_loop (JStr EmptyString) before) as [acc|e]; cbn [bind];
    [|reflexivity].
  cbn [stream_loop]. rewrite (neutral_step _ _ H). reflexivity.
Qed.

(** A progress event between two outputs. *)
Lemma neutral_events_witness :
  neutral (JObj [("progress", JNum 50)]) = true
  /\ _parseInvokeResponse
       (streamed ([text_envelope true "a"]
                  ++ JObj [("progress", JNum 50)]
                       :: [text_envelope false "b"]))
     = _parseInvokeResponse
         (streamed ([text_envelope true "a"] ++ [text_envelope false "b"])).
Proof.
  split; [reflexivity|].
  apply (neutral_events_are_skipped [text_envelope true "a"]
           [text_envelope false "b"] (JObj [("progress", JNum 50)])).
  reflexivity.
Defined.

(** ** Sessions and operations of the code interpreter *)

Section Interpreter.

Import CodeInterpreter.

Variable env : Env.
Variable DEFAULT_TIMEOUT : Z.

(** X7.  A stream that breaks off after its events makes the operation
    resolve to the error string of the failure: the output gathered
    from the events that did arrive is dropped. *)
Theorem broken_stream_reported_as_error (m : Machine t) (s : SessionInfo)
  (op : Operation) (fs : list (string * JSValue)) (evs : list JSValue)
  (e : Thrown) (acc : JSValue) :
  _session (self m) = Some s ->
  env _ (trace m) (Send (invoke_command (self m) s op))
  = Returns {| fields := fs;
               stream := Some {| events := evs; failure := Some e |} |} ->
  stream_loop (JStr EmptyString) evs = Returns acc ->
  fst (call env DEFAULT_TIMEOUT op m)
  = Returns (error_string e (operation_fallback op)).
Proof.
  intros Hs Hsend Hloop.
  rewrite (call_active env DEFAULT_TIMEOUT m op s Hs). cbn [fst].
  rewrite Hsend. unfold settled, _parseInvokeResponse.
  cbn [stream events failure]. rewrite Hloop. reflexivity.
Qed.

(** X8.  A session that is started and then stopped leaves the instance
    as it was: the slot is empty again and no other field has changed.
    Two commands were sent, and the stop names the session id that the
    service returned for the start, whatever value that is. *)
Theorem interpreter_start_stop_round_trip (m : Machine t)
  (params : option StartSessionParams.t) (response ack : SdkOutput) :
  let start := Send (start_command DEFAULT_TIMEOUT (self m) params) in
  let stop :=
    Send (StopCodeInterpreterSessionCommand (identifier (self m))
            (lookup "sessionId" (fields response))) in
  _session (self m) = None ->
  env _ (trace m) start = Returns response ->
  env _ (trace m ++ [Ev start])%list stop = Returns ack ->
  await (startSession env DEFAULT_TIMEOUT params) (fun _ => stopSession env) m
  = (Returns tt,
     {| self := self m; trace := (trace m ++ [Ev start; Ev stop])%list |}).
Proof.
  intros start stop Hidle Hstart Hstop.
  unfold await at 1.
  rewrite (interpreter_startSession_idle env DEFAULT_TIMEOUT m params Hidle).
  cbv zeta. fold start. rewrite Hstart.
  rewrite (interpreter_stopSession_active env _
             (started params response)) by reflexivity.
  cbv zeta. unfold with_self, after, stop_command, set_session.
  cbn [self trace identifier region _session sessionId started].
  fold stop. rewrite Hstop.
  destruct m as [[r i ses] tr]. cbn in Hidle |- *. subst ses.
  rewrite <- app_assoc. reflexivity.
Qed.

Lemma call_all_from_active (ops : list Operation) (m : Machine t)
  (s : SessionInfo) :
  _session (self m) = Some s ->
  exists results,
    call_all env DEFAULT_TIMEOUT ops m
    = (Returns results,
       {| self := self m;
          trace := (trace m
                      ++ map (fun op =>
                                Ev (Send (invoke_command (self m) s op))) ops)%list
       |})
    /\ length results = length ops.
Proof.
  revert m. induction ops as [|op ops IH]; intros m Hs.
  - exists []. cbn. rewrite app_nil_r. destruct m; auto.
  - cbn [call_all]. unfold await at 1.
    rewrite (call_active env DEFAULT_TIMEOUT m op s Hs). cbv zeta.
    destruct (IH (after m (Send (invoke_command (self m) s op))) Hs)
      as (results & Hrun & Hlen).
    unfold await at 1. rewrite Hrun. unfold resolve.
    eexists. split.
    + cbn [after self trace map]. rewrite <- app_assoc. reflexivity.
    + cbn [length]. now rewrite Hlen.
Qed.

(** X9.  Any sequence of tier-1 operations on an instance with an
    active session resolves, one result for each operation; it sends
    one invocation for each operation, in order, all of them for the
    session of the slot, and nothing else; and the instance is left as
    it was, so that no failure of an operation ends the session. *)
Theorem operations_share_the_session (ops : list Operation) (m : Machine t)
  (s : SessionInfo) :
  _session (self m) = Some s ->
  exists results,
    call_all env DEFAULT_TIMEOUT ops m
    = (Returns results,
       {| self := self m;
          trace := (trace m
                      ++ map (fun op =>
                                Ev (Send (invoke_command (self m) s op))) ops)%list
       |})
    /\ length results = length ops.
Proof.
  revert m. induction ops as [|op ops IH]; intros m Hs.
  - exists []. cbn. rewrite app_nil_r. destruct m; auto.
  - cbn [call_all]. unfold await at 1.
    rewrite (call_active env DEFAULT_TIMEOUT m op s Hs). cbv zeta.
    destruct (IH (after m (Send (invoke_command (self m) s op))) Hs)
      as (results & Hrun & Hlen).
    unfold await at 1. rewrite Hrun. unfold resolve.
    exists (settled op (env _ (trace m) (Send (invoke_command (self m) s op)))
              :: results).
    split; [|cbn [length]; now rewrite Hlen].
    cbn [after self trace map]. rewrite <- app_assoc. reflexivity.
Qed.

(** X10.  In a sequence of tier-1 operations on an instance without
    session, only the first operation creates a session (with the
    default parameters), and every operation of the sequence, the first
    one included, is invoked in that session, which is still active at
    the end. *)
Theorem only_first_operation_provisions (op : Operation)
  (ops : list Operation) (m : Machine t) (response : SdkOutput) :
  let start := Send (start_command DEFAULT_TIMEOUT (self m) None) in
  let session := started None response in
  _session (self m) = None ->
  env _ (trace m) start = Returns response ->
  exists results,
    call_all env DEFAULT_TIMEOUT (op :: ops) m
    = (Returns results,
       {| self := set_session (Some session) (self m);
          trace := (trace m
                      ++ Ev start
                      :: map (fun op =>
                                Ev (Send (invoke_command (self m) session op)))
                           (op :: ops))%list |})
    /\ length results = S (length ops).
Proof.
  intros start session Hidle Hstart.
  set (m1 := with_self (after m start) (set_session (Some session) (self m))).
  assert (Hs : _session (self m1) = Some session) by reflexivity.
  destruct (call_all_from_active ops
              (after m1 (Send (invoke_command (self m1) session op)))
              session Hs)
    as (results & Hrun & Hlen).
  exists (settled op (env _ (trace m1)
                        (Send (invoke_command (self m1) session op)))
            :: results).
  split; [|cbn [length]; now rewrite Hlen].
  cbn [call_all]. unfold await at 1.
  rewrite (call_idle env DEFAULT_TIMEOUT m op Hidle).
  rewrite (interpreter_startSession_idle env DEFAULT_TIMEOUT m None Hidle).
  cbv zeta. fold start. rewrite Hstart. fold session. fold m1.
  rewrite (call_active env DEFAULT_TIMEOUT m1 op session Hs). cbv zeta.
  unfold await at 1. rewrite Hrun. unfold resolve.
  f_equal. f_equal.
  cbn [after with_self self trace map m1].
  unfold invoke_command, set_session. cbn [identifier].
  rewrite <- !app_assoc. reflexivity.
Qed.

End Interpreter.

(** A stream that yields one line of output and then loses the
    connection. *)
Lemma broken_stream_witness :
  fst (CodeInterpreter.call
         (answering
            {| fields := [];
               stream := Some {| events := [text_envelope true "partial"];
                                 failure := Some network_down |} |})
         timeout print_one active_interpreter)
  = Returns (JStr "Error: connect ECONNREFUSED").
Proof.
  apply (broken_stream_reported_as_error
           (answering
              {| fields := [];
                 stream := Some {| events := [text_envelope true "partial"];
                                   failure := Some network_down |} |})
           timeout active_interpreter session_1 print_one []
           [text_envelope true "partial"] network_down (JStr "partial"));
    reflexivity.
Defined.

(** A fresh interpreter in the reliable world. *)
Lemma interpreter_round_trip_witness :
  await (CodeInterpreter.startSession reliable timeout None)
    (fun _ => CodeInterpreter.stopSession reliable) interpreter
  = (Returns tt,
     {| self := self interpreter;
        trace :=
          [Ev (Send (StartCodeInterpreterSessionCommand
                       "aws.codeinterpreter.v1" "default" 900));
           Ev (Send (StopCodeInterpreterSessionCommand
                       "aws.codeinterpreter.v1" (JStr "session-1")))] |}).
Proof.
  apply (interpreter_start_stop_round_trip reliable timeout interpreter None
           {| fields := [("sessionId", JStr "session-1");
                         ("createdAt", JNum 1700000000)];
              stream := None |}
           {| fields := []; stream := None |});
    reflexivity.
Defined.

(** Two operations on the active interpreter. *)
Lemma operations_share_witness :
  exists results,
    call_all reliable timeout [print_one; CodeInterpreter.ListFiles None]
      active_interpreter
    = (Returns results,
       {| self := self active_interpreter;
          trace :=
            (trace active_interpreter
               ++ map (fun op =>
                         Ev (Send (CodeInterpreter.invoke_command
                                     (self active_interpreter) session_1 op)))
                    [print_one; CodeInterpreter.ListFiles None])%list |})
    /\ length results = 2%nat.
Proof.
  apply (operations_share_the_session reliable timeout
           [print_one; CodeInterpreter.ListFiles None]
           active_interpreter session_1).
  reflexivity.
Defined.

(** The same two operations on a fresh interpreter. *)
Lemma only_first_provisions_witness :
  exists results,
    call_all reliable timeout [print_one; CodeInterpreter.ListFiles None]
      interpreter
    = (Returns results,
       {| self := CodeInterpreter.set_session (Some session_1)
                    (self interpreter);
          trace :=
            Ev (Send (StartCodeInterpreterSessionCommand
                        "aws.codeinterpreter.v1" "default" 900))
            :: map (fun op =>
                      Ev (Send (CodeInterpreter.invoke_command
                                  (self interpreter) session_1 op)))
                 [print_one; CodeInterpreter.ListFiles None] |})
    /\ length results = 2%nat.
Proof.
  apply (only_first_operation_provisions reliable timeout print_one
           [CodeInterpreter.ListFiles None] interpreter
           {| fields := [("sessionId", JStr "session-1");
                         ("createdAt", JNum 1700000000)];
              stream := None |});
    reflexivity.
Defined.

(** ** Sessions and queries of the browser client *)

Lemma string_headers_In (entries : list (string * JSValue))
  (key value : string) :
  In (key, value) (Browser.string_headers entries)
  <-> In (key, JStr value) entries.
Proof.
  induction entries as [|[k v] rest IH]; [reflexivity|].
  destruct v; cbn [Browser.string_headers In]; rewrite ?IH;
    split; intros H;
    try (destruct H as [H|H]; [inversion H; subst; auto|auto]);
    try (right; exact H); try exact H.
Qed.

Section Browsing.

Import Browser.

Variable env : Env.
Variable now : JSValue.

(** X11.  The session a browser client stores always has a creation
    time: the one of the response or, when the response has none, the
    time of the call; and the record returned is the record stored. *)
Theorem browser_session_has_creation_time (m m' : Machine t)
  (params : option StartSessionParams.t) (info : SessionInfo) :
  nullish now = false ->
  startSession env now params m = (Returns info, m') ->
  exists response,
    env _ (trace m) (Send (start_command (self m) params)) = Returns response
    /\ createdAt info = coalesce (lookup "createdAt" (fields response)) now
    /\ (nullish (lookup "createdAt" (fields response)) = false ->
        createdAt info = lookup "createdAt" (fields response))
    /\ (nullish (lookup "createdAt" (fields response)) = true ->
        createdAt info = now)
    /\ nullish (createdAt info) = false
    /\ _session (self m') = Some info.
Proof.
  intros Hnow H.
  destruct (_session (self m)) as [s|] eqn:Hs.
  - rewrite (browser_startSession_active env now m params s Hs) in H.
    discriminate.
  - rewrite (browser_startSession_idle env now m params Hs) in H.
    cbv zeta in H.
    destruct (env _ (trace m) (Send (start_command (self m) params)))
      as [response|e] eqn:Hsend; [|discriminate].
    inversion H; subst. exists response.
    split; [reflexivity|]. split; [reflexivity|].
    cbn [started createdAt]. unfold coalesce.
    destruct (nullish (lookup "createdAt" (fields response))) eqn:Hc.
    + split; [discriminate|]. split; [reflexivity|].
      split; [exact Hnow|reflexivity].
    + split; [reflexivity|]. split; [discriminate|].
      split; [exact Hc|reflexivity].
Qed.

(** X12.  With a browser id and a session id at hand, [getSession]
    sends one query and nothing else, for the explicit ids where they
    are given (whatever session is active) and for the ids of the
    instance otherwise; it assigns no field of the instance, and an
    error of the query is thrown on as it is. *)
Theorem getSession_queries_once (m : Machine t)
  (params : option GetSessionParams.t) :
  let browserId :=
    default (field_of params GetSessionParams.browserId)
            (identifier (self m)) in
  let sessionId :=
    target_session (field_of params GetSessionParams.sessionId)
                   (_session (self m)) in
  let query := Send (GetBrowserSessionCommand browserId sessionId) in
  truthy (JStr browserId) = true ->
  truthy sessionId = true ->
  snd (getSession env params m) = after m query
  /\ forall e,
       env _ (trace m) query = Throws e ->
       fst (getSession env params m) = Throws e.
Proof.
  intros browserId sessionId query Hb Hs.
  unfold getSession. run. fold browserId sessionId.
  rewrite Hb, Hs. cbn [negb orb]. fold query.
  destruct (env _ (trace m) query) as [response|e] eqn:He.
  - split; [|discriminate].
    cbv zeta. destruct (truthy (lookup "streams" (fields response)));
      reflexivity.
  - split; [reflexivity|]. intros e' He'. inversion He'; subst. reflexivity.
Qed.

(** X13.  An explicit id that is the empty string is not replaced by
    the id of the instance: [getSession] and [updateBrowserStream]
    refuse it before they send anything, also while a session is
    active. *)
Theorem empty_explicit_id_is_refused (m : Machine t)
  (browserId : option string) (status : string) :
  getSession env
    (Some {| GetSessionParams.browserId := browserId;
             GetSessionParams.sessionId := Some EmptyString |}) m
  = (Throws missing_ids, m)
  /\ getSession env
       (Some {| GetSessionParams.browserId := Some EmptyString;
                GetSessionParams.sessionId := None |}) m
     = (Throws missing_ids, m)
  /\ updateBrowserStream env
       {| UpdateStreamParams.browserId := browserId;
          UpdateStreamParams.sessionId := Some EmptyString;
          UpdateStreamParams.streamStatus := status |} m
     = (Throws missing_ids, m)
  /\ updateBrowserStream env
       {| UpdateStreamParams.browserId := Some EmptyString;
          UpdateStreamParams.sessionId := None;
          UpdateStreamParams.streamStatus := status |} m
     = (Throws missing_ids, m).
Proof.
  unfold getSession, updateBrowserStream. run.
  cbn [field_of default target_session truthy negb orb String.eqb
       GetSessionParams.browserId GetSessionParams.sessionId
       UpdateStreamParams.browserId UpdateStreamParams.sessionId].
  rewrite !orb_true_r. auto.
Qed.


(** X15.  What [updateBrowserStream] returns has no other field than
    [streamEndpoint] and [streamStatus], each of them only with a
    truthy value; a response without automation stream gives the empty
    object. *)
Theorem updateBrowserStream_result_fields (m m' : Machine t)
  (params : UpdateStreamParams.t) (result : JSValue) :
  updateBrowserStream env params m = (Returns result, m') ->
  exists entries,
    result = JObj entries
    /\ forall key value,
         In (key, value) entries ->
         (key = "streamEndpoint" \/ key = "streamStatus")
         /\ truthy value = true.
Proof.
  intros H. unfold updateBrowserStream in H. run_in H.
  destruct (negb _ || negb _); [discriminate|].
  destruct (env _ (trace m) _) as [response|e]; [|discriminate].
  cbv zeta in H. inversion H; subst result m'. clear H.
  eexists. split; [reflexivity|].
  intros key value Hin. apply in_app_or in Hin.
  unfold field_if in Hin.
  destruct Hin as [Hin|Hin];
    match type of Hin with
    | In _ (if ?c then _ else _) => destruct c eqn:Ht
    end; cbn in Hin; try contradiction;
    destruct Hin as [Heq|[]]; inversion Heq; subst; auto.
Qed.

(** X16.  The connection [generateWebSocketUrl] returns: the URL is
    the one built from the region, the identifier and the session id,
    and owes nothing to the signer; the headers are the headers of the
    signed request whose value is a string, and no others; the
    credentials are resolved first and the request is signed next, with
    no other call; and the instance is left as it was. *)
Theorem generateWebSocketUrl_connection (m m' : Machine t)
  (connection : WebSocketConnection.t) :
  generateWebSocketUrl env m = (Returns connection, m') ->
  exists session id credentials signed,
    let host := "bedrock-agentcore." ++ region (self m) ++ ".amazonaws.com" in
    let path :=
      "/browser-streams/" ++ identifier (self m) ++ "/sessions/" ++ id
        ++ "/automation" in
    let resolving := ResolveCredentials (_credentialsProvider (self m)) in
    let signing :=
      Sign {| protocol := "wss:"; hostname := host; path := path;
              method := "GET"; headers := [("host", JStr host)] |}
        (region (self m)) credentials in
    _session (self m) = Some session
    /\ ToString (sessionId session) = Returns id
    /\ WebSocketConnection.url connection = "wss://" ++ host ++ path
    /\ m' = after (after m resolving) signing
    /\ env _ (trace (after m resolving)) signing = Returns signed
    /\ forall key value,
         In (key, value) (WebSocketConnection.headers connection)
         <-> In (key, JStr value) (headers signed).
Proof.
  intros H. unfold generateWebSocketUrl in H. run_in H.
  destruct (_session (self m)) as [session|] eqn:Hs; [|discriminate].
  destruct (ToString (sessionId session)) as [id|e0] eqn:Hid; [|discriminate].
  destruct (env _ (trace m) (ResolveCredentials _)) as [credentials|e1];
    [|discriminate].
  destruct (env _ _ (Sign _ _ _)) as [signed|e2] eqn:Hsign; [|discriminate].
  inversion H; subst connection m'. clear H.
  exists session, id, credentials, signed. cbv zeta.
  split; [reflexivity|]. split; [exact Hid|]. split; [reflexivity|].
  split; [reflexivity|]. split; [exact Hsign|].
  cbn [WebSocketConnection.headers]. apply string_headers_In.
Qed.

End Browsing.

(** A fresh browser at a time that is known; the service answers the
    start without a creation time. *)
Lemma browser_creation_time_witness :
  exists info m',
    Browser.startSession (starting undated_start) clock None browser
    = (Returns info, m')
    /\ createdAt info = clock
    /\ nullish (createdAt info) = false
    /\ Browser._session (self m') = Some info.
Proof.
  eexists. eexists.
  assert (Hrun : Browser.startSession (starting undated_start) clock None
                   browser
                 = (Returns _, _)) by (lazy; reflexivity).
  destruct (browser_session_has_creation_time (starting undated_start) clock
              browser _ None _ eq_refl Hrun)
    as (response & Hsend & _ & _ & Hnone & Hthere & Hslot).
  change (Returns undated_start = Returns response) in Hsend.
  injection Hsend as <-.
  split; [exact Hrun|]. split; [apply Hnone; reflexivity|].
  split; [exact Hthere|exact Hslot].
Defined.

(** Explicit ids on a browser whose own session is another one. *)
Lemma getSession_queries_witness :
  snd (Browser.getSession reliable
         (Some {| Browser.GetSessionParams.browserId := Some "custom.browser";
                  Browser.GetSessionParams.sessionId := Some "session-7" |})
         active_browser)
  = after active_browser
      (Send (GetBrowserSessionCommand "custom.browser" (JStr "session-7"))).
Proof.
  apply (proj1 (getSession_queries_once reliable active_browser
                  (Some {| Browser.GetSessionParams.browserId :=
                             Some "custom.browser";
                           Browser.GetSessionParams.sessionId :=
                             Some "session-7" |})
                  eq_refl eq_refl)).
Defined.


(** The active browser disables its automation stream. *)
Lemma updateBrowserStream_result_witness :
  exists result m' entries,
    Browser.updateBrowserStream (describing ready_session)
      {| Browser.UpdateStreamParams.browserId := None;
         Browser.UpdateStreamParams.sessionId := None;
         Browser.UpdateStreamParams.streamStatus := "DISABLED" |}
      active_browser
    = (Returns result, m')
    /\ result = JObj entries
    /\ forall key value,
         In (key, value) entries ->
         (key = "streamEndpoint" \/ key = "streamStatus")
         /\ truthy value = true.
Proof.
  eexists. eexists.
  assert (Hrun : Browser.updateBrowserStream (describing ready_session)
                   {| Browser.UpdateStreamParams.browserId := None;
                      Browser.UpdateStreamParams.sessionId := None;
                      Browser.UpdateStreamParams.streamStatus := "DISABLED" |}
                   active_browser
                 = (Returns _, _)) by (lazy; reflexivity).
  destruct (updateBrowserStream_result_fields (describing ready_session)
              active_browser _ _ _ Hrun) as [entries [Hresult Hentries]].
  exists entries. split; [exact Hrun|]. split; [exact Hresult|exact Hentries].
Defined.

(** The connection of the active browser in the reliable world. *)
Lemma generateWebSocketUrl_witness :
  exists connection m' session id credentials signed,
    Browser.generateWebSocketUrl reliable active_browser
    = (Returns connection, m')
    /\ Browser._session (self active_browser) = Some session
    /\ ToString (sessionId session) = Returns id
    /\ Browser.WebSocketConnection.url connection
       = "wss://bedrock-agentcore.us-east-1.amazonaws.com"
           ++ "/browser-streams/aws.browser.v1/sessions/" ++ id
           ++ "/automation"
    /\ @reliable _ (trace active_browser
                      ++ [Ev (ResolveCredentials None)])%list
         (Sign {| protocol := "wss:";
                  hostname := "bedrock-agentcore.us-east-1.amazonaws.com";
                  path := "/browser-streams/aws.browser.v1/sessions/" ++ id
                            ++ "/automation";
                  method := "GET";
                  headers :=
                    [("host",
                      JStr "bedrock-agentcore.us-east-1.amazonaws.com")] |}
            "us-east-1" credentials)
       = Returns signed
    /\ forall key value,
         In (key, value) (Browser.WebSocketConnection.headers connection)
         <-> In (key, JStr value) (headers signed).
Proof.
  eexists. eexists.
  assert (Hrun : Browser.generateWebSocketUrl reliable active_browser
                 = (Returns _, _)) by (lazy; reflexivity).
  destruct (generateWebSocketUrl_connection reliable active_browser _ _ Hrun)
    as (session & id & credentials & signed & Hs & Hid & Hurl & _ & Hsign & Hh).
  exists session, id, credentials, signed.
  split; [exact Hrun|]. split; [exact Hs|]. split; [exact Hid|].
  split; [exact Hurl|]. split; [exact Hsign|exact Hh].
Defined.

(** ** The Playwright connection *)

Section PlaywrightSteps.

Import PlaywrightBrowser.

Variable env : Env.
Variable now : JSValue.

(** [stopSession] on an instance with a session and a cached Playwright
    browser, call by call. *)
Lemma playwright_stopSession_steps (m : Machine t) (s : SessionInfo)
  (b : BrowserHandle) :
  _session (self m) = Some s ->
  _playwrightBrowser (self m) = Some b ->
  stopSession env m
  = let close := BrowserClose b in
    let m1 :=
      match env _ (trace m) close with
      | Returns _ =>
          with_self (after m close)
            (set_playwrightPage None (set_playwrightBrowser None (self m)))
      | Throws _ => after m close
      end in
    let stop := Send (Browser.stop_command (base (self m)) s) in
    match env _ (trace m1) stop with
    | Returns _ =>
        (Returns tt,
         with_self (after m1 stop)
           (set_base (Browser.set_session None (base (self m))) (self m1)))
    | Throws e => (Throws e, after m1 stop)
    end.
Proof.
  intros Hs Hb. unfold stopSession. unfold await at 1.
  assert (Hstop : forall m0 : Machine t,
             base (self m0) = base (self m) ->
             inherited (Browser.stopSession env) m0
             = let stop := Send (Browser.stop_command (base (self m)) s) in
               match env _ (trace m0) stop with
               | Returns _ =>
                   (Returns tt,
                    with_self (after m0 stop)
                      (set_base (Browser.set_session None (base (self m)))
                         (self m0)))
               | Throws e => (Throws e, after m0 stop)
               end).
  { intros m0 H0. unfold inherited.
    rewrite (browser_stopSession_active env _ s)
      by (cbn [self]; rewrite H0; exact Hs).
    cbv zeta. cbn [self trace]. rewrite H0.
    destruct (env _ (trace m0) (Send (Browser.stop_command (base (self m)) s)));
      unfold with_self, after; cbn [self trace]; [reflexivity|].
    rewrite <- H0, set_base_base. reflexivity. }
  run. rewrite Hb. cbv zeta.
  destruct (env _ (trace m) (BrowserClose b)); cbn [self trace];
    rewrite Hstop by reflexivity; reflexivity.
Qed.


End PlaywrightSteps.

Section Playwright.

Import PlaywrightBrowser.

Variable env : Env.
Variable now : JSValue.



(** X19.  When the service refuses to stop the session, [stopSession]
    throws that error and the session stays in the slot, but the
    Playwright connection has been closed and dropped already: the next
    operation connects again, in the same session. *)
Theorem failed_stop_drops_connection_only (m : Machine t)
  (s : SessionInfo) (b : BrowserHandle) (e : Thrown) :
  let close := BrowserClose b in
  let stop := Send (Browser.stop_command (base (self m)) s) in
  _session (self m) = Some s ->
  _playwrightBrowser (self m) = Some b ->
  env _ (trace m) close = Returns tt ->
  env _ (trace m ++ [Ev close])%list stop = Throws e ->
  exists m1,
    stopSession env m = (Throws e, m1)
    /\ _session (self m1) = Some s
    /\ _playwrightBrowser (self m1) = None
    /\ _playwrightPage (self m1) = None
    /\ _ensureConnected env now m1 = _connectPlaywright env m1.
Proof.
  intros close stop Hs Hb Hclose Hstop.
  rewrite (playwright_stopSession_steps env m s b Hs Hb).
  cbv zeta. fold close. rewrite Hclose. fold stop.
  cbn [with_self after trace self]. rewrite Hstop.
  eexists. split; [reflexivity|].
  cbn [after self trace].
  split; [exact Hs|]. split; [reflexivity|]. split; [reflexivity|].
  rewrite (_ensureConnected_active env now _ s) by exact Hs.
  reflexivity.
Qed.

(** X20.  Once [_ensureConnected] has returned, calling it again is a
    no-op in every world: it issues no call and assigns nothing, so the
    operations of a client share one session and one connection. *)
Theorem ensureConnected_is_idempotent (m m1 : Machine t) (env' : Env)
  (now' : JSValue) :
  _ensureConnected env now m = (Returns tt, m1) ->
  _ensureConnected env' now' m1 = (Returns tt, m1).
Proof.
  intros H.
  destruct (_ensureConnected_connected env now m m1 H)
    as (s & b & p & Hs & Hb & Hp).
  rewrite (_ensureConnected_active env' now' m1 s Hs), Hb, Hp. reflexivity.
Qed.

(** X21.  A connection attempt that fails caches no page and leaves the
    session alone, so that the next operation of an instance that had
    no page connects again instead of using a connection that is not
    there. *)
Theorem failed_connection_caches_no_page (m m1 : Machine t) (e : Thrown) :
  _connectPlaywright env m = (Throws e, m1) ->
  _playwrightPage (self m1) = _playwrightPage (self m)
  /\ base (self m1) = base (self m)
  /\ forall s,
       _session (self m) = Some s ->
       _playwrightPage (self m) = None ->
       _ensureConnected env now m1 = _connectPlaywright env m1.
Proof.
  intros H.
  assert (Hkeep : _playwrightPage (self m1) = _playwrightPage (self m)
                  /\ base (self m1) = base (self m)).
  { unfold _connectPlaywright in H. run_in H.
    cases_in H; try discriminate; inversion H; subst; cbn;
      try match goal with
        | E : inherited _ ?m0 = (_, ?m2) |- _ =>
            pose proof (generateWebSocketUrl_readonly env m0) as Hself;
            rewrite E in Hself; cbn [snd self] in Hself; rewrite Hself
        end; auto. }
  destruct Hkeep as [Hpage Hbase]. split; [exact Hpage|]. split; [exact Hbase|].
  intros s Hs Hnone.
  assert (Hs1 : _session (self m1) = Some s)
    by (unfold _session; rewrite Hbase; exact Hs).
  rewrite (_ensureConnected_active env now m1 s Hs1), Hpage, Hnone.
  destruct (_playwrightBrowser (self m1)); reflexivity.
Qed.

(** X22.  A connection that succeeds caches the browser that
    [connectOverCDP] resolved to, and takes the first page of the first
    context of that browser; only when that context has no page does it
    open one, in that context, as the last call after
    [connectOverCDP]. *)
Theorem connect_chooses_page (m m1 : Machine t) :
  _connectPlaywright env m = (Returns tt, m1) ->
  exists browser context others url hdrs before,
    env _ before (ConnectOverCDP url hdrs) = Returns browser
    /\ _playwrightBrowser (self m1) = Some browser
    /\ contexts browser = context :: others
    /\ match pages context with
       | page :: _ =>
           _playwrightPage (self m1) = Some page
           /\ trace m1 = (before ++ [Ev (ConnectOverCDP url hdrs)])%list
       | [] =>
           exists page,
             _playwrightPage (self m1) = Some page
             /\ env _ (before ++ [Ev (ConnectOverCDP url hdrs)])%list
                  (NewPage context)
                = Returns page
             /\ trace m1
                = (before ++ [Ev (ConnectOverCDP url hdrs);
                              Ev (NewPage context)])%list
       end.
Proof.
  intros H. unfold _connectPlaywright in H. run_in H.
  cases_in H; try discriminate; inversion H; subst; clear H;
    cbn [self trace _playwrightBrowser _playwrightPage
         set_playwrightBrowser set_playwrightPage];
    eexists _, _, _, _, _, _;
    (split; [eassumption|]);
    (split; [reflexivity|]); (split; [eassumption|]);
    match goal with
    | E : pages _ = _ |- _ => rewrite E
    end.
  - eexists. split; [reflexivity|]. split; [eassumption|].
    rewrite <- app_assoc. reflexivity.
  - split; reflexivity.
Qed.

(** X23.  [getText] with a selector that finds no element throws
    [Element not found] with the selector, after the one lookup and
    without reading any text. *)
Theorem getText_missing_element (m m1 : Machine t) (page : PageHandle)
  (selector : string) :
  let query := PageQuery page selector in
  _ensureConnected env now m = (Returns tt, m1) ->
  _playwrightPage (self m1) = Some page ->
  selector <> EmptyString ->
  env _ (trace m1) query = Returns None ->
  getText env now {| GetTextParams.selector := Some selector |} m
  = (Throws (ErrorObject "Error" ("Element not found: " ++ selector)),
     after m1 query).
Proof.
  intros query H Hp Hne Hq.
  unfold getText. unfold await at 1. rewrite H.
  cbn [GetTextParams.selector truthy].
  destruct (String.eqb_spec selector EmptyString) as [->|_];
    [contradiction|].
  cbn [negb]. unfold playwrightPage. run. rewrite Hp.
  fold query. rewrite Hq. reflexivity.
Qed.

(** X24.  Without a selector, and also with the empty selector,
    [getText] reads the text of the body with one call and looks up no
    element; a text that is [null] is returned as the empty string. *)
Theorem getText_whole_page (m m1 : Machine t) (page : PageHandle)
  (params : GetTextParams.t) :
  let read := PageTextContent page "body" in
  _ensureConnected env now m = (Returns tt, m1) ->
  _playwrightPage (self m1) = Some page ->
  GetTextParams.selector params = None
  \/ GetTextParams.selector params = Some EmptyString ->
  getText env now params m
  = (match env _ (trace m1) read with
     | Returns text => Returns (default text EmptyString)
     | Throws e => Throws e
     end,
     after m1 read).
Proof.
  intros read H Hp Hsel.
  unfold getText. unfold await at 1. rewrite H.
  assert (Hbody :
            (page <- playwrightPage "textContent" ;;
             text <- perform env (PageTextContent page "body") ;;
             resolve (default text EmptyString))%async m1
            = (match env _ (trace m1) read with
               | Returns text => Returns (default text EmptyString)
               | Throws e => Throws e
               end,
               after m1 read)).
  { unfold playwrightPage. run. rewrite Hp. fold read.
    destruct (env _ (trace m1) read); reflexivity. }
  destruct Hsel as [-> | ->]; [exact Hbody|].
  cbn [truthy String.eqb negb]. exact Hbody.
Qed.

End Playwright.



(** The connected client in the world where the service refuses to
    stop sessions. *)
Lemma failed_stop_witness :
  exists m1,
    PlaywrightBrowser.stopSession stop_fails connected_playwright
    = (Throws network_down, m1)
    /\ PlaywrightBrowser._session (self m1)
       = Some {| sessionName := "default";
                 sessionId := JStr "session-1";
                 createdAt := JNum 1700000000;
                 description := None |}
    /\ PlaywrightBrowser._playwrightBrowser (self m1) = None
    /\ PlaywrightBrowser._playwrightPage (self m1) = None
    /\ PlaywrightBrowser._ensureConnected stop_fails clock m1
       = PlaywrightBrowser._connectPlaywright stop_fails m1.
Proof.
  apply (failed_stop_drops_connection_only stop_fails clock
           connected_playwright
           {| sessionName := "default";
              sessionId := JStr "session-1";
              createdAt := JNum 1700000000;
              description := None |}
           {| browser_id := 1;
              contexts := [{| context_id := 1; pages := [1] |}] |}
           network_down);
    reflexivity.
Defined.

(** The first operation of a fresh client, and the second one in a
    world where nothing works any more. *)
Lemma ensureConnected_idempotent_witness :
  PlaywrightBrowser._ensureConnected
    (failing (fun _ _ => true) network_down) JNull connected_playwright
  = (Returns tt, connected_playwright).
Proof.
  apply (ensureConnected_is_idempotent reliable clock playwright
           connected_playwright (failing (fun _ _ => true) network_down)
           JNull).
  reflexivity.
Defined.

(** A client with a session, in the world where the remote browser has
    no context. *)
Lemma failed_connection_witness :
  PlaywrightBrowser._playwrightPage
    (self (snd (PlaywrightBrowser._connectPlaywright no_context
                  (snd (PlaywrightBrowser.startSession no_context clock None
                          playwright)))))
  = None.
Proof.
  apply (proj1 (failed_connection_caches_no_page no_context clock
                  (snd (PlaywrightBrowser.startSession no_context clock None
                          playwright))
                  (snd (PlaywrightBrowser._connectPlaywright no_context
                          (snd (PlaywrightBrowser.startSession no_context
                                  clock None playwright))))
                  (ErrorObject "Error" "No browser contexts available")
                  eq_refl)).
Defined.

(** A client with a session, in the world where the remote browser has
    a context and no page yet. *)
Lemma connect_chooses_page_witness :
  exists browser context others url hdrs before,
    @no_page_yet _ before (ConnectOverCDP url hdrs) = Returns browser
    /\ PlaywrightBrowser._playwrightBrowser
         (self (snd (PlaywrightBrowser._ensureConnected no_page_yet clock
                       playwright)))
       = Some browser
    /\ contexts browser = context :: others
    /\ match pages context with
       | page :: _ =>
           PlaywrightBrowser._playwrightPage
             (self (snd (PlaywrightBrowser._ensureConnected no_page_yet clock
                           playwright)))
           = Some page
           /\ trace (snd (PlaywrightBrowser._ensureConnected no_page_yet
                            clock playwright))
              = (before ++ [Ev (ConnectOverCDP url hdrs)])%list
       | [] =>
           exists page,
             PlaywrightBrowser._playwrightPage
               (self (snd (PlaywrightBrowser._ensureConnected no_page_yet
                             clock playwright)))
             = Some page
             /\ @no_page_yet _ (before ++ [Ev (ConnectOverCDP url hdrs)])%list
                  (NewPage context)
                = Returns page
             /\ trace (snd (PlaywrightBrowser._ensureConnected no_page_yet
                              clock playwright))
                = (before ++ [Ev (ConnectOverCDP url hdrs);
                              Ev (NewPage context)])%list
       end.
Proof.
  apply (connect_chooses_page no_page_yet
           (snd (PlaywrightBrowser.startSession no_page_yet clock None
                   playwright))
           (snd (PlaywrightBrowser._ensureConnected no_page_yet clock
                   playwright))).
  reflexivity.
Defined.

(** The connected client in the world where no selector finds an
    element. *)
Lemma getText_missing_witness :
  PlaywrightBrowser.getText nothing_found clock
    {| PlaywrightBrowser.GetTextParams.selector := Some ".missing" |}
    connected_playwright
  = (Throws (ErrorObject "Error" "Element not found: .missing"),
     after connected_playwright (PageQuery 1%nat ".missing")).
Proof.
  apply (getText_missing_element nothing_found clock connected_playwright
           connected_playwright 1%nat ".missing");
    [reflexivity|reflexivity|discriminate|reflexivity].
Defined.

(** The connected client asked for the text of the empty selector. *)
Lemma getText_whole_page_witness :
  PlaywrightBrowser.getText reliable clock
    {| PlaywrightBrowser.GetTextParams.selector := Some EmptyString |}
    connected_playwright
  = (Returns "Page content",
     after connected_playwright (PageTextContent 1%nat "body")).
Proof.
  apply (getText_whole_page reliable clock connected_playwright
           connected_playwright 1%nat
           {| PlaywrightBrowser.GetTextParams.selector := Some EmptyString |});
    [reflexivity|reflexivity|right; reflexivity].
Defined.

(** ** Listing the sessions of a browser *)

Section Listed.

Import Listing.

Variable send : ListBrowserSessionsInput -> Completion SdkOutput.

Lemma truthy_string_well_formed (value : option string) :
  match truthy_string value with
  | Some s => truthy (JStr s)
  | None => true
  end = true.
Proof.
  destruct value as [s|]; [|reflexivity]. unfold truthy_string.
  destruct (truthy (JStr s)) eqn:E; [exact E|reflexivity].
Qed.

Lemma truthy_number_well_formed (value : option Z) :
  match truthy_number value with
  | Some n => truthy (JNum n)
  | None => true
  end = true.
Proof.
  destruct value as [n|]; [|reflexivity]. unfold truthy_number.
  destruct (truthy (JNum n)) eqn:E; [exact E|reflexivity].
Qed.

(** X25.  The command of [listSessions] always names a browser and
    never carries an empty status, an empty token or a limit of zero:
    a transport that rejects every other input cannot be told from the
    transport itself.  A filter with such a value is the filter left
    out. *)
Theorem listSessions_filters (params : option ListSessionsParams.t)
  (browserId : option string) (error : Thrown) (m : Machine Browser.t) :
  listSessions send params m = listSessions (guarded send error) params m
  /\ listSessions send
       (Some {| ListSessionsParams.browserId := browserId;
                ListSessionsParams.status := Some EmptyString;
                ListSessionsParams.maxResults := Some 0%Z;
                ListSessionsParams.nextToken := Some EmptyString |}) m
     = listSessions send
         (Some {| ListSessionsParams.browserId := browserId;
                  ListSessionsParams.status := None;
                  ListSessionsParams.maxResults := None;
                  ListSessionsParams.nextToken := None |}) m.
Proof.
  split; [|reflexivity].
  unfold listSessions. run.
  destruct (truthy (JStr (default (field_of params ListSessionsParams.browserId)
                            (Browser.identifier (self m))))) eqn:Hb;
    cbn [negb]; [|reflexivity].
  unfold guarded at 1, well_formed.
  cbn [browserIdentifier status maxResults nextToken].
  rewrite Hb, !truthy_string_well_formed, truthy_number_well_formed.
  reflexivity.
Qed.




(** X27.  An identifier given to the constructor as the empty string is
    kept, not replaced by the default one; the client then refuses to
    list sessions, and to describe one even while a session is active,
    unless a browser id comes with the call. *)
Theorem empty_identifier_is_kept (region AWS_REGION provider : option string)
  (session : option SessionInfo) (history : list Event) (env : Env) :
  let client :=
    Browser.set_session session
      (Browser.constructor region (Some EmptyString) AWS_REGION provider) in
  let m := {| self := client; trace := history |} in
  Browser.identifier client = EmptyString
  /\ listSessions send None m = (Throws missing_browser_id, m)
  /\ Browser.getSession env None m = (Throws Browser.missing_ids, m).
Proof.
  split; [reflexivity|]. split; reflexivity.
Qed.

End Listed.


(** ** The screenshot tool *)

(** X28.  The screenshot tool never rejects: a failure of
    [client.screenshot] comes back as a result whose [success] is
    false, with the message of the error, and [success] is true exactly
    when the screenshot was taken.  The image is part of the result
    only when the [base64] encoding was asked for. *)
Theorem screenshot_tool_never_rejects
  (screenshot : list (string * JSValue) -> Completion JSValue)
  (input : ScreenshotTool.Input) :
  exists result,
    ScreenshotTool.execute screenshot input = Returns result
    /\ (get_opt result "success" = JBool true
        <-> exists shot,
              screenshot (ScreenshotTool.params_of input) = Returns shot)
    /\ (forall error,
          screenshot (ScreenshotTool.params_of input) = Throws error ->
          get_opt result "success" = JBool false
          /\ get_opt result "error" = JStr (message_or error "Unknown error"))
    /\ (ScreenshotTool.encoding input <> Some "base64" ->
        get_opt result "screenshot" = JUndefined).
Proof.
  unfold ScreenshotTool.execute.
  destruct (screenshot (ScreenshotTool.params_of input)) as [shot|error];
    eexists; (split; [reflexivity|]);
    cbn [get_opt lookup String.eqb Ascii.eqb Bool.eqb].
  - split; [split; eauto|]. split; [discriminate|].
    intros Hne. destruct (ScreenshotTool.encoding input) as [e|];
      [|reflexivity].
    destruct (String.eqb_spec e "base64") as [->|_];
      [contradiction|reflexivity].
  - split; [split; [discriminate|intros [shot H]; discriminate]|].
    split; [|reflexivity].
    intros e H. inversion H; subst. auto.
Qed.

(** The connection is lost while a binary screenshot is taken. *)
Lemma screenshot_tool_witness :
  exists result,
    ScreenshotTool.execute (fun _ => Throws network_down)
      {| ScreenshotTool.path := None;
         ScreenshotTool.fullPage := Some true;
         ScreenshotTool.type := None;
         ScreenshotTool.encoding := Some "binary" |}
    = Returns result
    /\ get_opt result "success" = JBool false
    /\ get_opt result "error" = JStr "connect ECONNREFUSED"
    /\ get_opt result "screenshot" = JUndefined.
Proof.
  destruct (screenshot_tool_never_rejects (fun _ => Throws network_down)
              {| ScreenshotTool.path := None;
                 ScreenshotTool.fullPage := Some true;
                 ScreenshotTool.type := None;
                 ScreenshotTool.encoding := Some "binary" |})
    as (result & Hrun & _ & Herror & Hshot).
  exists result. split; [exact Hrun|].
  destruct (Herror network_down eq_refl) as [Hsuccess Hmessage].
  split; [exact Hsuccess|]. split; [exact Hmessage|].
  apply Hshot. discriminate.
Defined.

End Extras.
